(** * A shallow embedding of the backtesting engine of the trading-strategy
      repository

    Sources embedded here:
    - [src/strategy/base_strategy.py]: [BaseStrategy.backtest] and
      [BaseStrategy.calculate_performance_metrics];
    - [src/strategy/buyhold_strategy.py]: [BuyHoldStrategy];
    - [src/visualizations.py]: [format_metrics_for_display], and what
      [create_portfolio_plot] does to the table it is given;
    - [src/strategy/macd_strategy.py]: [MACDStrategy];
    - [src/app.py]: the metric cards of the page.

    Modelling decisions.
    - A Python [float] and a numpy [float64] are IEEE 754 binary64 numbers:
      they are Rocq's primitive [float]s, with the same addition,
      subtraction, multiplication, division, square root and comparisons.
      Floor division, [int()], [str.format] with [.2f] and [float(str)] are
      defined on the exact value of a float (module [PyFloat]).
    - Python integers are [Z]; a timestamp of a [DatetimeIndex] is the [Z]
      number of nanoseconds it stores.
    - A raised exception is a value of [exn]; a function that can raise
      returns a [result].
    - A [DataFrame] is column oriented, as pandas has it: an index and named
      columns that are read and written by position.  The columns the engine
      fills with integers first and floats later ([cash], [holdings],
      [total_value], [returns]) are float columns from the start, and
      [position] is a column of unbounded integers.  pandas keeps such a
      column [int64] until a value that is no whole number is written to
      it; a cell then holds the same number, and the theorems about the
      cells of a returned table read the same.  What the model leaves out
      is the type of a cell read from a column that stayed [int64]
      ([total_return] is then a numpy integer), the sign of a [-0.0]
      stored in it, and the error of a write beyond [int64].
    - pandas reductions ([mean], [std], [cumprod], [cummax], [min]) skip
      NaN as pandas does; the sums in them are numpy's pairwise sums
      ([Series.sum]).
    - A [str] is its UTF-8 bytes; [str.split()] and [float(str)] work on
      its code points, with Python's white space and the decimal digits of
      Unicode 15 (module [Unicode]).
    - [x ** y] on floats is the C library's [pow]; it is a parameter
      ([float_pow]) of the metrics computation.  So are the values of
      pandas' exponentially weighted mean ([ewm_mean]) for the MACD
      strategy; that it refuses a span below 1 is modelled ([ewm]).
    - An exception carries no line number.  Where a theorem says at which
      place of [backtest] a run raises, it is stated on [backtest_outcome],
      which runs the same steps and keeps the place. *)

From Stdlib Require Import Ascii ZArith Floats.
From stdpp Require Import gmap strings list pretty.

Open Scope Z_scope.

(** ** Exceptions and results *)

Inductive exn : Set :=
  | IndexError
  | KeyError
  | TypeError
  | ValueError
  | OverflowError
  | ZeroDivisionError.

Inductive result (A : Type) : Type :=
  | Ok (a : A)
  | Raise (e : exn).
Arguments Ok {A} a.
Arguments Raise {A} e.

Global Instance result_ret : MRet result := fun A a => Ok a.
Global Instance result_bind : MBind result := fun A B k m =>
  match m with
  | Ok a => k a
  | Raise e => Raise e
  end.

Global Instance result_fmap : FMap result := fun A B f m =>
  match m with
  | Ok a => Ok (f a)
  | Raise e => Raise e
  end.

(** [l[i]] and [s.iloc[i]] for [0 <= i]: out of range raises. *)
Definition at_index {A} (l : list A) (i : nat) : result A :=
  match l !! i with
  | Some a => Ok a
  | None => Raise IndexError
  end.

(** [l[-1]] and [s.iloc[-1]]. *)
Definition at_last {A} (l : list A) : result A :=
  match last l with
  | Some a => Ok a
  | None => Raise IndexError
  end.

(** ** Characters *)

(** A [str] is held as its UTF-8 bytes; the operations that look at its
    characters read the code points back. *)
Module Unicode.

Local Open Scope N_scope.

(** The code points of a UTF-8 string.  [pending] is the number of
    continuation bytes the character being read still lacks and [acc] what
    has been read of it.  A byte that cannot start a character stands for
    itself. *)
Fixpoint decode (s : string) (pending : nat) (acc : N) : list N :=
  match s with
  | EmptyString => []
  | String c s' =>
      let b := N_of_ascii c in
      match pending with
      | O =>
          if b <? 192 then b :: decode s' 0 0
          else if b <? 224 then decode s' 1 (b - 192)
          else if b <? 240 then decode s' 2 (b - 224)
          else decode s' 3 (b - 240)
      | S p =>
          let acc := acc * 64 + b mod 64 in
          match p with
          | O => acc :: decode s' 0 0
          | _ => decode s' p acc
          end
      end
  end.

Definition code_points (s : string) : list N := decode s 0 0.

Definition byte (n : N) : ascii := ascii_of_N n.

(** The UTF-8 bytes of one code point. *)
Definition encode_point (c : N) (rest : string) : string :=
  if c <? 0x80 then String (byte c) rest
  else if c <? 0x800 then
    String (byte (192 + c / 64)) (String (byte (128 + c mod 64)) rest)
  else if c <? 0x10000 then
    String (byte (224 + c / 4096))
      (String (byte (128 + (c / 64) mod 64))
         (String (byte (128 + c mod 64)) rest))
  else
    String (byte (240 + c / 262144))
      (String (byte (128 + (c / 4096) mod 64))
         (String (byte (128 + (c / 64) mod 64))
            (String (byte (128 + c mod 64)) rest))).

Definition encode (l : list N) : string := foldr encode_point EmptyString l.

(** [str.isspace] of one character, which is what [str.split()] splits
    at. *)
Definition is_space (c : N) : bool :=
  ((0x09 <=? c) && (c <=? 0x0D)) || ((0x1C <=? c) && (c <=? 0x20))
  || (c =? 0x85) || (c =? 0xA0) || (c =? 0x1680)
  || ((0x2000 <=? c) && (c <=? 0x200A))
  || (c =? 0x2028) || (c =? 0x2029) || (c =? 0x202F) || (c =? 0x205F)
  || (c =? 0x3000).

(** The digit zero of each script that has decimal digits (category [Nd]
    of Unicode 15); the nine digits that follow it are its 1 to 9. *)
Definition decimal_zeros : list N :=
  [0x0030; 0x0660; 0x06F0; 0x07C0; 0x0966; 0x09E6; 0x0A66; 0x0AE6; 0x0B66;
   0x0BE6; 0x0C66; 0x0CE6; 0x0D66; 0x0DE6; 0x0E50; 0x0ED0; 0x0F20; 0x1040;
   0x1090; 0x17E0; 0x1810; 0x1946; 0x19D0; 0x1A80; 0x1A90; 0x1B50; 0x1BB0;
   0x1C40; 0x1C50; 0xA620; 0xA8D0; 0xA900; 0xA9D0; 0xA9F0; 0xAA50; 0xABF0;
   0xFF10; 0x104A0; 0x10D30; 0x11066; 0x110F0; 0x11136; 0x111D0; 0x112F0;
   0x11450; 0x114D0; 0x11650; 0x116C0; 0x11730; 0x118E0; 0x11950; 0x11C50;
   0x11D50; 0x11DA0; 0x11F50; 0x16A60; 0x16AC0; 0x16B50; 0x1D7CE; 0x1D7D8;
   0x1D7E2; 0x1D7EC; 0x1D7F6; 0x1E140; 0x1E2F0; 0x1E4F0; 0x1E950; 0x1FBF0].

(** The value of a decimal digit of any script. *)
Definition decimal (c : N) : option N :=
  match
    list_find (fun z => (z <=? c) && (c <? z + 10) = true) decimal_zeros
  with
  | Some (_, z) => Some (c - z)
  | None => None
  end.

End Unicode.

(** ** Python's float operations the engine uses *)

Module PyFloat.

Local Open Scope float_scope.

Definition signed_zero (s : bool) : float := if s then neg_zero else zero.

(** Conversion of a Python integer to a float, rounded to nearest even. *)
Definition of_int (z : Z) : float :=
  SF2Prim (binary_normalize prec emax z 0%Z false).

(** C's [fmod]: the exact remainder of the truncated quotient, with the
    sign of [a]. *)
Definition fmod (a b : float) : float :=
  match Prim2SF a, Prim2SF b with
  | S754_nan, _ | _, S754_nan => nan
  | S754_infinity _, _ => nan
  | _, S754_zero _ => nan
  | S754_zero _, _ => a
  | S754_finite _ _ _, S754_infinity _ => a
  | S754_finite sa ma ea, S754_finite _ mb eb =>
      let e := Z.min ea eb in
      let r := ((Zpos ma * 2 ^ (ea - e)) mod (Zpos mb * 2 ^ (eb - e)))%Z in
      if (r =? 0)%Z then signed_zero sa
      else SF2Prim (binary_normalize prec emax (cond_Zopp sa r) e false)
  end.

(** C's [floor]. *)
Definition floor (x : float) : float :=
  match Prim2SF x with
  | S754_finite s m e =>
      if (0 <=? e)%Z then x
      else
        let q := (cond_Zopp s (Zpos m) / 2 ^ (- e))%Z in
        if (q =? 0)%Z then signed_zero s else of_int q
  | _ => x
  end.

(** numpy's [npy_divmod], quotient part: [a - fmod(a, b)] divided by [b],
    moved to Python's sign convention and snapped to the nearest
    integer. *)
Definition npy_divmod (a b : float) : float :=
  let mod_ := fmod a b in
  if b =? 0 then a / b
  else
    let div := (a - mod_) / b in
    let div :=
      if negb (mod_ =? 0) && negb (Bool.eqb (b <? 0) (mod_ <? 0))
      then div - 1 else div in
    if negb (div =? 0) then
      let floordiv := floor div in
      if 0.5 <? div - floordiv then floordiv + 1 else floordiv
    else signed_zero (get_sign (a / b)).

(** [a // b] on numpy float64 scalars: never raises. *)
Definition floor_divide (a b : float) : float :=
  if b =? 0 then a / b else npy_divmod a b.

(** [int(x)]: truncation towards zero; NaN and the infinities raise. *)
Definition to_int (x : float) : result Z :=
  match Prim2SF x with
  | S754_nan => Raise ValueError
  | S754_infinity _ => Raise OverflowError
  | S754_zero _ => Ok 0%Z
  | S754_finite s m e =>
      Ok (cond_Zopp s
            (if (0 <=? e)%Z then Zpos m * 2 ^ e else Zpos m / 2 ^ (- e))%Z)
  end.

(** [a / b] on Python integers: the quotient rounded to nearest even;
    a zero divisor raises. *)
Definition int_true_div (a b : Z) : result float :=
  if (b =? 0)%Z then Raise ZeroDivisionError
  else
    match a, b with
    | Z0, _ => Ok (signed_zero (b <? 0)%Z)
    | Zpos p, Zpos q | Zneg p, Zneg q =>
        Ok (SF2Prim (SFdiv prec emax (S754_finite false p 0)
                                     (S754_finite false q 0)))
    | Zpos p, Zneg q | Zneg p, Zpos q =>
        Ok (SF2Prim (SFdiv prec emax (S754_finite true p 0)
                                     (S754_finite false q 0)))
    | _, Z0 => Raise ZeroDivisionError
    end.

(** Python's [x > 0] and [x != 0] on a float. *)
Definition gt0 (x : float) : bool := 0 <? x.
Definition ne0 (x : float) : bool := negb (x =? 0).

(** *** [format(x, ".Nf")] *)

Definition round_half_even (n d : Z) : Z :=
  let q := (n / d)%Z in
  match (2 * (n mod d) ?= d)%Z with
  | Lt => q
  | Gt => (q + 1)%Z
  | Eq => if Z.even q then q else (q + 1)%Z
  end.

Fixpoint zero_pad (width : nat) (s : string) : string :=
  match width with
  | O => s
  | S w => if (String.length s <=? w)%nat
           then zero_pad w ("0" ++ s) else s
  end.

Definition fixed_digits (digits : nat) (n : Z) : string :=
  let scale := (10 ^ Z.of_nat digits)%Z in
  pretty (n / scale)%Z ++
  match digits with
  | O => ""
  | _ => "." ++ zero_pad digits (pretty (n mod scale)%Z)
  end.

(** The decimal rendering with [digits] digits after the point of the
    exact value of [x], rounded half to even. *)
Definition format_fixed (digits : nat) (x : float) : string :=
  match Prim2SF x with
  | S754_nan => "nan"
  | S754_infinity s => if s then "-inf" else "inf"
  | S754_zero s => (if s then "-" else "") ++ fixed_digits digits 0
  | S754_finite s m e =>
      let scale := (10 ^ Z.of_nat digits)%Z in
      let n := if (0 <=? e)%Z then (Zpos m * 2 ^ e * scale)%Z
               else round_half_even (Zpos m * scale) (2 ^ (- e)) in
      (if s then "-" else "") ++ fixed_digits digits n
  end.

(** *** [float(s)] *)

Definition digit_of (c : ascii) : option Z :=
  let n := nat_of_ascii c in
  if (48 <=? n)%nat && (n <=? 57)%nat then Some (Z.of_nat (n - 48))
  else None.

(** Reads the digits [s] starts with into [acc]; the number of digits read
    and the rest of [s]. *)
Fixpoint read_digits (s : string) (acc : Z) (n : nat) : Z * nat * string :=
  match s with
  | String c s' =>
      match digit_of c with
      | Some d => read_digits s' (acc * 10 + d)%Z (S n)
      | None => (acc, n, s)
      end
  | EmptyString => (acc, n, s)
  end.

Definition lower (c : ascii) : ascii :=
  let n := nat_of_ascii c in
  if (65 <=? n)%nat && (n <=? 90)%nat then ascii_of_nat (n + 32) else c.

Fixpoint lowercase (s : string) : string :=
  match s with
  | String c s' => String (lower c) (lowercase s')
  | EmptyString => EmptyString
  end.

(** The float nearest to [m * 10 ^ e10], ties to even. *)
Definition of_decimal (neg : bool) (m e10 : Z) : float :=
  match m with
  | Zpos p =>
      if (0 <=? e10)%Z
      then SF2Prim (binary_normalize prec emax
                      (cond_Zopp neg (m * 10 ^ e10)) 0%Z false)
      else SF2Prim (SFdiv prec emax
                      (S754_finite neg p 0)
                      (S754_finite false (Z.to_pos (10 ^ (- e10))) 0))
  | _ => signed_zero neg
  end.

(** The exponent part of a literal, if any: its value and what follows. *)
Definition read_exponent (s : string) : option (Z * string) :=
  match s with
  | String c s' =>
      if decide (lower c = "e"%char) then
        let '(eneg, s') :=
          match s' with
          | String "-"%char s'' => (true, s'')
          | String "+"%char s'' => (false, s'')
          | _ => (false, s')
          end in
        let '(e, n, rest) := read_digits s' 0%Z 0 in
        match n with
        | O => None
        | _ => Some (cond_Zopp eneg e, rest)
        end
      else Some (0%Z, s)
  | EmptyString => Some (0%Z, s)
  end.

(** A number without sign: [inf], [infinity] or [nan] in any case, or
    decimal digits with an optional point and an optional exponent. *)
Definition of_numeral (neg : bool) (s : string) : result float :=
  let w := lowercase s in
  if decide (w = "inf" \/ w = "infinity")
  then Ok (if neg then neg_infinity else infinity)
  else if decide (w = "nan") then Ok nan
  else
    let '(ip, ni, s) := read_digits s 0%Z 0 in
    let '(m, nf, s) :=
      match s with
      | String "."%char s' => read_digits s' ip 0
      | _ => (ip, O, s)
      end in
    match (ni + nf)%nat with
    | O => Raise ValueError
    | _ =>
        match read_exponent s with
        | Some (e, EmptyString) => Ok (of_decimal neg m (e - Z.of_nat nf))
        | _ => Raise ValueError
        end
    end.

(** What [float] makes of the characters before it reads them: an ASCII
    character stays, any other white space becomes a blank and any other
    decimal digit its ASCII digit; the first character that is none of
    these becomes [?] and ends the string. *)
Fixpoint to_ascii (l : list N) : string :=
  match l with
  | [] => EmptyString
  | c :: l =>
      if (c <? 127)%N then String (ascii_of_N c) (to_ascii l)
      else if Unicode.is_space c then String " "%char (to_ascii l)
      else
        match Unicode.decimal c with
        | Some d => String (ascii_of_N (48 + d)) (to_ascii l)
        | None => "?"
        end
  end.

(** C's [isspace] in the C locale. *)
Definition is_c_space (c : ascii) : bool :=
  let n := nat_of_ascii c in
  (n =? 32)%nat || ((9 <=? n)%nat && (n <=? 13)%nat).

Fixpoint lstrip (l : list ascii) : list ascii :=
  match l with
  | c :: l' => if is_c_space c then lstrip l' else l
  | [] => []
  end.

Definition strip (s : string) : string :=
  String.string_of_list_ascii
    (rev (lstrip (rev (lstrip (String.list_ascii_of_string s))))).

Definition is_digit (c : ascii) : bool := bool_decide (is_Some (digit_of c)).

(** The numeral without its underscores: one underscore may stand between
    two digits and nowhere else.  [prev] is the character before [s]. *)
Fixpoint without_underscores (prev : option ascii) (s : string)
  : option string :=
  match s with
  | EmptyString =>
      if decide (prev = Some "_"%char) then None else Some EmptyString
  | String c s' =>
      if decide (c = "_"%char) then
        if from_option is_digit false prev
        then without_underscores (Some c) s' else None
      else if bool_decide (prev = Some "_"%char) && negb (is_digit c)
      then None
      else String c <$> without_underscores (Some c) s'
  end.

(** [float(s)]: white space around the number is dropped and underscores
    may group its digits; an optional sign, then a number.  Anything else
    raises. *)
Definition of_string (s : string) : result float :=
  match without_underscores None (strip (to_ascii (Unicode.code_points s)))
  with
  | None => Raise ValueError
  | Some s =>
      let '(neg, s) :=
        match s with
        | String "-"%char s' => (true, s')
        | String "+"%char s' => (false, s')
        | _ => (false, s)
        end in
      of_numeral neg s
  end.

End PyFloat.

(** ** Python's string operations the engine uses *)

Module PyStr.

(** [' ' in s] *)
Fixpoint has_space (s : string) : bool :=
  match s with
  | String c s' => if decide (c = " "%char) then true else has_space s'
  | EmptyString => false
  end.

Fixpoint skip_spaces (l : list N) : list N :=
  match l with
  | c :: l' => if Unicode.is_space c then skip_spaces l' else l
  | [] => []
  end.

Fixpoint take_word (l : list N) : list N :=
  match l with
  | c :: l' => if Unicode.is_space c then [] else c :: take_word l'
  | [] => []
  end.

(** [s.split()[0]]: the first run of characters that are not white
    space; there is none in a blank string. *)
Definition first_word (s : string) : result string :=
  match take_word (skip_spaces (Unicode.code_points s)) with
  | [] => Raise IndexError
  | w => Ok (Unicode.encode w)
  end.

End PyStr.

(** ** Timestamps *)

Definition Timestamp := Z.

Definition ns_per_day : Z := 86400000000000.

(** [(a - b).days]: the whole days of a [Timedelta], rounded down. *)
Definition days_between (a b : Timestamp) : Z := (a - b) / ns_per_day.

(** ** Data frames *)

(** The bar table: the index, the price column the engine reads, the signal
    column a strategy attaches, the portfolio columns [backtest] creates, the
    two columns [calculate_performance_metrics] creates, and whatever other
    float columns the table carries (other prices, volume, indicators).  A
    column that does not exist is [None]. *)
Record DataFrame : Type := mkDataFrame {
  index : list Timestamp;
  Close : list float;
  signal_line : option (list Z);
  position : option (list Z);
  cash : option (list float);
  holdings : option (list float);
  total_value : option (list float);
  returns : option (list float);
  cumulative_returns : option (list float);
  previous_peak : option (list float);
  drawdown : option (list float);
  other_columns : gmap string (list float)
}.

(** [len(df)] *)
Definition len (df : DataFrame) : nat := length (index df).

(** [df[c] = col]: the assignment of a whole column. *)
Definition set_signal_line (c : list Z) (df : DataFrame) : DataFrame :=
  mkDataFrame (index df) (Close df) (Some c) (position df) (cash df)
    (holdings df) (total_value df) (returns df) (cumulative_returns df)
    (previous_peak df) (drawdown df) (other_columns df).
Definition set_position (c : list Z) (df : DataFrame) : DataFrame :=
  mkDataFrame (index df) (Close df) (signal_line df) (Some c) (cash df)
    (holdings df) (total_value df) (returns df) (cumulative_returns df)
    (previous_peak df) (drawdown df) (other_columns df).
Definition set_cash (c : list float) (df : DataFrame) : DataFrame :=
  mkDataFrame (index df) (Close df) (signal_line df) (position df) (Some c)
    (holdings df) (total_value df) (returns df) (cumulative_returns df)
    (previous_peak df) (drawdown df) (other_columns df).
Definition set_holdings (c : list float) (df : DataFrame) : DataFrame :=
  mkDataFrame (index df) (Close df) (signal_line df) (position df) (cash df)
    (Some c) (total_value df) (returns df) (cumulative_returns df)
    (previous_peak df) (drawdown df) (other_columns df).
Definition set_total_value (c : list float) (df : DataFrame) : DataFrame :=
  mkDataFrame (index df) (Close df) (signal_line df) (position df) (cash df)
    (holdings df) (Some c) (returns df) (cumulative_returns df)
    (previous_peak df) (drawdown df) (other_columns df).
Definition set_returns (c : list float) (df : DataFrame) : DataFrame :=
  mkDataFrame (index df) (Close df) (signal_line df) (position df) (cash df)
    (holdings df) (total_value df) (Some c) (cumulative_returns df)
    (previous_peak df) (drawdown df) (other_columns df).
Definition set_cumulative_returns (c : list float) (df : DataFrame)
  : DataFrame :=
  mkDataFrame (index df) (Close df) (signal_line df) (position df) (cash df)
    (holdings df) (total_value df) (returns df) (Some c)
    (previous_peak df) (drawdown df) (other_columns df).
Definition set_previous_peak (c : list float) (df : DataFrame) : DataFrame :=
  mkDataFrame (index df) (Close df) (signal_line df) (position df) (cash df)
    (holdings df) (total_value df) (returns df) (cumulative_returns df)
    (Some c) (drawdown df) (other_columns df).
Definition set_drawdown (c : list float) (df : DataFrame) : DataFrame :=
  mkDataFrame (index df) (Close df) (signal_line df) (position df) (cash df)
    (holdings df) (total_value df) (returns df) (cumulative_returns df)
    (previous_peak df) (Some c) (other_columns df).

(** [df[c]]: a column that does not exist raises. *)
Definition column {A} (c : option (list A)) : result (list A) :=
  match c with
  | Some l => Ok l
  | None => Raise KeyError
  end.

(** [df[c].iloc[i]] *)
Definition iloc {A} (c : option (list A)) (i : nat) : result A :=
  l ← column c; at_index l i.

(** The column after [df.iloc[i, df.columns.get_loc(c)] = v]. *)
Definition iloc_set {A} (c : option (list A)) (i : nat) (v : A)
  : result (list A) :=
  l ← column c;
  if decide (i < length l)%nat then Ok (<[i := v]> l) else Raise IndexError.

(** ** The trade log *)

Inductive position_type : Set := LONG | SHORT.

(** One dictionary of the [trades] list, a row of [trades_df].  The fields
    are in the order of the dictionary's keys, which is the order of the
    Turkish column names [backtest] gives the table: [profit_loss] is
    ['Kar/Zarar'], [profit_loss_pct] is ['Kar/Zarar %'] and [trade_duration]
    is ['İşlem Süresi (Gün)']. *)
Record Trade : Type := mkTrade {
  trade_entry_date : Timestamp;
  trade_exit_date : Timestamp;
  trade_entry_price : float;
  trade_exit_price : float;
  trade_position_type : position_type;
  profit_loss : float;
  profit_loss_pct : float;
  trade_duration : Z
}.

(** ** Values of a metrics dictionary *)

(** A Python [int], a numpy [int64] (which is not an instance of [int]), a
    [float] (numpy's [float64] is an instance of it) or a [str]. *)
Inductive pyval : Type :=
  | PyInt (z : Z)
  | NpInt64 (z : Z)
  | PyFloat (f : float)
  | PyStr (s : string).

(** A Python dictionary from strings: its items in the order of insertion. *)
Definition dict : Type := list (string * pyval).

Module Dict.

(** [d.get(key)], with [None] for a key that is not there. *)
Fixpoint get (d : dict) (key : string) : option pyval :=
  match d with
  | [] => None
  | (k, v) :: d => if decide (k = key) then Some v else get d key
  end.

(** The dictionary after [d[key] = v]. *)
Fixpoint set (key : string) (v : pyval) (d : dict) : dict :=
  match d with
  | [] => [(key, v)]
  | (k, x) :: d =>
      if decide (k = key) then (k, v) :: d else (k, x) :: set key v d
  end.

End Dict.

Module PyVal.

(** [v != 0] *)
Definition ne0 (v : pyval) : bool :=
  match v with
  | PyInt z | NpInt64 z => negb (z =? 0)
  | PyFloat f => PyFloat.ne0 f
  | PyStr _ => true
  end.

(** [float(str(v).split()[0])].  [str] of an integer is its decimal
    numeral; [str] of a float is the shortest numeral that [float] reads
    back as the same float. *)
Definition first_word_as_float (v : pyval) : result float :=
  match v with
  | PyInt z | NpInt64 z => Ok (PyFloat.of_int z)
  | PyFloat f => Ok f
  | PyStr s => w ← PyStr.first_word s; PyFloat.of_string w
  end.

Definition arrow (up : bool) : string := if up then "↑" else "↓".

(** [f"{value:.2f} {'↑' if value > 0 else '↓'}"] *)
Definition with_arrow (value : float) : string :=
  PyFloat.format_fixed 2 value ++ " " ++ arrow (PyFloat.gt0 value).

End PyVal.

(** ** pandas reductions over a float column *)

Module Series.

Local Open Scope float_scope.

(** numpy adds the cells of a float column pairwise.  Up to 128 cells are
    added in eight interleaved running sums, which start as the first eight
    cells and take the cells of every further full block of eight; the
    eight sums are added as a balanced tree and the cells left over after
    the last full block are added to the result one by one. *)
Fixpoint add_blocks (r rest : list float) : list float * list float :=
  match rest with
  | a0 :: a1 :: a2 :: a3 :: a4 :: a5 :: a6 :: a7 :: rest' =>
      add_blocks (zip_with add r [a0; a1; a2; a3; a4; a5; a6; a7]) rest'
  | _ => (r, rest)
  end.

Definition sum_block (l : list float) : float :=
  match add_blocks (take 8 l) (drop 8 l) with
  | ([r0; r1; r2; r3; r4; r5; r6; r7], rest) =>
      foldl add (((r0 + r1) + (r2 + r3)) + ((r4 + r5) + (r6 + r7))) rest
  | (r, rest) => foldl add 0 (r ++ rest)
  end.

(** Fewer than 8 cells are added from left to right.  More than 128 cells
    are split in two parts, the first of them a multiple of 8 long, that
    are summed in the same way.  Both parts of a split are shorter than
    the column, so a [fuel] of the number of cells is never used up. *)
Fixpoint pairwise_sum (fuel : nat) (l : list float) : float :=
  let n := length l in
  if (n <? 8)%nat then foldl add 0 l
  else if (n <=? 128)%nat then sum_block l
  else
    match fuel with
    | O => sum_block l
    | S fuel =>
        let n2 := (n / 2 - (n / 2) mod 8)%nat in
        pairwise_sum fuel (take n2 l) + pairwise_sum fuel (drop n2 l)
    end.

(** [np.sum]: the reduction adds the pairwise sum of the cells to its
    initial value 0. *)
Definition sum (l : list float) : float := 0 + pairwise_sum (length l) l.

Definition not_nan (x : float) : bool := negb (is_nan x).

(** The number of cells that are not NaN, as a float. *)
Definition count (l : list float) : Z :=
  Z.of_nat (length (filter (fun x => not_nan x = true) l)).

Definition fill_nan (v : float) (l : list float) : list float :=
  (fun x => if is_nan x then v else x) <$> l.

(** [s.mean()]: the sum of the cells that are not NaN over their number;
    NaN when there is none. *)
Definition mean (l : list float) : float :=
  if (0 <? count l)%Z then sum (fill_nan 0 l) / PyFloat.of_int (count l)
  else nan.

(** [s.std()]: the square root of the sample variance ([ddof = 1]) of the
    cells that are not NaN; NaN when there are fewer than two. *)
Definition var (l : list float) : float :=
  let '(cnt, d) :=
    if (count l <=? 1)%Z then (nan, nan)
    else (PyFloat.of_int (count l), PyFloat.of_int (count l - 1)) in
  let avg := sum (fill_nan 0 l) / cnt in
  let sqr :=
    (fun x => if is_nan x then 0 else (avg - x) * (avg - x)) <$> l in
  sum sqr / d.
Definition std (l : list float) : float := sqrt (var l).

(** [np.maximum] and [np.minimum] *)
Definition maximum (a b : float) : float :=
  if (b <=? a) || is_nan a then a else b.
Definition minimum (a b : float) : float :=
  if (a <=? b) || is_nan a then a else b.

(** [ufunc.accumulate]: the running results of [f] from the first cell. *)
Fixpoint accumulate_from (f : float -> float -> float) (acc : float)
    (l : list float) : list float :=
  match l with
  | [] => []
  | x :: l => let acc := f acc x in acc :: accumulate_from f acc l
  end.
Definition accumulate (f : float -> float -> float) (l : list float)
  : list float :=
  match l with
  | [] => []
  | x :: l => x :: accumulate_from f x l
  end.

(** pandas' cumulative functions: the NaN cells are filled with the
    neutral value, the running result is taken, and the NaN cells are put
    back. *)
Definition restore_nan (l acc : list float) : list float :=
  zip_with (fun x r => if is_nan x then nan else r) l acc.
Definition cumprod (l : list float) : list float :=
  restore_nan l (accumulate mul (fill_nan 1 l)).
Definition cummax (l : list float) : list float :=
  restore_nan l (accumulate maximum (fill_nan neg_infinity l)).

(** [s.min()]: the least of the cells that are not NaN; NaN when there is
    none. *)
Definition min (l : list float) : float :=
  if (0 <? count l)%Z then
    match fill_nan infinity l with
    | [] => nan
    | x :: l => foldl minimum x l
    end
  else nan.

End Series.

(** ** [src/strategy/base_strategy.py] *)

(** The two abstract methods of [BaseStrategy].  Each receives the table
    [backtest] copied and returns the table it goes on with. *)
Class Strategy : Type := mkStrategy {
  calculate_indicators : DataFrame -> result DataFrame;
  generate_signals : DataFrame -> result DataFrame
}.

Module BaseStrategy.

Import PyFloat.

(** [df.iloc[i, df.columns.get_loc(c)] = v], column by column. *)
Definition put_position (i : nat) (v : Z) (df : DataFrame)
  : result DataFrame :=
  c ← iloc_set (position df) i v; Ok (set_position c df).
Definition put_cash (i : nat) (v : float) (df : DataFrame)
  : result DataFrame :=
  c ← iloc_set (cash df) i v; Ok (set_cash c df).
Definition put_holdings (i : nat) (v : float) (df : DataFrame)
  : result DataFrame :=
  c ← iloc_set (holdings df) i v; Ok (set_holdings c df).
Definition put_total_value (i : nat) (v : float) (df : DataFrame)
  : result DataFrame :=
  c ← iloc_set (total_value df) i v; Ok (set_total_value c df).
Definition put_returns (i : nat) (v : float) (df : DataFrame)
  : result DataFrame :=
  c ← iloc_set (returns df) i v; Ok (set_returns c df).

(** The local variables of [backtest] that live across the loop, with the
    table they mutate. *)
Record State : Type := mkState {
  st_df : DataFrame;
  trades : list Trade;
  current_position : Z;
  entry_price : float;
  entry_date : option Timestamp
}.

(** Lines 29-39: the portfolio columns and the initial locals. *)
Definition init_portfolio (initial_capital : float) (df : DataFrame)
  : State :=
  let n := len df in
  let df := set_position (replicate n 0%Z) df in
  let df := set_cash (replicate n initial_capital) df in
  let df := set_holdings (replicate n 0%float) df in
  let df := set_total_value (replicate n initial_capital) df in
  let df := set_returns (replicate n 0%float) df in
  mkState df [] 0 0%float None.

(** The profit of a closed position (lines 57-62 and 109-114). *)
Definition long_profit_loss (entry exit_price : float) (pos : Z) : float :=
  ((exit_price - entry) * of_int (Z.abs pos))%float.
Definition long_profit_loss_pct (entry exit_price : float) : float :=
  ((exit_price / entry - 1) * 100)%float.
Definition short_profit_loss (entry exit_price : float) (pos : Z) : float :=
  ((entry - exit_price) * of_int (Z.abs pos))%float.
Definition short_profit_loss_pct (entry exit_price : float) : float :=
  ((entry / exit_price - 1) * 100)%float.

(** [(date - entry_date).days]: [entry_date] is [None] until a position
    opens. *)
Definition duration_days (date : Timestamp) (entry : option Timestamp)
  : result (Timestamp * Z) :=
  match entry with
  | Some e => Ok (e, days_between date e)
  | None => Raise TypeError
  end.

(** Lines 51-78: close the position on the opposite signal. *)
Definition close_on_signal (i : nat) (date : Timestamp) (price : float)
    (signal : Z) (s : State) : result State :=
  let df := st_df s in
  let current_position := current_position s in
  let entry_price := entry_price s in
  if (signal =? 1) && (current_position <? 0)
     || (signal =? -1) && (current_position >? 0)
  then
    let exit_price := price in
    let '(pl, pl_pct) :=
      if current_position >? 0
      then (long_profit_loss entry_price exit_price current_position,
            long_profit_loss_pct entry_price exit_price)
      else (short_profit_loss entry_price exit_price current_position,
            short_profit_loss_pct entry_price exit_price) in
    '(entry, days) ← duration_days date (entry_date s);
    let trades :=
      trades s ++
      [mkTrade entry date entry_price exit_price
         (if current_position >? 0 then LONG else SHORT) pl pl_pct days] in
    c ← iloc (cash df) i;
    df ← put_cash i (c + of_int current_position * price)%float df;
    df ← put_position i 0 df;
    df ← put_holdings i 0%float df;
    Ok (mkState df trades 0 entry_price (entry_date s))
  else Ok s.

(** Lines 80-99: open a position when flat. *)
Definition open_on_signal (i : nat) (date : Timestamp) (price : float)
    (signal : Z) (s : State) : result State :=
  let df := st_df s in
  if current_position s =? 0 then
    c ← iloc (cash df) i;
    shares_to_trade ← to_int (floor_divide c price);
    s ←
      (if (signal =? 1) && (shares_to_trade >? 0) then
         c ← iloc (cash df) i;
         df ← put_cash i (c - of_int shares_to_trade * price)%float df;
         Ok (mkState df (trades s) shares_to_trade price (Some date))
       else if (signal =? -1) && (shares_to_trade >? 0) then
         c ← iloc (cash df) i;
         df ← put_cash i (c + of_int shares_to_trade * price)%float df;
         Ok (mkState df (trades s) (- shares_to_trade) price (Some date))
       else Ok s);
    df ← put_position i (current_position s) (st_df s);
    df ← put_holdings i (of_int (current_position s) * price)%float df;
    Ok (mkState df (trades s) (current_position s) (entry_price s)
          (entry_date s))
  else Ok s.

(** Lines 42-103: the body of the loop at bar [i]. *)
Definition loop_body (i : nat) (s : State) : result State :=
  let df := st_df s in
  date ← at_index (index df) i;
  price ← at_index (Close df) i;
  signal ← iloc (signal_line df) i;
  (* Carry forward position *)
  df ← put_position i (current_position s) df;
  c ← iloc (cash df) (i - 1);
  df ← put_cash i c df;
  df ← put_holdings i (of_int (current_position s) * price)%float df;
  let s := mkState df (trades s) (current_position s) (entry_price s)
             (entry_date s) in
  s ← close_on_signal i date price signal s;
  s ← open_on_signal i date price signal s;
  (* Update total value and returns *)
  let df := st_df s in
  c ← iloc (cash df) i;
  h ← iloc (holdings df) i;
  df ← put_total_value i (c + h)%float df;
  tv ← iloc (total_value df) i;
  tv_prev ← iloc (total_value df) (i - 1);
  df ← put_returns i (tv / tv_prev - 1)%float df;
  Ok (mkState df (trades s) (current_position s) (entry_price s)
        (entry_date s)).

(** [for i in is_: body] *)
Fixpoint for_each (body : nat -> State -> result State) (is_ : list nat)
    (s : State) : result State :=
  match is_ with
  | [] => Ok s
  | i :: is_ => s ← body i s; for_each body is_ s
  end.

(** Line 41: [for i in range(1, len(df))]. *)
Definition run_loop (s : State) : result State :=
  for_each loop_body (seq 1 (len (st_df s) - 1)) s.

(** Lines 105-125: the trade that closes what is still open at the end. *)
Definition close_remaining (s : State) : result (list Trade) :=
  let df := st_df s in
  let current_position := current_position s in
  let entry_price := entry_price s in
  if negb (current_position =? 0) then
    exit_price ← at_last (Close df);
    let '(pl, pl_pct) :=
      if current_position >? 0
      then (long_profit_loss entry_price exit_price current_position,
            long_profit_loss_pct entry_price exit_price)
      else (short_profit_loss entry_price exit_price current_position,
            short_profit_loss_pct entry_price exit_price) in
    exit_date ← at_last (index df);
    '(entry, days) ← duration_days exit_date (entry_date s);
    Ok (trades s ++
        [mkTrade entry exit_date entry_price exit_price
           (if current_position >? 0 then LONG else SHORT) pl pl_pct days])
  else Ok (trades s).

(** Line 128: [(1 + df['returns']).cumprod() - 1]. *)
Definition add_cumulative_returns (df : DataFrame) : result DataFrame :=
  r ← column (returns df);
  Ok (set_cumulative_returns
        ((fun x => x - 1)%float <$>
         Series.cumprod ((fun x => 1 + x)%float <$> r))
        df).

(** Lines 131-141: [pd.DataFrame(trades)] has the eight columns of the
    dictionaries and takes the eight Turkish names; of an empty list it
    has no column, and the assignment of eight names to it raises
    (length mismatch). *)
Definition trades_table (trades : list Trade) : result (list Trade) :=
  match trades with
  | [] => Raise ValueError
  | _ => Ok trades
  end.

(** Lines 29-143, on the table the strategy has attached its signals to. *)
Definition simulate (initial_capital : float) (df : DataFrame)
  : result (DataFrame * list Trade) :=
  s ← run_loop (init_portfolio initial_capital df);
  trades ← close_remaining s;
  df ← add_cumulative_returns (st_df s);
  trades_df ← trades_table trades;
  Ok (df, trades_df).

(** [BaseStrategy.backtest], on the value of the argument: [df.copy()]
    gives the method a table of its own. *)
Definition backtest `{Strategy} (initial_capital : float)
    (df : DataFrame) : result (DataFrame * list Trade) :=
  df ← calculate_indicators df;
  df ← generate_signals df;
  simulate initial_capital df.

(** *** [calculate_performance_metrics] *)

(** Lines 151-154: [add_arrow], the helper of the metrics. *)
Definition add_arrow (value : pyval) : pyval :=
  match value with
  | PyInt z =>
      PyStr (format_fixed 2 (of_int z) ++ " " ++ PyVal.arrow (0 <? z))
  | PyFloat f => PyStr (PyVal.with_arrow f)
  | _ => value
  end.

(** [trades_df.loc[mask, c].mean()] *)
Definition mean_where (mask : Trade -> bool) (c : Trade -> float)
    (trades_df : list Trade) : float :=
  Series.mean (c <$> List.filter mask trades_df).

Section Metrics.

(** [x ** y] on floats. *)
Variable float_pow : float -> float -> float.

Local Open Scope float_scope.

(** Lines 156-170: the return, volatility and Sharpe entries. *)
Definition return_metrics (df : DataFrame)
  : result dict :=
  cr ← column (cumulative_returns df) ≫= at_last;
  let metrics : dict :=
    Dict.set "total_return" (add_arrow (PyFloat (cr * 100))) [] in
  last_ts ← at_last (index df);
  first_ts ← at_index (index df) 0;
  let days := days_between last_ts first_ts in
  cr ← column (cumulative_returns df) ≫= at_last;
  exponent ← int_true_div 365 days;
  let annual_return := (float_pow (1 + cr) exponent - 1) * 100 in
  let metrics :=
    Dict.set "annual_return" (add_arrow (PyFloat annual_return)) metrics in
  r ← column (returns df);
  let metrics :=
    Dict.set "volatility"
      (add_arrow (PyFloat (Series.std r * sqrt 252 * 100))) metrics in
  let risk_free_rate := 0x1.47ae147ae147bp-6 (* 0.02 *) in
  r ← column (returns df);
  let sharpe :=
    (annual_return / 100 - risk_free_rate) / (Series.std r * sqrt 252) in
  Ok (Dict.set "sharpe_ratio" (add_arrow (PyFloat sharpe)) metrics).

(** Lines 173-174: the two columns written into the argument. *)
Definition add_drawdown (df : DataFrame) : result DataFrame :=
  tv ← column (total_value df);
  let df := set_previous_peak (Series.cummax tv) df in
  tv ← column (total_value df);
  peak ← column (previous_peak df);
  let diff := zip_with sub tv peak in
  peak ← column (previous_peak df);
  Ok (set_drawdown (zip_with div diff peak) df).

(** Lines 178-222: the entries computed from the trade table. *)
Definition trade_metrics (trades_df : list Trade)
    (metrics : dict) : result dict :=
  if (0 <? length trades_df)%nat then
    let profitable_trades := fun t : Trade => gt0 (profit_loss t) in
    let not_profitable := fun t : Trade => negb (profitable_trades t) in
    let total_trades := Z.of_nat (length trades_df) in
    let winning_trades :=
      Z.of_nat (length (List.filter profitable_trades trades_df)) in
    let losing_trades := (total_trades - winning_trades)%Z in
    let metrics := Dict.set "total_trades" (PyInt total_trades) metrics in
    let metrics :=
      Dict.set "winning_trades" (NpInt64 winning_trades) metrics in
    let metrics :=
      Dict.set "losing_trades" (NpInt64 losing_trades) metrics in
    let metrics :=
      Dict.set "win_rate"
        (add_arrow
           (PyFloat (of_int winning_trades / of_int total_trades * 100)))
        metrics in
    let '(avg_profit, avg_profit_pct) :=
      if (winning_trades >? 0)%Z then
        (add_arrow
           (PyFloat (mean_where profitable_trades profit_loss trades_df)),
         add_arrow
           (PyFloat
              (mean_where profitable_trades profit_loss_pct trades_df)))
      else (PyInt 0, PyInt 0) in
    let metrics := Dict.set "avg_profit" avg_profit metrics in
    let metrics := Dict.set "avg_profit_pct" avg_profit_pct metrics in
    let '(avg_loss, avg_loss_pct) :=
      if (losing_trades >? 0)%Z then
        (add_arrow
           (PyFloat (mean_where not_profitable profit_loss trades_df)),
         add_arrow
           (PyFloat (mean_where not_profitable profit_loss_pct trades_df)))
      else (PyInt 0, PyInt 0) in
    let metrics := Dict.set "avg_loss" avg_loss metrics in
    let metrics := Dict.set "avg_loss_pct" avg_loss_pct metrics in
    profit_factor ←
      (if PyVal.ne0 avg_loss && (losing_trades >? 0)%Z then
         a ← PyVal.first_word_as_float avg_profit;
         l ← PyVal.first_word_as_float avg_loss;
         Ok (add_arrow
               (PyFloat
                  (abs (a * of_int winning_trades
                        / (l * of_int losing_trades)))))
       else Ok (PyFloat infinity));
    let metrics := Dict.set "profit_factor" profit_factor metrics in
    Ok (Dict.set "avg_trade_duration"
          (PyFloat
             (Series.mean ((fun t => of_int (trade_duration t))
                           <$> trades_df))) metrics)
  else
    Ok (Dict.set "avg_trade_duration" (PyInt 0)
        (Dict.set "profit_factor" (PyInt 0)
         (Dict.set "avg_loss_pct" (PyInt 0)
          (Dict.set "avg_loss" (PyInt 0)
           (Dict.set "avg_profit_pct" (PyInt 0)
            (Dict.set "avg_profit" (PyInt 0)
             (Dict.set "win_rate" (PyInt 0)
              (Dict.set "losing_trades" (PyInt 0)
               (Dict.set "winning_trades" (PyInt 0)
                (Dict.set "total_trades" (PyInt 0) metrics)))))))))).

(** [BaseStrategy.calculate_performance_metrics], lines 146-224: the
    table as the call leaves it, and what the call returns or raises.
    The lines before the first write (line 173) leave the table as it
    is when they raise. *)
Definition calculate_performance_metrics (df : DataFrame)
    (trades_df : list Trade) : DataFrame * result dict :=
  match return_metrics df with
  | Raise e => (df, Raise e)
  | Ok metrics =>
      match add_drawdown df with
      | Raise e => (df, Raise e)
      | Ok df =>
          (df,
           dd ← column (drawdown df);
           let metrics :=
             Dict.set "max_drawdown"
               (add_arrow (PyFloat (Series.min dd * 100))) metrics in
           trade_metrics trades_df metrics)
      end
  end.

End Metrics.

End BaseStrategy.

(** ** [src/strategy/buyhold_strategy.py] *)

Module BuyHoldStrategy.

(** [df.iloc[-1, df.columns.get_loc(c)] = v] *)
Definition iloc_set_last {A} (c : option (list A)) (v : A)
  : result (list A) :=
  l ← column c;
  match length l with
  | O => Raise IndexError
  | S n => Ok (<[n := v]> l)
  end.

Global Instance strategy : Strategy := {|
  calculate_indicators df := Ok df;
  generate_signals df :=
    let df := set_signal_line (replicate (len df) 0) df in
    (* Buy at the first opportunity *)
    c ← iloc_set (signal_line df) 1 1;
    let df := set_signal_line c df in
    (* Sell at the last day *)
    c ← iloc_set_last (signal_line df) (-1);
    Ok (set_signal_line c df)
|}.

End BuyHoldStrategy.

(** ** [src/visualizations.py] *)

Module Visualizations.

Import PyFloat.

(** Lines 476-487: [add_arrow], the helper of the display. *)
Definition add_arrow (value : pyval) : pyval :=
  match value with
  | PyInt z =>
      PyStr (format_fixed 2 (of_int z) ++ " " ++ PyVal.arrow (0 <? z))
  | PyFloat f => PyStr (PyVal.with_arrow f)
  | PyStr s =>
      if PyStr.has_space s then
        match w ← PyStr.first_word s; of_string w with
        | Ok val => PyStr (PyVal.with_arrow val)
        | Raise _ => value
        end
      else value
  | NpInt64 _ => value
  end.

Definition numeric_metrics : list string :=
  ["total_return"; "annual_return"; "volatility"; "win_rate";
   "max_drawdown"; "avg_profit"; "avg_loss"; "avg_profit_pct";
   "avg_loss_pct"; "sharpe_ratio"; "profit_factor"].

Definition count_metrics : list string :=
  ["total_trades"; "winning_trades"; "losing_trades"].

(** Lines 496-500: one round of the loop over [numeric_metrics]. *)
Definition format_numeric (metrics formatted_metrics : dict)
    (key : string) : dict :=
  match Dict.get metrics key with
  | Some v =>
      if PyVal.ne0 v then Dict.set key (add_arrow v) formatted_metrics
      else Dict.set key v formatted_metrics
  | None => Dict.set key (PyInt 0) formatted_metrics
  end.

(** Lines 503-506: one round of the loop over [count_metrics]. *)
Definition format_count (metrics formatted_metrics : dict)
    (key : string) : dict :=
  match Dict.get metrics key with
  | Some v => Dict.set key v formatted_metrics
  | None => formatted_metrics
  end.

(** [f"{v:.1f}"]: a string has no such format. *)
Definition format_duration (v : pyval) : result string :=
  match v with
  | PyInt z | NpInt64 z => Ok (format_fixed 1 (of_int z))
  | PyFloat f => Ok (format_fixed 1 f)
  | PyStr _ => Raise ValueError
  end.

(** Lines 469-511. *)
Definition format_metrics_for_display (metrics : dict) : result dict :=
  let formatted_metrics :=
    foldl (format_numeric metrics) [] numeric_metrics in
  let formatted_metrics :=
    foldl (format_count metrics) formatted_metrics count_metrics in
  match Dict.get metrics "avg_trade_duration" with
  | Some v =>
      s ← format_duration v;
      Ok (Dict.set "avg_trade_duration" (PyStr (s ++ " gün"))
            formatted_metrics)
  | None => Ok formatted_metrics
  end.

End Visualizations.

(** ** Calls on tables in the store *)

(** A table is an object: the caller and the callee hold the same one.  The
    store maps the address of a table to its present value. *)
Definition loc := positive.

Module Call.

(** [BaseStrategy.calculate_performance_metrics(df, trades_df)]: the
    method writes into the table it is given. *)
Definition calculate_performance_metrics
    (float_pow : float -> float -> float) (df : loc)
    (trades_df : list Trade) (h : gmap loc DataFrame)
  : gmap loc DataFrame * result dict :=
  match h !! df with
  | Some v =>
      let '(v', r) :=
        BaseStrategy.calculate_performance_metrics float_pow v trades_df in
      (<[df := v']> h, r)
  | None => (h, Raise KeyError)
  end.

End Call.

(** ** Inputs of the worked examples *)

Module Examples.

Definition day (n : Z) : Timestamp := n * ns_per_day.
Definition hour (n : Z) : Timestamp := n * 3600000000000.

(** A price table with its signal column attached and nothing else. *)
Definition bars (idx : list Timestamp) (closes : list float)
    (signals : list Z) : DataFrame :=
  mkDataFrame idx closes (Some signals) None None None None None None None
    None ∅.

(** The end-to-end scenario of the specification. *)
Definition scenario : DataFrame :=
  bars [day 0; day 1; day 2; day 3] [100; 105; 95; 110]%float [0; 1; -1; 0].

(** A single bar. *)
Definition one_bar : DataFrame := bars [day 0] [100]%float [0].

(** Three four-hour bars of one day. *)
Definition one_day : DataFrame :=
  bars [hour 0; hour 4; hour 8] [100; 105; 95]%float [0; 1; -1].

(** Three bars that span 365 days, so that the exponent [365 / days] of the
    annual return is [1.0]. *)
Definition one_year : DataFrame :=
  bars [day 0; day 100; day 365] [100; 105; 95]%float [0; 1; -1].

(** [x ** 1.0] is [x]: what [float_pow] returns on the tables that span
    365 days. *)
Definition pow_exponent_one (x y : float) : float := x.

(** The table [simulate] returns for a run, with no column when the run
    raises. *)
Definition table_of (r : result (DataFrame * list Trade)) : DataFrame :=
  match r with
  | Ok (df, _) => df
  | Raise _ => mkDataFrame [] [] None None None None None None None None
                 None ∅
  end.

Definition one_year_table : DataFrame :=
  table_of (BaseStrategy.simulate 1000 one_year).

Definition one_day_table : DataFrame :=
  table_of (BaseStrategy.simulate 1000 one_day).

(** A trade closed after one day, of which only the profit matters. *)
Definition trade_with_profit (pl pct : float) : Trade :=
  mkTrade (day 0) (day 1) 100 100 LONG pl pct 1.

(** A winner and a loser of 1/256 each: both averages show as [0.00]. *)
Definition small_trades : list Trade :=
  [trade_with_profit 0x1p-8 0x1p-8; trade_with_profit (-0x1p-8) (-0x1p-8)]%float.

(** Four bars that span 365 days: a long of 3 shares from bar 1 to bar 2
    wins 1.3125, and the short of 3 shares the sell of bar 2 opens loses
    0.1875 when the end of the series closes it. *)
Definition won_and_lost : DataFrame :=
  bars [day 0; day 100; day 200; day 365]
    [300; 300; 0x1.2c7p+8; 0x1.2c8p+8]%float [0; 1; -1; 0].

Definition winning_trades : list Trade :=
  [trade_with_profit 50 5; trade_with_profit 30 3]%float.

(** The metrics of the 365-day table with the two winning trades. *)
Definition year_metrics : dict :=
  match snd (BaseStrategy.calculate_performance_metrics pow_exponent_one
               one_year_table winning_trades) with
  | Ok m => m
  | Raise _ => []
  end.

End Examples.

(** ** Properties the theorems are stated with *)

(** Two versions of a column that differ at most in the cell of row [i]. *)
Definition same_but_at {A} (i : nat) (c c' : option (list A)) : Prop :=
  match c, c' with
  | Some l, Some l' =>
      length l' = length l /\ forall j, j <> i -> l' !! j = l !! j
  | None, None => True
  | _, _ => False
  end.

(** [df'] is [df] but for the portfolio cells of row [i]. *)
Record touches_only_row (i : nat) (df df' : DataFrame) : Prop :=
  mkTouchesOnlyRow {
  tor_index : index df' = index df;
  tor_Close : Close df' = Close df;
  tor_signal_line : signal_line df' = signal_line df;
  tor_position : same_but_at i (position df) (position df');
  tor_cash : same_but_at i (cash df) (cash df');
  tor_holdings : same_but_at i (holdings df) (holdings df');
  tor_total_value : same_but_at i (total_value df) (total_value df');
  tor_returns : same_but_at i (returns df) (returns df');
  tor_cumulative_returns : cumulative_returns df' = cumulative_returns df;
  tor_previous_peak : previous_peak df' = previous_peak df;
  tor_drawdown : drawdown df' = drawdown df;
  tor_other_columns : other_columns df' = other_columns df
}.

(** Row [i] of the table balances: the total value is the cash plus the
    holdings, and the holdings are the position at the close of the bar. *)
Definition conserved (df : DataFrame) (i : nat) : Prop :=
  exists (tv c h : float) (p : Z) (cl : float),
    iloc (total_value df) i = Ok tv /\
    iloc (cash df) i = Ok c /\
    iloc (holdings df) i = Ok h /\
    iloc (position df) i = Ok p /\
    at_index (Close df) i = Ok cl /\
    tv = (c + h)%float /\
    h = (PyFloat.of_int p * cl)%float.

(** Row [i] shows the position the loop holds, valued at [price]. *)
Definition shows_position (i : nat) (price : float) (s : BaseStrategy.State)
  : Prop :=
  iloc (position (BaseStrategy.st_df s)) i = Ok (BaseStrategy.current_position s) /\
  iloc (holdings (BaseStrategy.st_df s)) i
  = Ok (PyFloat.of_int (BaseStrategy.current_position s) * price)%float.

(** An open position has an entry date, and the table it was opened on has
    bars. *)
Definition entry_known (s : BaseStrategy.State) : Prop :=
  BaseStrategy.current_position s <> 0 ->
  is_Some (BaseStrategy.entry_date s) /\
  index (BaseStrategy.st_df s) <> [] /\ Close (BaseStrategy.st_df s) <> [].

(** A close of the data model: a positive real. *)
Definition positive_finite (x : float) : Prop :=
  (0 <? x)%float = true /\ (x <? infinity)%float = true.

(** The closing trade in the words of the specification (4.1, step 2): the trade
    that closes the position [pos], entered at [entry_price] on
    [entry_date], at [exit_price] on [exit_date]. *)
Definition closing_trade (pos : Z) (entry_price : float)
    (entry_date exit_date : Timestamp) (exit_price : float) : Trade :=
  if 0 <? pos then
    mkTrade entry_date exit_date entry_price exit_price LONG
      ((exit_price - entry_price) * PyFloat.of_int (Z.abs pos))%float
      ((exit_price / entry_price - 1) * 100)%float
      (days_between exit_date entry_date)
  else
    mkTrade entry_date exit_date entry_price exit_price SHORT
      ((entry_price - exit_price) * PyFloat.of_int (Z.abs pos))%float
      ((entry_price / exit_price - 1) * 100)%float
      (days_between exit_date entry_date).

(** The table of a run that stops after the loop and the cumulative
    returns: lines 29-103 and 128, without the closing of the remaining
    position in between. *)
Definition table_without_forced_close (initial_capital : float)
    (df : DataFrame) : result DataFrame :=
  s ← BaseStrategy.run_loop (BaseStrategy.init_portfolio initial_capital df);
  BaseStrategy.add_cumulative_returns (BaseStrategy.st_df s).

(** The profit factor in the words of the specification (4.2): computed
    from the averages themselves,
    [|avg_profit * winning_trades / (avg_loss * losing_trades)|]. *)
Definition profit_factor_of_averages (trades_df : list Trade) : float :=
  let winner := fun t : Trade => PyFloat.gt0 (profit_loss t) in
  let loser := fun t : Trade => negb (winner t) in
  let winning_trades := Z.of_nat (length (List.filter winner trades_df)) in
  let losing_trades := Z.of_nat (length (List.filter loser trades_df)) in
  abs (BaseStrategy.mean_where winner profit_loss trades_df
       * PyFloat.of_int winning_trades
       / (BaseStrategy.mean_where loser profit_loss trades_df
          * PyFloat.of_int losing_trades))%float.

(** The number of winners and of losers of a trade table. *)
Definition winners (trades_df : list Trade) : Z :=
  Z.of_nat (length (List.filter (fun t => PyFloat.gt0 (profit_loss t))
                                trades_df)).
Definition losers (trades_df : list Trade) : Z :=
  Z.of_nat (length trades_df) - winners trades_df.

(** The keys of the entries computed from the trades. *)
Definition trade_metric_keys : list string :=
  ["total_trades"; "winning_trades"; "losing_trades"; "win_rate";
   "avg_profit"; "avg_profit_pct"; "avg_loss"; "avg_loss_pct";
   "profit_factor"; "avg_trade_duration"].

(** What the display holds for a numeric key: the entry with its arrow, the
    entry itself when it equals zero, and [0] when there is no entry. *)
Definition numeric_entry (metrics : dict) (key : string) : pyval :=
  match Dict.get metrics key with
  | Some v => if PyVal.ne0 v then Visualizations.add_arrow v else v
  | None => PyInt 0
  end.

(** * The strategy with indicators, the plot and the page *)

(** ** Columns a strategy or a plot adds *)

(** [df[c]] and [df[c] = col] for a column that is not one of the
    engine's. *)
Definition get_column (df : DataFrame) (c : string) : result (list float) :=
  match other_columns df !! c with
  | Some l => Ok l
  | None => Raise KeyError
  end.
Definition set_column (c : string) (col : list float) (df : DataFrame)
  : DataFrame :=
  mkDataFrame (index df) (Close df) (signal_line df) (position df) (cash df)
    (holdings df) (total_value df) (returns df) (cumulative_returns df)
    (previous_peak df) (drawdown df) (<[c := col]> (other_columns df)).

(** ** pandas operations on whole columns *)

Module Pandas.

(** [s.shift(1)]: every cell moves down a row; the first is NaN and the
    last is dropped. *)
Definition shift1 (s : list float) : list float :=
  take (length s) (nan :: s).

(** [a > b], [a < b], [a >= b] and [a <= b], cell by cell. *)
Definition gt (a b : list float) : list bool :=
  zip_with (fun x y => (y <? x)%float) a b.
Definition lt (a b : list float) : list bool :=
  zip_with (fun x y => (x <? y)%float) a b.
Definition ge (a b : list float) : list bool :=
  zip_with (fun x y => (y <=? x)%float) a b.
Definition le (a b : list float) : list bool :=
  zip_with (fun x y => (x <=? y)%float) a b.

(** [df.loc[mask, c] = v]: the cells of the rows where [mask] holds. *)
Fixpoint loc_set {A} (mask : list bool) (v : A) (col : list A) : list A :=
  match col, mask with
  | x :: col, m :: mask => (if m then v else x) :: loc_set mask v col
  | _, _ => col
  end.

(** [s.ffill()]: a NaN cell takes the last value above it. *)
Fixpoint ffill_from (above : float) (s : list float) : list float :=
  match s with
  | [] => []
  | x :: s => let x := if is_nan x then above else x in x :: ffill_from x s
  end.
Definition ffill (s : list float) : list float := ffill_from nan s.

(** [s.pct_change()]: the series, padded as [fill_method='pad'] has it,
    over itself a row up, minus 1. *)
Definition pct_change (s : list float) : list float :=
  let data := ffill s in
  zip_with (fun x y => x / y - 1)%float data (shift1 data).

End Pandas.

(** ** [src/strategy/macd_strategy.py] *)

Module MACDStrategy.

Import Pandas.

Section Params.

(** The values of pandas' exponentially weighted mean of a column, for a
    span it accepts: a parameter, as [float_pow] is. *)
Variable ewm_mean : Z -> list float -> list float.

(** [s.ewm(span=span, adjust=False).mean()]: pandas refuses a span
    below 1. *)
Definition ewm (span : Z) (s : list float) : result (list float) :=
  if span <? 1 then Raise ValueError else Ok (ewm_mean span s).

(** [self.fast_period], [self.slow_period] and [self.signal_period]. *)
Variables fast_period slow_period signal_period : Z.

Definition calculate_indicators (df : DataFrame) : result DataFrame :=
  (* Fast EMA *)
  ema ← ewm fast_period (Close df);
  let df := set_column "ema_fast" ema df in
  (* Slow EMA *)
  ema ← ewm slow_period (Close df);
  let df := set_column "ema_slow" ema df in
  (* MACD Line *)
  ema_fast ← get_column df "ema_fast";
  ema_slow ← get_column df "ema_slow";
  let df := set_column "macd" (zip_with sub ema_fast ema_slow) df in
  (* Signal Line *)
  macd ← get_column df "macd";
  ema ← ewm signal_period macd;
  let df := set_column "signal" ema df in
  (* MACD Histogram *)
  macd ← get_column df "macd";
  signal ← get_column df "signal";
  Ok (set_column "histogram" (zip_with sub macd signal) df).

Definition generate_signals (df : DataFrame) : result DataFrame :=
  let df := set_signal_line (replicate (len df) 0) df in
  (* Buy when MACD crosses above signal line *)
  macd ← get_column df "macd";
  signal ← get_column df "signal";
  macd' ← get_column df "macd";
  signal' ← get_column df "signal";
  let buy_condition :=
    zip_with andb (gt macd signal) (le (shift1 macd') (shift1 signal')) in
  c ← column (signal_line df);
  let df := set_signal_line (loc_set buy_condition 1 c) df in
  (* Sell when MACD crosses below signal line *)
  macd ← get_column df "macd";
  signal ← get_column df "signal";
  macd' ← get_column df "macd";
  signal' ← get_column df "signal";
  let sell_condition :=
    zip_with andb (lt macd signal) (ge (shift1 macd') (shift1 signal')) in
  c ← column (signal_line df);
  Ok (set_signal_line (loc_set sell_condition (-1) c) df).

Definition strategy : Strategy :=
  mkStrategy calculate_indicators generate_signals.

End Params.

End MACDStrategy.

(** ** [src/visualizations.py]: [create_portfolio_plot] *)

Module PortfolioPlot.

Import Pandas.

Local Open Scope float_scope.

(** Lines 398-467: the table as the call leaves it, and the heights and
    the colours of the drawdown bars it hands to the figure.  The figure
    is plotly's; the 20-row mean of line 425 goes into it and leaves the
    table alone. *)
Definition create_portfolio_plot (df : DataFrame)
  : result (DataFrame * list float * list string) :=
  (* Calculate additional metrics *)
  tv ← column (total_value df);
  let df := set_column "daily_returns" (pct_change tv) df in
  daily_returns ← get_column df "daily_returns";
  let df :=
    set_cumulative_returns
      (Series.cumprod ((fun x => 1 + x) <$> daily_returns)) df in
  tv ← column (total_value df);
  let drawdown :=
    (fun x => x * 100) <$>
      zip_with div (zip_with sub tv (Series.cummax tv)) (Series.cummax tv) in
  (* Add drawdown *)
  let colors :=
    (fun val => if val <? 0 then "#ef5350" else "#26a69a"%string)
      <$> drawdown in
  Ok (df, drawdown, colors).

End PortfolioPlot.

(** ** [src/app.py]: the metric cards *)

Module App.

(** The keys of the twelve metric cards, in the order the page reads
    them (lines 166-183). *)
Definition metric_cards : list string :=
  ["total_return"; "annual_return"; "sharpe_ratio";
   "total_trades"; "win_rate"; "profit_factor";
   "avg_profit"; "avg_loss"; "max_drawdown";
   "winning_trades"; "losing_trades"; "avg_trade_duration"].

(** [d[key]]: a key that is not there raises. *)
Definition getitem (d : dict) (key : string) : result pyval :=
  match Dict.get d key with
  | Some v => Ok v
  | None => Raise KeyError
  end.

(** Lines 166-183: the values of the cards. *)
Definition read_cards (formatted_metrics : dict) : result (list pyval) :=
  mapM (getitem formatted_metrics) metric_cards.

End App.

(** ** More tables *)

Module Tables.

(** Two bars with a buy signal on the second. *)
Definition two_bars : DataFrame :=
  Examples.bars [Examples.day 0; Examples.day 1] [100; 105]%float [0; 1].

(** Three bars on which no strategy signals. *)
Definition quiet : DataFrame :=
  Examples.bars [Examples.day 0; Examples.day 1; Examples.day 2]
    [100; 105; 95]%float [0; 0; 0].

(** Four bars: a buy on the second, nothing on the third, a sell on the
    last. *)
Definition buy_wait_sell : DataFrame :=
  Examples.bars
    [Examples.day 0; Examples.day 1; Examples.day 2; Examples.day 3]
    [100; 105; 95; 110]%float [0; 1; 0; -1].

(** Four bars without signals yet. *)
Definition prices : DataFrame :=
  mkDataFrame
    [Examples.day 0; Examples.day 1; Examples.day 2; Examples.day 3]
    [100; 105; 95; 110]%float None None None None None None None None
    None ∅.

(** Four bars on which [macd] goes above [signal] on the second bar and
    below it on the last. *)
Definition crossing : DataFrame :=
  set_column "signal" [1; 1; 1; 1]%float
    (set_column "macd" [0; 2; 3; 0]%float prices).

(** An exponentially weighted mean that weighs the last cell only. *)
Definition last_cell_only (span : Z) (s : list float) : list float := s.

(** The table of the run on [buy_wait_sell]. *)
Definition buy_wait_sell_table : DataFrame :=
  Examples.table_of (BaseStrategy.simulate 1000 buy_wait_sell).

(** Metrics in which a gain of a thousandth is the total return. *)
Definition small_gain : dict :=
  Dict.set "total_return"
    (BaseStrategy.add_arrow (PyFloat 0x1.0624dd2f1a9fcp-10)) [].

End Tables.

(** ** Where a run raises *)

(** The places of [backtest] at which a run can raise: the two hooks of the
    strategy (lines 26 and 27), the loop (lines 41-103), the close of what
    is still open (lines 105-125), the cumulative returns (line 128) and
    the naming of the columns of the trade table (lines 131-141). *)
Inductive place : Set :=
  | Indicators
  | Signals
  | Loop
  | LastClose
  | CumulativeReturns
  | ColumnNames.

(** What a run comes to: the value it returns, or the place it raises at
    and the exception. *)
Inductive outcome (A : Type) : Type :=
  | Returned (a : A)
  | RaisedAt (p : place) (e : exn).
Arguments Returned {A} a.
Arguments RaisedAt {A} p e.

(** The step [r] of a run, which is at place [p], and then the steps
    [k]. *)
Definition at_place {A B} (p : place) (r : result A) (k : A -> outcome B)
  : outcome B :=
  match r with
  | Ok a => k a
  | Raise e => RaisedAt p e
  end.

(** Lines 29-143, step by step as [BaseStrategy.simulate] takes them. *)
Definition simulate_outcome (initial_capital : float) (df : DataFrame)
  : outcome (DataFrame * list Trade) :=
  at_place Loop
    (BaseStrategy.run_loop (BaseStrategy.init_portfolio initial_capital df))
    (fun s =>
  at_place LastClose (BaseStrategy.close_remaining s) (fun trades =>
  at_place CumulativeReturns
    (BaseStrategy.add_cumulative_returns (BaseStrategy.st_df s)) (fun df =>
  at_place ColumnNames (BaseStrategy.trades_table trades) (fun trades_df =>
  Returned (df, trades_df))))).

(** Lines 25-143, step by step as [BaseStrategy.backtest] takes them. *)
Definition backtest_outcome `{Strategy} (initial_capital : float)
    (df : DataFrame) : outcome (DataFrame * list Trade) :=
  at_place Indicators (calculate_indicators df) (fun df =>
  at_place Signals (generate_signals df) (fun df =>
  simulate_outcome initial_capital df)).

(** The outcome without the place. *)
Definition result_of {A} (o : outcome A) : result A :=
  match o with
  | Returned a => Ok a
  | RaisedAt _ e => Raise e
  end.

(** The places a run passes before the loop starts. *)
Definition before_loop (p : place) : bool :=
  match p with
  | Indicators | Signals => true
  | _ => false
  end.

(** ** More properties the theorems are stated with *)

(** Row [i] shows a position the signal of the bar allows: none short
    after a buy signal, none long after a sell signal. *)
Definition position_follows_signal (df : DataFrame) (i : nat) : Prop :=
  exists p z,
    iloc (position df) i = Ok p /\ iloc (signal_line df) i = Ok z /\
    (z = 1 -> 0 <= p) /\ (z = -1 -> p <= 0).

(** Row [i] holds the return of the bar: the total value over that of the
    row before, minus 1. *)
Definition return_of_bar (df : DataFrame) (i : nat) : Prop :=
  exists tv tv_prev,
    iloc (total_value df) i = Ok tv /\
    iloc (total_value df) (i - 1) = Ok tv_prev /\
    iloc (returns df) i = Ok (tv / tv_prev - 1)%float.

(** Row [i] has the position and the cash of the row before. *)
Definition carried_over (df : DataFrame) (i : nat) : Prop :=
  exists p c,
    iloc (position df) (i - 1) = Ok p /\ iloc (position df) i = Ok p /\
    iloc (cash df) (i - 1) = Ok c /\ iloc (cash df) i = Ok c.

(** Row [i] shows a position that is not on the side of [pos]: none, or
    one of the other sign. *)
Definition off_side (df : DataFrame) (i : nat) (pos : Z) : Prop :=
  exists p, iloc (position df) i = Ok p /\
            (0 < pos -> p <= 0) /\ (pos < 0 -> 0 <= p).

(** The table shows the position [pos] taken at bar [i] and held up to
    bar [j]: the row before [i] is off its side and the rows from [i] to
    [j - 1] show it. *)
Definition held_from (df : DataFrame) (i j : nat) (pos : Z) : Prop :=
  off_side df (i - 1) pos /\
  forall k, (i <= k < j)%nat -> iloc (position df) k = Ok pos.

(** A trade of the table [df] of a run: the position the table shows from
    a bar [i] on, taken at its close, and given up at the close of a bar
    [j], with the profit of lines 57-62.  Either a later bar [j] closed it
    on its signal, and row [j] is off its side, or [j] is the last bar,
    whose row still shows it. *)
Definition trade_between_bars (df : DataFrame) (t : Trade) : Prop :=
  exists (i j : nat) (pos : Z) entry_date entry_price exit_date exit_price,
    (1 <= i <= j)%nat /\ pos <> 0 /\
    index df !! i = Some entry_date /\ Close df !! i = Some entry_price /\
    index df !! j = Some exit_date /\ Close df !! j = Some exit_price /\
    held_from df i j pos /\
    ((i < j)%nat /\ off_side df j pos \/
     S j = len df /\ iloc (position df) j = Ok pos) /\
    t = closing_trade pos entry_price entry_date exit_date exit_price.

(** A trade the loop has logged before the round of row [k]. *)
Definition closed_before (df : DataFrame) (k : nat) (t : Trade) : Prop :=
  exists (i j : nat) (pos : Z) entry_date entry_price exit_date exit_price,
    (1 <= i < j)%nat /\ (j < k)%nat /\ pos <> 0 /\
    index df !! i = Some entry_date /\ Close df !! i = Some entry_price /\
    index df !! j = Some exit_date /\ Close df !! j = Some exit_price /\
    held_from df i j pos /\ off_side df j pos /\
    t = closing_trade pos entry_price entry_date exit_date exit_price.

(** What the loop knows of the position it holds before the round of
    row [k]: the bar it was taken at, from which on the table shows it. *)
Definition entry_at_bar (df : DataFrame) (k : nat) (s : BaseStrategy.State)
  : Prop :=
  BaseStrategy.current_position s <> 0 ->
  exists (i : nat) date,
    (1 <= i < k)%nat /\ BaseStrategy.entry_date s = Some date /\
    index df !! i = Some date /\
    Close df !! i = Some (BaseStrategy.entry_price s) /\
    held_from df i k (BaseStrategy.current_position s).

(** [macd] crosses above [signal] at row [i]: there is a row before, in
    which [macd <= signal] holds, and in row [i] [macd > signal] holds.
    And below, with [>=] and [<].  A comparison with NaN does not hold, so
    a row after a NaN is no crossing. *)
Definition crosses_above (macd signal : list float) (i : nat) : Prop :=
  exists m s m' s',
    macd !! i = Some m /\ signal !! i = Some s /\
    macd !! (i - 1)%nat = Some m' /\ signal !! (i - 1)%nat = Some s' /\
    (1 <= i)%nat /\
    (s <? m)%float = true /\ (m' <=? s')%float = true.
Definition crosses_below (macd signal : list float) (i : nat) : Prop :=
  exists m s m' s',
    macd !! i = Some m /\ signal !! i = Some s /\
    macd !! (i - 1)%nat = Some m' /\ signal !! (i - 1)%nat = Some s' /\
    (1 <= i)%nat /\
    (m <? s)%float = true /\ (s' <=? m')%float = true.


(** * Facts about the engine *)

(** ** Results *)

(** A sequence returns when its first step returns and the rest returns on
    what it gave. *)
Lemma bind_Ok {A B} (m : result A) (k : A -> result B) (b : B) :
  m ≫= k = Ok b <-> exists a, m = Ok a /\ k a = Ok b.
Proof.
  destruct m as [a|e]; simpl; split.
  - intros Hk. by exists a.
  - by intros (a' & [= ->] & Hk).
  - discriminate.
  - by intros (a' & [=] & _).
Qed.

Lemma at_index_Ok {A} (l : list A) (i : nat) (a : A) :
  at_index l i = Ok a <-> l !! i = Some a.
Proof. unfold at_index. destruct (l !! i); split; congruence. Qed.

Lemma at_index_nonempty {A} (l : list A) i a :
  at_index l i = Ok a -> l <> [].
Proof. intros H%at_index_Ok ->. by rewrite lookup_nil in H. Qed.

Lemma at_last_nonempty {A} (l : list A) :
  l <> [] -> exists a, at_last l = Ok a.
Proof.
  intros Hl. unfold at_last. destruct (last l) as [a|] eqn:Hlast; [eauto|].
  by apply last_None in Hlast.
Qed.

Lemma column_Ok {A} (c : option (list A)) (l : list A) :
  column c = Ok l <-> c = Some l.
Proof. destruct c; simpl; split; congruence. Qed.

Lemma iloc_Ok {A} (c : option (list A)) (i : nat) (a : A) :
  iloc c i = Ok a <-> exists l, c = Some l /\ l !! i = Some a.
Proof.
  unfold iloc. rewrite bind_Ok. setoid_rewrite column_Ok.
  by setoid_rewrite at_index_Ok.
Qed.

Lemma iloc_set_Ok {A} (c : option (list A)) (i : nat) (v : A) (l' : list A) :
  iloc_set c i v = Ok l' <->
  exists l, c = Some l /\ (i < length l)%nat /\ l' = <[i := v]> l.
Proof.
  unfold iloc_set. rewrite bind_Ok. setoid_rewrite column_Ok. split.
  - intros (l & -> & Hl). exists l.
    destruct (decide (i < length l)%nat); [|discriminate Hl].
    by injection Hl as <-.
  - intros (l & -> & Hi & ->). exists l. split; [done|].
    by rewrite decide_True.
Qed.

(** Splits the hypotheses that a sequence of steps returned. *)
Ltac ok_steps :=
  repeat match goal with
  | H : Ok _ = Ok _ |- _ => injection H as H; try subst
  | H : Raise _ = Ok _ |- _ => discriminate H
  | H : _ ≫= _ = Ok _ |- _ =>
      let x := fresh "x" in let Hx := fresh "Hx" in
      apply bind_Ok in H as (x & Hx & H)
  | H : (let '(_, _) := ?p in _) = Ok _ |- _ => destruct p
  end.

(** ** Floats *)

Section FloatFacts.

Local Open Scope float_scope.

(** A positive float plus zero is that float. *)
Lemma add_zero_r (x : float) : (0 <? x) = true -> x + 0 = x.
Proof.
  intros Hx. apply Prim2SF_inj. rewrite add_spec.
  rewrite ltb_spec in Hx. change (Prim2SF 0) with (S754_zero false) in *.
  by destruct (Prim2SF x) as [[]|[]| |[]].
Qed.

(** Zero times a positive finite float is zero. *)
Lemma mul_zero_l (x : float) :
  (0 <? x) = true -> (x <? infinity) = true -> 0 * x = 0.
Proof.
  intros Hx Hfin. apply Prim2SF_inj. rewrite mul_spec.
  rewrite ltb_spec in Hx, Hfin.
  change (Prim2SF 0) with (S754_zero false) in *.
  change (Prim2SF infinity) with (S754_infinity false) in *.
  by destruct (Prim2SF x) as [[]|[]| |[]].
Qed.

End FloatFacts.

(** ** Sums *)

Section Sums.

Local Open Scope float_scope.

Lemma pairwise_sum_unfold fuel l :
  Series.pairwise_sum fuel l =
  if (length l <? 8)%nat then foldl add 0 l
  else if (length l <=? 128)%nat then Series.sum_block l
  else
    match fuel with
    | O => Series.sum_block l
    | S fuel =>
        let n2 := (length l / 2 - (length l / 2) mod 8)%nat in
        Series.pairwise_sum fuel (take n2 l)
        + Series.pairwise_sum fuel (drop n2 l)
    end.
Proof. by destruct fuel. Qed.

(** The fuel of the pairwise sum is never used up: any two that are at
    least the number of cells give the same sum. *)
Lemma pairwise_sum_fuel f1 f2 l :
  (length l <= f1)%nat -> (length l <= f2)%nat ->
  Series.pairwise_sum f1 l = Series.pairwise_sum f2 l.
Proof.
  revert f2 l. induction f1 as [|f1 IH]; intros f2 l H1 H2.
  all: rewrite (pairwise_sum_unfold _ l), (pairwise_sum_unfold f2 l).
  all: destruct (length l <? 8)%nat eqn:H8; [done|].
  all: destruct (length l <=? 128)%nat eqn:H128; [done|].
  all: apply Nat.leb_gt in H128.
  { lia. }
  destruct f2 as [|f2]; [lia|]. cbv zeta.
  pose proof (Nat.div_mod_eq (length l) 2) as Hdiv.
  pose proof (Nat.mod_upper_bound (length l) 2) as Hmod2.
  pose proof (Nat.mod_upper_bound (length l / 2) 8) as Hmod8.
  f_equal; apply IH; rewrite ?length_take, ?length_drop; lia.
Qed.

End Sums.

Import BaseStrategy.

(** ** A write touches one row *)

Section Frame.

Lemma same_but_at_refl {A} i (c : option (list A)) : same_but_at i c c.
Proof. by destruct c. Qed.

Lemma same_but_at_trans {A} i (c1 c2 c3 : option (list A)) :
  same_but_at i c1 c2 -> same_but_at i c2 c3 -> same_but_at i c1 c3.
Proof.
  destruct c1, c2, c3; simpl; try done.
  intros [Hl1 H1] [Hl2 H2]. split; [congruence|].
  intros j Hj. by rewrite H2, H1.
Qed.

Lemma same_but_at_insert {A} i (l : list A) v :
  same_but_at i (Some l) (Some (<[i := v]> l)).
Proof.
  split; [apply length_insert|].
  intros j Hj. by apply list_lookup_insert_ne.
Qed.

Lemma same_but_at_iloc {A} i j (c c' : option (list A)) :
  same_but_at i c c' -> j <> i -> iloc c' j = iloc c j.
Proof.
  destruct c as [l|], c' as [l'|]; simpl; try done.
  intros [_ H] Hj. unfold iloc, at_index; simpl. by rewrite H.
Qed.

Lemma touches_only_row_refl i df : touches_only_row i df df.
Proof. split; auto using same_but_at_refl. Qed.

Lemma touches_only_row_trans i df1 df2 df3 :
  touches_only_row i df1 df2 -> touches_only_row i df2 df3 ->
  touches_only_row i df1 df3.
Proof.
  intros [] []. split; try congruence; eauto using same_but_at_trans.
Qed.

(** What a write that returned has done, column by column. *)
Lemma put_position_Ok i v df df' :
  put_position i v df = Ok df' <->
  exists l, position df = Some l /\ (i < length l)%nat /\
            df' = set_position (<[i := v]> l) df.
Proof.
  unfold put_position. rewrite bind_Ok. split.
  - intros (c & (l & ? & ? & ->)%iloc_set_Ok & [= <-]). eauto.
  - intros (l & ? & ? & ->). eexists. split; [|done].
    apply iloc_set_Ok. eauto.
Qed.

Lemma put_cash_Ok i v df df' :
  put_cash i v df = Ok df' <->
  exists l, cash df = Some l /\ (i < length l)%nat /\
            df' = set_cash (<[i := v]> l) df.
Proof.
  unfold put_cash. rewrite bind_Ok. split.
  - intros (c & (l & ? & ? & ->)%iloc_set_Ok & [= <-]). eauto.
  - intros (l & ? & ? & ->). eexists. split; [|done].
    apply iloc_set_Ok. eauto.
Qed.

Lemma put_holdings_Ok i v df df' :
  put_holdings i v df = Ok df' <->
  exists l, holdings df = Some l /\ (i < length l)%nat /\
            df' = set_holdings (<[i := v]> l) df.
Proof.
  unfold put_holdings. rewrite bind_Ok. split.
  - intros (c & (l & ? & ? & ->)%iloc_set_Ok & [= <-]). eauto.
  - intros (l & ? & ? & ->). eexists. split; [|done].
    apply iloc_set_Ok. eauto.
Qed.

Lemma put_total_value_Ok i v df df' :
  put_total_value i v df = Ok df' <->
  exists l, total_value df = Some l /\ (i < length l)%nat /\
            df' = set_total_value (<[i := v]> l) df.
Proof.
  unfold put_total_value. rewrite bind_Ok. split.
  - intros (c & (l & ? & ? & ->)%iloc_set_Ok & [= <-]). eauto.
  - intros (l & ? & ? & ->). eexists. split; [|done].
    apply iloc_set_Ok. eauto.
Qed.

Lemma put_returns_Ok i v df df' :
  put_returns i v df = Ok df' <->
  exists l, returns df = Some l /\ (i < length l)%nat /\
            df' = set_returns (<[i := v]> l) df.
Proof.
  unfold put_returns. rewrite bind_Ok. split.
  - intros (c & (l & ? & ? & ->)%iloc_set_Ok & [= <-]). eauto.
  - intros (l & ? & ? & ->). eexists. split; [|done].
    apply iloc_set_Ok. eauto.
Qed.

(** A write leaves every other row, and every other column, as it was. *)
Lemma put_position_frame i v df df' :
  put_position i v df = Ok df' -> touches_only_row i df df'.
Proof.
  intros (l & Hl & _ & ->)%put_position_Ok.
  split; simpl; try done; try apply same_but_at_refl.
  rewrite Hl. apply same_but_at_insert.
Qed.

Lemma put_cash_frame i v df df' :
  put_cash i v df = Ok df' -> touches_only_row i df df'.
Proof.
  intros (l & Hl & _ & ->)%put_cash_Ok.
  split; simpl; try done; try apply same_but_at_refl.
  rewrite Hl. apply same_but_at_insert.
Qed.

Lemma put_holdings_frame i v df df' :
  put_holdings i v df = Ok df' -> touches_only_row i df df'.
Proof.
  intros (l & Hl & _ & ->)%put_holdings_Ok.
  split; simpl; try done; try apply same_but_at_refl.
  rewrite Hl. apply same_but_at_insert.
Qed.

Lemma put_total_value_frame i v df df' :
  put_total_value i v df = Ok df' -> touches_only_row i df df'.
Proof.
  intros (l & Hl & _ & ->)%put_total_value_Ok.
  split; simpl; try done; try apply same_but_at_refl.
  rewrite Hl. apply same_but_at_insert.
Qed.

Lemma put_returns_frame i v df df' :
  put_returns i v df = Ok df' -> touches_only_row i df df'.
Proof.
  intros (l & Hl & _ & ->)%put_returns_Ok.
  split; simpl; try done; try apply same_but_at_refl.
  rewrite Hl. apply same_but_at_insert.
Qed.

(** What a write leaves in the cell it wrote. *)
Lemma put_position_iloc i v df df' :
  put_position i v df = Ok df' -> iloc (position df') i = Ok v.
Proof.
  intros (l & Hl & Hi & ->)%put_position_Ok. apply iloc_Ok; simpl.
  eexists; split; [done|]. by apply list_lookup_insert_eq.
Qed.

Lemma put_holdings_iloc i v df df' :
  put_holdings i v df = Ok df' -> iloc (holdings df') i = Ok v.
Proof.
  intros (l & Hl & Hi & ->)%put_holdings_Ok. apply iloc_Ok; simpl.
  eexists; split; [done|]. by apply list_lookup_insert_eq.
Qed.

Lemma put_total_value_iloc i v df df' :
  put_total_value i v df = Ok df' -> iloc (total_value df') i = Ok v.
Proof.
  intros (l & Hl & Hi & ->)%put_total_value_Ok. apply iloc_Ok; simpl.
  eexists; split; [done|]. by apply list_lookup_insert_eq.
Qed.

End Frame.

(** Follows the writes back from the last table to the first. *)
Ltac frame :=
  lazymatch goal with
  | |- touches_only_row _ ?d ?d => apply touches_only_row_refl
  | H : put_position _ _ ?d = Ok ?d' |- touches_only_row _ _ ?d' =>
      apply (touches_only_row_trans _ _ d);
        [frame | exact (put_position_frame _ _ _ _ H)]
  | H : put_cash _ _ ?d = Ok ?d' |- touches_only_row _ _ ?d' =>
      apply (touches_only_row_trans _ _ d);
        [frame | exact (put_cash_frame _ _ _ _ H)]
  | H : put_holdings _ _ ?d = Ok ?d' |- touches_only_row _ _ ?d' =>
      apply (touches_only_row_trans _ _ d);
        [frame | exact (put_holdings_frame _ _ _ _ H)]
  | H : put_total_value _ _ ?d = Ok ?d' |- touches_only_row _ _ ?d' =>
      apply (touches_only_row_trans _ _ d);
        [frame | exact (put_total_value_frame _ _ _ _ H)]
  | H : put_returns _ _ ?d = Ok ?d' |- touches_only_row _ _ ?d' =>
      apply (touches_only_row_trans _ _ d);
        [frame | exact (put_returns_frame _ _ _ _ H)]
  | H : touches_only_row _ ?d ?d' |- touches_only_row _ _ ?d' =>
      apply (touches_only_row_trans _ _ d); [frame | exact H]
  end.

(** ** One round of the loop *)

Section Loop.

Lemma duration_days_Ok date entry e d :
  duration_days date entry = Ok (e, d) ->
  entry = Some e /\ d = days_between date e.
Proof. destruct entry; simpl; by intros [= <- <-]. Qed.

(** Closing on a signal: the state is as before, or the position is flat. *)
Lemma close_on_signal_Ok i date price signal s s' :
  close_on_signal i date price signal s = Ok s' ->
  touches_only_row i (st_df s) (st_df s') /\
  (s' = s \/ current_position s' = 0) /\
  (entry_known s -> entry_known s').
Proof.
  unfold close_on_signal.
  destruct (_ || _); [|intros [= <-]; eauto using touches_only_row_refl].
  destruct (current_position s >? 0); intros H; ok_steps; simpl.
  all: split; [|split; [by right | by intros _ ?]].
  all: frame.
Qed.

(** What closing on a signal logs. *)
Lemma close_on_signal_trades i date price signal s s' :
  close_on_signal i date price signal s = Ok s' ->
  trades s' = trades s \/
  exists entry, entry_date s = Some entry /\
    trades s' = trades s ++
      [closing_trade (current_position s) (entry_price s) entry date price].
Proof.
  unfold close_on_signal, closing_trade.
  destruct (_ || _); [|intros [= <-]; by left].
  rewrite Z.gtb_ltb.
  destruct (0 <? current_position s); intros H; ok_steps; right; simpl.
  all: apply duration_days_Ok in Hx as [-> ->]; eauto.
Qed.

(** Opening on a signal when flat: row [i] shows the position held
    afterwards. *)
Lemma open_on_signal_Ok i date price signal s s' :
  at_index (index (st_df s)) i = Ok date ->
  at_index (Close (st_df s)) i = Ok price ->
  open_on_signal i date price signal s = Ok s' ->
  touches_only_row i (st_df s) (st_df s') /\
  (current_position s = 0 -> shows_position i price s') /\
  (current_position s <> 0 -> s' = s) /\
  (entry_known s -> entry_known s').
Proof.
  intros Hdate Hprice. unfold open_on_signal.
  destruct (current_position s =? 0) eqn:Hflat;
    [apply Z.eqb_eq in Hflat | apply Z.eqb_neq in Hflat]; cycle 1.
  { intros [= <-]. split; [apply touches_only_row_refl|].
    split; [intros ?; congruence | by split]. }
  intros H. ok_steps.
  assert (touches_only_row i (st_df s) (st_df x1) /\
          (current_position x1 <> 0 -> is_Some (entry_date x1)))
    as [Hfr Hent].
  { destruct (_ && _); [|destruct (_ && _)]; ok_steps; simpl;
      (split; [frame | eauto]). intros ?; congruence. }
  assert (touches_only_row i (st_df s) x3) as Hfr' by frame.
  split; [done|]. split; [|split; [done|]].
  - intros _. split; simpl.
    + apply put_holdings_Ok in Hx3 as (? & ? & ? & ->). simpl.
      eapply put_position_iloc, Hx2.
    + eapply put_holdings_iloc, Hx3.
  - intros _ Hpos; simpl in *. split; [auto|].
    rewrite (tor_index _ _ _ Hfr'), (tor_Close _ _ _ Hfr').
    eauto using at_index_nonempty.
Qed.

(** One round of the loop writes row [i] only, and leaves it balanced. *)
Lemma loop_body_Ok i s s' :
  loop_body i s = Ok s' ->
  touches_only_row i (st_df s) (st_df s') /\
  conserved (st_df s') i /\
  (exists price, at_index (Close (st_df s')) i = Ok price /\
                 shows_position i price s') /\
  (entry_known s -> entry_known s').
Proof.
  unfold loop_body. intros H. ok_steps.
  rename x into date, x0 into price, x1 into signal.
  set (s0 := mkState x5 _ _ _ _) in Hx6.
  assert (touches_only_row i (st_df s) x5) as Hfr0 by frame.
  assert (at_index (index x5) i = Ok date) as Hdate
    by by rewrite (tor_index _ _ _ Hfr0).
  assert (at_index (Close x5) i = Ok price) as Hprice
    by by rewrite (tor_Close _ _ _ Hfr0).
  assert (shows_position i price s0) as Hshow0.
  { split; simpl; [|eapply put_holdings_iloc, Hx5].
    apply put_holdings_Ok in Hx5 as (? & ? & ? & ->).
    apply put_cash_Ok in Hx4 as (? & ? & ? & ->). simpl.
    eapply put_position_iloc, Hx2. }
  apply close_on_signal_Ok in Hx6 as (Hfr1 & Hclosed & Hent1).
  apply open_on_signal_Ok in Hx7 as (Hfr2 & Hopened & Hkept & Hent2);
    [|by rewrite (tor_index _ _ _ Hfr1) | by rewrite (tor_Close _ _ _ Hfr1)].
  assert (shows_position i price x7) as [Hpos Hhold].
  { destruct (decide (current_position x6 = 0)) as [Hflat|Hheld]; [auto|].
    rewrite (Hkept Hheld). by destruct Hclosed as [->|]. }
  assert (touches_only_row i (st_df s) x13) as Hfr by (simpl in *; frame).
  assert (at_index (Close x13) i = Ok price) as Hprice'.
  { rewrite (tor_Close _ _ _ Hfr). by rewrite <- (tor_Close _ _ _ Hfr0). }
  pose proof (put_total_value_iloc _ _ _ _ Hx10) as Htv.
  apply put_returns_Ok in Hx13 as (? & ? & ? & ->).
  apply put_total_value_Ok in Hx10 as (? & ? & ? & ->).
  simpl in *. split; [done|]. split; [|split].
  - exists (x8 + x9)%float, x8, x9, (current_position x7), price.
    repeat split; try done. congruence.
  - exists price. by repeat split.
  - intros Hent Hpos'.
    assert (entry_known s0) as Hent0.
    { intros Hs. destruct (Hent Hs) as (? & _ & _). simpl.
      eauto using at_index_nonempty. }
    destruct (Hent2 (Hent1 Hent0) Hpos') as (Hsome & _ & _).
    split; [done|]. split; [|eauto using at_index_nonempty].
    simpl. rewrite (tor_index _ _ _ Hfr2), (tor_index _ _ _ Hfr1).
    eauto using at_index_nonempty.
Qed.

End Loop.

(** ** The whole loop *)

Section Run.

Lemma conserved_frame i j df df' :
  touches_only_row i df df' -> j <> i -> conserved df j -> conserved df' j.
Proof.
  intros Hfr Hj (tv & c & h & p & cl & ? & ? & ? & ? & ? & ? & ?).
  exists tv, c, h, p, cl.
  rewrite (same_but_at_iloc i j _ _ (tor_total_value _ _ _ Hfr) Hj).
  rewrite (same_but_at_iloc i j _ _ (tor_cash _ _ _ Hfr) Hj).
  rewrite (same_but_at_iloc i j _ _ (tor_holdings _ _ _ Hfr) Hj).
  rewrite (same_but_at_iloc i j _ _ (tor_position _ _ _ Hfr) Hj).
  by rewrite (tor_Close _ _ _ Hfr).
Qed.

(** The rounds over the rows [is_] balance each of them, leave the other
    rows as they are, and end showing the position at the last of them. *)
Lemma for_each_loop_body_Ok is_ s s' :
  NoDup is_ ->
  for_each loop_body is_ s = Ok s' ->
  index (st_df s') = index (st_df s) /\
  Close (st_df s') = Close (st_df s) /\
  (forall j, j ∉ is_ -> conserved (st_df s) j -> conserved (st_df s') j) /\
  (forall i, i ∈ is_ -> conserved (st_df s') i) /\
  (entry_known s -> entry_known s') /\
  (is_Some (returns (st_df s)) -> is_Some (returns (st_df s'))) /\
  (forall i, last is_ = Some i ->
     exists price, at_index (Close (st_df s')) i = Ok price /\
                   shows_position i price s').
Proof.
  intros Hnodup. revert s.
  induction Hnodup as [|i is_ Hi Hnodup IH]; intros s; simpl.
  { intros [= <-].
    split_and!; [done | done | auto | by intros ? ?%elem_of_nil | auto
                | auto | by intros ? [=]]. }
  intros H. ok_steps.
  apply loop_body_Ok in Hx as (Hfr & Hcons & Hshow & Hent).
  pose proof H as Hrest.
  apply IH in H as (Hidx & Hcl & Hother & Hrows & Hent' & Hret & Hlast).
  split; [by rewrite Hidx, (tor_index _ _ _ Hfr)|].
  split; [by rewrite Hcl, (tor_Close _ _ _ Hfr)|].
  split_and!.
  - intros j [Hne Hnin]%not_elem_of_cons ?.
    eauto using conserved_frame.
  - intros j [->|?]%elem_of_cons; auto.
  - auto.
  - intros Hsome. apply Hret. pose proof (tor_returns _ _ _ Hfr) as Hr.
    destruct Hsome as [r Hr']. rewrite Hr' in Hr.
    by destruct (returns (st_df x)).
  - destruct is_ as [|i' is_']; [|by apply Hlast].
    intros j [= <-]. by injection Hrest as <-.
Qed.

Lemma run_loop_Ok s s' :
  run_loop s = Ok s' ->
  index (st_df s') = index (st_df s) /\
  Close (st_df s') = Close (st_df s) /\
  (conserved (st_df s) 0 -> conserved (st_df s') 0) /\
  (forall i, (1 <= i < len (st_df s))%nat -> conserved (st_df s') i) /\
  (entry_known s -> entry_known s') /\
  (is_Some (returns (st_df s)) -> is_Some (returns (st_df s'))) /\
  ((2 <= len (st_df s))%nat ->
     exists price,
       at_index (Close (st_df s')) (len (st_df s) - 1) = Ok price /\
       shows_position (len (st_df s) - 1) price s').
Proof.
  unfold run_loop. intros H.
  apply for_each_loop_body_Ok in H
    as (Hidx & Hcl & Hother & Hrows & Hent & Hret & Hlast);
    [|apply NoDup_seq].
  split_and!; try done.
  - apply Hother. rewrite elem_of_seq. lia.
  - intros i Hi. apply Hrows. rewrite elem_of_seq. lia.
  - intros Hlen. apply Hlast.
    rewrite last_lookup, length_seq.
    rewrite lookup_seq. lia.
Qed.

(** A run of fewer than two bars does not enter the body of the loop. *)
Lemma run_loop_short s :
  (len (st_df s) < 2)%nat -> run_loop s = Ok s.
Proof.
  unfold run_loop. intros Hlen.
  by replace (len (st_df s) - 1)%nat with 0%nat by lia.
Qed.

(** The table of no trades cannot take its eight column names: a run
    without a trade raises, as a run of fewer than two bars does. *)
Lemma simulate_short_raises cap df :
  (len df < 2)%nat -> simulate cap df = Raise ValueError.
Proof.
  intros Hlen. unfold simulate. rewrite run_loop_short by done.
  reflexivity.
Qed.

(** Bar 0 of the fresh portfolio balances. *)
Lemma init_portfolio_conserved cap df cl :
  (0 <? cap)%float = true ->
  (0 < len df)%nat ->
  Close df !! 0%nat = Some cl -> positive_finite cl ->
  conserved (st_df (init_portfolio cap df)) 0.
Proof.
  intros Hcap Hlen Hcl [Hpos Hfin].
  exists cap, cap, 0%float, 0, cl.
  split_and!;
    try (apply iloc_Ok; eexists; split; [done|];
         by apply lookup_replicate_2).
  - by apply at_index_Ok.
  - symmetry. by apply add_zero_r.
  - symmetry. by apply mul_zero_l.
Qed.

Lemma init_portfolio_entry_known cap df :
  entry_known (init_portfolio cap df).
Proof. by intros []. Qed.

Lemma add_cumulative_returns_Ok df df' :
  add_cumulative_returns df = Ok df' ->
  exists r, returns df = Some r /\
    df' = set_cumulative_returns
            ((fun x => x - 1)%float <$>
             Series.cumprod ((fun x => 1 + x)%float <$> r)) df.
Proof.
  unfold add_cumulative_returns. intros H. ok_steps.
  apply column_Ok in Hx. eauto.
Qed.

(** Claim C2 (conservation).  For a positive [initial_capital] and a table
    whose closes are positive reals, every bar [i] of the table that
    [simulate] returns balances: [total_value] is exactly
    [cash + holdings], and [holdings] is exactly the position times the
    close of the bar. *)
Theorem simulate_conserved initial_capital df df' trades_df :
  (0 <? initial_capital)%float = true ->
  Forall positive_finite (Close df) ->
  simulate initial_capital df = Ok (df', trades_df) ->
  forall i, (i < len df')%nat -> conserved df' i.
Proof.
  intros Hcap Hcloses Hsim.
  destruct (decide (len df < 2)%nat) as [Hshort|Hlong].
  { by rewrite simulate_short_raises in Hsim. }
  unfold simulate in Hsim. ok_steps.
  apply run_loop_Ok in Hx as (Hidx & Hcl & Hzero & Hrows & _).
  apply add_cumulative_returns_Ok in Hx1 as (r & _ & ->).
  assert (forall i, (i < len df)%nat -> conserved (st_df x) i) as Hall.
  { intros [|i] Hi; [|apply Hrows; unfold len in *; simpl in *; lia].
    destruct (Hrows 1%nat)
      as (_ & _ & _ & _ & cl1 & _ & _ & _ & _ & Hcl1 & _);
      [unfold len in *; simpl in *; lia|].
    rewrite Hcl in Hcl1. apply at_index_Ok in Hcl1. simpl in Hcl1.
    destruct (Close df) as [|cl0 cls] eqn:Hcloses'; [done|].
    apply Hzero.
    apply (init_portfolio_conserved initial_capital df cl0);
      [done | done | by rewrite Hcloses' | by inversion Hcloses]. }
  intros i Hi. apply Hall. revert Hi. unfold len; simpl. by rewrite Hidx.
Qed.

(** Claim C3 (the close at the end of the series).  When the loop ends
    with a position open, [simulate] returns, and its trade log is the log
    of the loop followed by one closing trade: at the last close, dated the
    last timestamp, and built as the trade a close on a signal logs.  The
    table it returns is the table of the run without that close, so the
    [cash], [holdings], [total_value], [returns] and [cumulative_returns]
    columns are untouched, and its last row still shows the position
    open. *)
Theorem forced_close_only_logs initial_capital df s :
  run_loop (init_portfolio initial_capital df) = Ok s ->
  current_position s <> 0 ->
  exists entry exit_date exit_price df',
    entry_date s = Some entry /\
    at_last (index df) = Ok exit_date /\
    at_last (Close df) = Ok exit_price /\
    simulate initial_capital df =
      Ok (df', trades s ++
               [closing_trade (current_position s) (entry_price s) entry
                  exit_date exit_price]) /\
    (forall i date price signal s',
       close_on_signal i date price signal s = Ok s' ->
       trades s' = trades s ++
         [closing_trade (current_position s) (entry_price s) entry
            date price] \/ trades s' = trades s) /\
    table_without_forced_close initial_capital df = Ok df' /\
    position df' = position (st_df s) /\
    cash df' = cash (st_df s) /\
    holdings df' = holdings (st_df s) /\
    total_value df' = total_value (st_df s) /\
    returns df' = returns (st_df s) /\
    iloc (position df') (len df - 1) = Ok (current_position s).
Proof.
  intros Hrun Hopen.
  pose proof Hrun as (Hidx & Hcl & _ & _ & Hent & Hret & Hlast)%run_loop_Ok.
  destruct (Hent (init_portfolio_entry_known initial_capital df) Hopen)
    as ([entry Hentry] & Hindex & HClose).
  destruct (at_last_nonempty _ Hindex) as [exit_date Hexit_date].
  destruct (at_last_nonempty _ HClose) as [exit_price Hexit_price].
  destruct Hret as [r Hr]; [by eexists|].
  set (df' := set_cumulative_returns
                ((fun x => x - 1)%float <$>
                 Series.cumprod ((fun x => 1 + x)%float <$> r)) (st_df s)).
  assert (add_cumulative_returns (st_df s) = Ok df') as Hcum.
  { unfold add_cumulative_returns. by rewrite Hr. }
  exists entry, exit_date, exit_price, df'. simpl in Hidx, Hcl.
  split_and!; try done; try congruence.
  - unfold simulate. rewrite Hrun. simpl.
    unfold close_remaining, closing_trade.
    apply Z.eqb_neq in Hopen as ->. simpl.
    rewrite Hexit_price, Hexit_date, Hentry, Z.gtb_ltb. simpl.
    rewrite Hcum. simpl.
    destruct (0 <? current_position s); simpl.
    all: by destruct (trades s).
  - intros i date price signal s'
      [->|(e & He & ->)]%close_on_signal_trades; [by right|left].
    congruence.
  - unfold table_without_forced_close. by rewrite Hrun.
  - destruct (decide (len df < 2)%nat) as [Hshort|Hlong].
    { rewrite run_loop_short in Hrun by done. by injection Hrun as <-. }
    destruct Hlast as (price & _ & Hpos & _);
      [unfold len in *; simpl in *; lia|].
    done.
Qed.

End Run.

(** * The end-to-end scenario *)

(** Unequal float literals, through their binary representations. *)
Ltac float_discriminate H :=
  apply (f_equal (fmap (M := result) Prim2SF)) in H; vm_compute in H;
  discriminate H.

(** On the scenario of the specification the run does not give what the
    specification expects, in none of three places: the cash of bar 2 is
    not 910, the total value of bar 3 is not 910, and the log has more
    than one trade. *)
Lemma scenario_not_as_claimed :
  ~ exists df trades_df,
      simulate 1000 Examples.scenario = Ok (df, trades_df) /\
      (iloc (cash df) 2 = Ok 910%float \/
       iloc (total_value df) 3 = Ok 910%float \/
       length trades_df = 1%nat).
Proof.
  intros (df & trades_df & Hrun & Hclaim).
  vm_compute in Hrun. injection Hrun as <- <-.
  destruct Hclaim as [Hcash|[Htotal|Hlog]].
  - vm_compute in Hcash. float_discriminate Hcash.
  - vm_compute in Htotal. float_discriminate Htotal.
  - discriminate Hlog.
Qed.

(** Claim C1, as the code runs it.  On closes [100, 105, 95, 110], signals
    [0, +1, -1, 0] and an initial capital of 1000: bar 1 opens a long of 9
    shares and leaves 55 in cash; bar 2 closes it at 95 with a loss of 90
    (-9.52 percent), which brings the cash to 910, and in the same bar
    opens a short of 9 shares at 95, which brings it to 1765; the total
    value is 910 at bar 2 and 775 at bar 3; the log holds two trades, the
    long and the short closed at the end of the series at 110 with a loss
    of 135. *)
Theorem scenario_run :
  exists df long short,
    simulate 1000 Examples.scenario = Ok (df, [long; short]) /\
    position df = Some [0; 9; -9; -9] /\
    cash df = Some [1000; 55; 1765; 1765]%float /\
    holdings df = Some [0; 945; -855; -990]%float /\
    total_value df = Some [1000; 1000; 910; 775]%float /\
    long = closing_trade 9 105 (Examples.day 1) (Examples.day 2) 95 /\
    profit_loss long = (-90)%float /\
    PyFloat.format_fixed 2 (profit_loss_pct long) = "-9.52" /\
    short = closing_trade (-9) 95 (Examples.day 2) (Examples.day 3) 110 /\
    profit_loss short = (-135)%float.
Proof.
  eexists _, _, _. split; [vm_compute; reflexivity|].
  split_and!; vm_compute; reflexivity.
Qed.

(** Bar 2 of the scenario balances. *)
Lemma conserved_witness :
  exists df trades_df,
    simulate 1000 Examples.scenario = Ok (df, trades_df) /\ conserved df 2.
Proof.
  eexists _, _. split; [vm_compute; reflexivity|].
  eapply (simulate_conserved 1000 Examples.scenario).
  - reflexivity.
  - repeat constructor.
  - vm_compute; reflexivity.
  - vm_compute. lia.
Defined.

(** The scenario ends with its short open: the log of the loop and the
    close at the end. *)
Lemma forced_close_witness :
  exists s, run_loop (init_portfolio 1000 Examples.scenario) = Ok s /\
    exists entry exit_date exit_price df',
      entry_date s = Some entry /\
      at_last (index Examples.scenario) = Ok exit_date /\
      at_last (Close Examples.scenario) = Ok exit_price /\
      simulate 1000 Examples.scenario =
        Ok (df', trades s ++
                 [closing_trade (current_position s) (entry_price s) entry
                    exit_date exit_price]).
Proof.
  eexists. split; [vm_compute; reflexivity|].
  edestruct (forced_close_only_logs 1000 Examples.scenario)
    as (entry & exit_date & exit_price & df' & H1 & H2 & H3 & H4 & _);
    [vm_compute; reflexivity | vm_compute; discriminate |].
  exists entry, exit_date, exit_price, df'.
  split_and!; [exact H1 | exact H2 | exact H3 | exact H4].
Defined.

(** * Fewer than two bars *)

Section Outcomes.

Context `{Strategy}.

(** The outcome of a run is what [simulate] and [backtest] come to, with
    the place kept. *)
Lemma simulate_outcome_result initial_capital df :
  result_of (simulate_outcome initial_capital df)
  = simulate initial_capital df.
Proof.
  unfold simulate_outcome, simulate.
  destruct (run_loop _) as [s|]; simpl; [|done].
  destruct (close_remaining s) as [trades|]; simpl; [|done].
  destruct (add_cumulative_returns _) as [df'|]; simpl; [|done].
  by destruct (trades_table trades).
Qed.

Lemma backtest_outcome_result initial_capital df :
  result_of (backtest_outcome initial_capital df)
  = backtest initial_capital df.
Proof.
  unfold backtest_outcome, backtest.
  destruct (calculate_indicators df) as [df1|]; simpl; [|done].
  destruct (generate_signals df1) as [df2|]; simpl; [|done].
  apply simulate_outcome_result.
Qed.

(** On fewer than two bars the steps after the hooks go through the loop
    and the two steps after it, and stop where the empty trade table is
    given its column names. *)
Lemma simulate_outcome_short initial_capital df :
  (len df < 2)%nat ->
  simulate_outcome initial_capital df = RaisedAt ColumnNames ValueError.
Proof.
  intros Hlen. unfold simulate_outcome.
  rewrite run_loop_short by done. reflexivity.
Qed.

(** Claim C4, as the code runs it.  [backtest] has no check on the number
    of bars.  When the table the hooks of the strategy hand on has fewer
    than two bars, the run goes on as [simulate] does on that table: it
    reaches the loop, which ends without a round and leaves the portfolio
    as it was set up, with no trade logged and no position to close; and
    whatever the run raises, it does not raise it before the loop. *)
Theorem short_series_not_rejected initial_capital df df1 df2 :
  calculate_indicators df = Ok df1 ->
  generate_signals df1 = Ok df2 ->
  (len df2 < 2)%nat ->
  backtest_outcome initial_capital df
  = simulate_outcome initial_capital df2 /\
  run_loop (init_portfolio initial_capital df2)
  = Ok (init_portfolio initial_capital df2) /\
  trades (init_portfolio initial_capital df2) = [] /\
  close_remaining (init_portfolio initial_capital df2) = Ok [] /\
  forall p e,
    backtest_outcome initial_capital df = RaisedAt p e ->
    before_loop p = false.
Proof.
  intros Hind Hsig Hlen.
  assert (backtest_outcome initial_capital df
          = simulate_outcome initial_capital df2) as Hrun.
  { unfold backtest_outcome. by rewrite Hind; simpl; rewrite Hsig. }
  split; [done|]. split; [by apply run_loop_short|].
  split; [done|]. split; [done|].
  intros p e. rewrite Hrun, simulate_outcome_short by done.
  by intros [= <- <-].
Qed.

End Outcomes.

(** The MACD strategy on a single bar, of which every exponentially
    weighted mean is the bar itself: the run is not rejected before the
    loop. *)
Lemma one_bar_not_rejected :
  (len Examples.one_bar < 2)%nat /\
  ~ exists p e,
      backtest_outcome
        (H := MACDStrategy.strategy Tables.last_cell_only 12 26 9)
        1000 Examples.one_bar = RaisedAt p e /\
      before_loop p = true.
Proof.
  split; [vm_compute; lia|].
  intros (p & e & Hrun & Hbefore).
  vm_compute in Hrun. injection Hrun as <- <-. discriminate Hbefore.
Qed.

Lemma short_series_witness :
  exists df1 df2,
    MACDStrategy.calculate_indicators Tables.last_cell_only 12 26 9
      Examples.one_bar = Ok df1 /\
    MACDStrategy.generate_signals df1 = Ok df2 /\
    (len df2 < 2)%nat /\
    run_loop (init_portfolio 1000 df2) = Ok (init_portfolio 1000 df2) /\
    forall p e,
      backtest_outcome
        (H := MACDStrategy.strategy Tables.last_cell_only 12 26 9)
        1000 Examples.one_bar = RaisedAt p e ->
      before_loop p = false.
Proof.
  eexists _, _.
  split; [vm_compute; reflexivity|]. split; [vm_compute; reflexivity|].
  split; [vm_compute; lia|].
  edestruct (short_series_not_rejected
               (H := MACDStrategy.strategy Tables.last_cell_only 12 26 9)
               1000 Examples.one_bar)
    as (_ & Hloop & _ & _ & Hplace);
    [vm_compute; reflexivity | vm_compute; reflexivity | vm_compute; lia |].
  split; [exact Hloop | exact Hplace].
Defined.

(** Buy and hold on fewer than two bars fails to place its buy signal. *)
Lemma buy_and_hold_short_series initial_capital df :
  (len df < 2)%nat ->
  backtest (H := BuyHoldStrategy.strategy) initial_capital df
  = Raise IndexError.
Proof.
  intros Hlen. unfold backtest; simpl. unfold iloc_set; simpl.
  rewrite length_replicate. case_decide; [lia|done].
Qed.

(** * The metrics *)

Section DictFacts.

Lemma dict_get_set_eq key v d : Dict.get (Dict.set key v d) key = Some v.
Proof.
  induction d as [|[k x] d IH]; simpl; [by case_decide|].
  case_decide; simpl; by case_decide.
Qed.

Lemma dict_get_set_ne key key' v d :
  key <> key' -> Dict.get (Dict.set key v d) key' = Dict.get d key'.
Proof.
  intros Hne. induction d as [|[k x] d IH]; simpl; [by case_decide|].
  case_decide; simpl; repeat case_decide; congruence.
Qed.

End DictFacts.

(** Reads an entry through the assignments made after it. *)
Ltac dict_get :=
  repeat (rewrite dict_get_set_ne by discriminate); rewrite dict_get_set_eq.

Section MetricsFacts.

Variable float_pow : float -> float -> float.

(** A call that returns went through the return metrics, wrote the two
    drawdown columns and went through the trade metrics. *)
Lemma calculate_performance_metrics_Ok df trades_df df' m :
  calculate_performance_metrics float_pow df trades_df = (df', Ok m) ->
  exists m0 tv,
    return_metrics float_pow df = Ok m0 /\
    total_value df = Some tv /\
    df' = set_drawdown
            (zip_with div (zip_with sub tv (Series.cummax tv))
               (Series.cummax tv))
            (set_previous_peak (Series.cummax tv) df) /\
    trade_metrics trades_df
      (Dict.set "max_drawdown"
         (add_arrow
            (PyFloat
               (Series.min
                  (zip_with div (zip_with sub tv (Series.cummax tv))
                     (Series.cummax tv)) * 100))) m0) = Ok m.
Proof.
  unfold calculate_performance_metrics.
  destruct (return_metrics float_pow df) as [m0|]; [|by intros [=]].
  unfold add_drawdown.
  destruct (total_value df) as [tv|] eqn:Htv; simpl; [|by intros [=]].
  rewrite Htv; simpl. intros [= <- Hm]. by exists m0, tv.
Qed.

(** Claim C5, as the code runs it.  When no whole day lies between the
    first and the last timestamp of a table that has its cumulative
    returns, the call raises [ZeroDivisionError] at [365/days]: it returns
    no metrics, and leaves the table as it was. *)
Theorem zero_days_raise df trades_df cr first_ts last_ts :
  column (cumulative_returns df) ≫= at_last = Ok cr ->
  at_last (index df) = Ok last_ts ->
  at_index (index df) 0 = Ok first_ts ->
  days_between last_ts first_ts = 0 ->
  calculate_performance_metrics float_pow df trades_df
  = (df, Raise ZeroDivisionError).
Proof.
  intros Hcr Hlast Hfirst Hdays.
  unfold calculate_performance_metrics, return_metrics.
  rewrite Hcr; simpl. rewrite Hlast; simpl. rewrite Hfirst; simpl.
  by rewrite Hdays.
Qed.

(** Claim C7 (no trades).  The metrics of an empty trade log hold the
    integer 0 under each of the ten keys computed from the trades. *)
Theorem no_trades_all_zero df df' m :
  calculate_performance_metrics float_pow df [] = (df', Ok m) ->
  forall key, key ∈ trade_metric_keys -> Dict.get m key = Some (PyInt 0).
Proof.
  intros (m0 & tv & _ & _ & _ & Hm)%calculate_performance_metrics_Ok.
  injection Hm as <-. intros key Hkey.
  repeat (apply elem_of_cons in Hkey as [->|Hkey];
          [by dict_get|]).
  by apply elem_of_nil in Hkey.
Qed.

(** The profit factor entry of a trade log that is not empty: with no
    loser it is the float [+infinity]; with losers it is
    [|a * winning_trades / (l * losing_trades)|] with its arrow, where [a]
    and [l] are read back from what the [avg_profit] and [avg_loss]
    entries show, that is the averages rounded to two decimals ([0] for
    [avg_profit] when there is no winner). *)
Lemma profit_factor_entry df trades_df df' m :
  calculate_performance_metrics float_pow df trades_df = (df', Ok m) ->
  trades_df <> [] ->
  (losers trades_df = 0 ->
     Dict.get m "profit_factor" = Some (PyFloat infinity)) /\
  (0 < losers trades_df ->
     exists (avg_profit avg_loss : pyval) (a l : float),
       Dict.get m "avg_profit" = Some avg_profit /\
       avg_profit =
         (if 0 <? winners trades_df
          then PyStr (PyVal.with_arrow
                 (mean_where (fun t => PyFloat.gt0 (profit_loss t))
                    profit_loss trades_df))
          else PyInt 0) /\
       Dict.get m "avg_loss" = Some avg_loss /\
       avg_loss =
         PyStr (PyVal.with_arrow
           (mean_where (fun t => negb (PyFloat.gt0 (profit_loss t)))
              profit_loss trades_df)) /\
       PyVal.first_word_as_float avg_profit = Ok a /\
       PyVal.first_word_as_float avg_loss = Ok l /\
       Dict.get m "profit_factor" =
         Some (PyStr (PyVal.with_arrow
                 (abs (a * PyFloat.of_int (winners trades_df)
                       / (l * PyFloat.of_int (losers trades_df)))%float)))).
Proof.
  intros (m0 & tv & _ & _ & _ & Hm)%calculate_performance_metrics_Ok Hne.
  unfold trade_metrics in Hm.
  destruct trades_df as [|t trades_df]; [done|].
  change (0 <? length (t :: trades_df))%nat with true in Hm.
  cbv beta iota zeta in Hm.
  fold (winners (t :: trades_df)) in Hm.
  fold (losers (t :: trades_df)) in Hm.
  rewrite !Z.gtb_ltb in Hm.
  set (w := winners (t :: trades_df)) in *.
  set (n := losers (t :: trades_df)) in *.
  destruct (0 <? n) eqn:Hn;
    [apply Z.ltb_lt in Hn | apply Z.ltb_ge in Hn].
  - split; [lia|]. intros _.
    destruct (0 <? w) eqn:Hw;
      cbv beta iota zeta delta [add_arrow PyVal.ne0 andb] in Hm; ok_steps.
    all: eexists _, _, _, _.
    all: dict_get.
    all: split; [reflexivity|split; [reflexivity|]].
    all: dict_get.
    all: split; [reflexivity|split; [reflexivity|]].
    all: split; [eassumption|split; [eassumption|]].
    all: by dict_get.
  - split; [|lia]. intros _.
    destruct (0 <? w) eqn:Hw; simpl in Hm; ok_steps.
    all: by dict_get.
Qed.

End MetricsFacts.

(** ** The metrics of the example tables *)

Import Examples.

(** The three four-hour bars of one day span zero days: whatever the
    power function, the call on their table returns no metrics. *)
Lemma one_day_raises :
  ~ exists float_pow m,
      snd (calculate_performance_metrics float_pow one_day_table
             winning_trades) = Ok m.
Proof. intros (float_pow & m & Hm). vm_compute in Hm. discriminate Hm. Qed.

Lemma zero_days_witness :
  calculate_performance_metrics pow_exponent_one one_day_table winning_trades
  = (one_day_table, Raise ZeroDivisionError).
Proof.
  apply (zero_days_raise pow_exponent_one one_day_table winning_trades
           (-0x1.70a3d70a3d708p-4)%float (hour 0) (hour 8));
    vm_compute; reflexivity.
Defined.

(** A winner and a loser of 1/256: the averages are [0.00390625] and
    [-0.00390625], which makes the profit factor of the specification 1;
    the entries show [0.00] and [-0.00], from which the code computes
    [0.0 / -0.0]. *)
Lemma small_trades_metrics :
  exists m,
    snd (calculate_performance_metrics pow_exponent_one one_year_table
           small_trades) = Ok m /\
    Dict.get m "avg_profit" = Some (PyStr "0.00 ↑") /\
    Dict.get m "avg_loss" = Some (PyStr "-0.00 ↓") /\
    Dict.get m "profit_factor" = Some (PyStr "nan ↓") /\
    PyVal.with_arrow (profit_factor_of_averages small_trades) = "1.00 ↑".
Proof.
  eexists. split; [vm_compute; reflexivity|].
  split_and!; vm_compute; reflexivity.
Qed.

(** On these two trades the profit factor entry is not the quotient of the
    averages, neither as a float nor with its arrow. *)
Lemma small_trades_profit_factor :
  ~ exists m,
      snd (calculate_performance_metrics pow_exponent_one one_year_table
             small_trades) = Ok m /\
      (Dict.get m "profit_factor"
         = Some (PyFloat (profit_factor_of_averages small_trades)) \/
       Dict.get m "profit_factor"
         = Some (PyStr (PyVal.with_arrow
                          (profit_factor_of_averages small_trades)))).
Proof.
  intros (m & Hm & Hpf). vm_compute in Hm. injection Hm as <-.
  vm_compute in Hpf. destruct Hpf as [Hpf|Hpf]; discriminate Hpf.
Qed.

(** Claim C6, where the code departs from it.  A run with a winner and a
    loser over 365 days, so that the exponent of the annual return is
    [1.0]: the long wins 1.3125 and the short loses 0.1875, so that
    [|avg_profit * winning_trades / (avg_loss * losing_trades)|] is 7; the
    entries of the two averages show [1.31] and [-0.19], and the profit
    factor entry, which lines 202-203 compute from what they show, is
    [6.89]. *)
Theorem rounded_averages_profit_factor :
  exists df trades_df df' m,
    simulate 1000 won_and_lost = Ok (df, trades_df) /\
    profit_loss <$> trades_df = [1.3125; -0.1875]%float /\
    calculate_performance_metrics pow_exponent_one df trades_df
    = (df', Ok m) /\
    Dict.get m "winning_trades" = Some (NpInt64 1) /\
    Dict.get m "losing_trades" = Some (NpInt64 1) /\
    Dict.get m "avg_profit" = Some (PyStr "1.31 ↑") /\
    Dict.get m "avg_loss" = Some (PyStr "-0.19 ↓") /\
    Dict.get m "profit_factor" = Some (PyStr "6.89 ↑") /\
    profit_factor_of_averages trades_df = 7%float.
Proof.
  eexists _, _, _, _. split; [vm_compute; reflexivity|].
  split; [reflexivity|]. split; [vm_compute; reflexivity|].
  split_and!; vm_compute; reflexivity.
Qed.

(** Two winners and no loser. *)
Lemma profit_factor_witness :
  exists m,
    snd (calculate_performance_metrics pow_exponent_one one_year_table
           winning_trades) = Ok m /\
    Dict.get m "profit_factor" = Some (PyFloat infinity).
Proof.
  eexists. split; [vm_compute; reflexivity|].
  eapply (profit_factor_entry pow_exponent_one one_year_table winning_trades).
  - vm_compute; reflexivity.
  - discriminate.
  - reflexivity.
Defined.

Lemma no_trades_witness :
  exists m,
    snd (calculate_performance_metrics pow_exponent_one one_year_table [])
    = Ok m /\
    Dict.get m "profit_factor" = Some (PyInt 0).
Proof.
  eexists. split; [vm_compute; reflexivity|].
  eapply (no_trades_all_zero pow_exponent_one one_year_table).
  - vm_compute; reflexivity.
  - repeat constructor.
Defined.

(** * The display *)

Section Display.

Import Visualizations.

Lemma get_format_numeric metrics fm key key' :
  Dict.get (format_numeric metrics fm key') key =
  if decide (key' = key) then Some (numeric_entry metrics key)
  else Dict.get fm key.
Proof.
  unfold format_numeric, numeric_entry. case_decide.
  - subst key'. destruct (Dict.get metrics key) as [v|];
      [destruct (PyVal.ne0 v)|]; apply dict_get_set_eq.
  - destruct (Dict.get metrics key') as [v|];
      [destruct (PyVal.ne0 v)|]; by apply dict_get_set_ne.
Qed.

Lemma get_foldl_format_numeric metrics keys fm key :
  Dict.get (foldl (format_numeric metrics) fm keys) key =
  if decide (key ∈ keys) then Some (numeric_entry metrics key)
  else Dict.get fm key.
Proof.
  revert fm. induction keys as [|k keys IH]; intros fm; cbn [foldl].
  { by rewrite decide_False by apply not_elem_of_nil. }
  rewrite IH, get_format_numeric.
  destruct (decide (key ∈ keys)) as [Hin|Hnin].
  { by rewrite decide_True by by right. }
  destruct (decide (k = key)) as [->|Hne].
  { by rewrite decide_True by by left. }
  rewrite decide_False; [done|]. by intros [->|]%elem_of_cons.
Qed.

Lemma get_format_count metrics fm key key' :
  key' <> key -> Dict.get (format_count metrics fm key') key = Dict.get fm key.
Proof.
  intros Hne. unfold format_count.
  destruct (Dict.get metrics key'); [by apply dict_get_set_ne|done].
Qed.

Lemma get_foldl_format_count metrics keys fm key :
  key ∉ keys ->
  Dict.get (foldl (format_count metrics) fm keys) key = Dict.get fm key.
Proof.
  revert fm. induction keys as [|k keys IH]; intros fm Hnin; simpl; [done|].
  apply not_elem_of_cons in Hnin as [Hne Hnin].
  rewrite IH by done. by apply get_format_count.
Qed.




End Display.



(** * The table the metrics are computed on *)

(** The call on the table of the three four-hour bars raises before it
    writes: the table of the caller has no [previous_peak] column after
    it. *)
Lemma one_day_table_keeps_its_columns :
  ~ exists float_pow h r df,
      Call.calculate_performance_metrics float_pow 1%positive winning_trades
        {[ 1%positive := one_day_table ]} = (h, r) /\
      h !! 1%positive = Some df /\
      is_Some (previous_peak df).
Proof.
  intros (float_pow & h & r & df & Hcall & Hdf & Hpeak).
  vm_compute in Hcall. injection Hcall as <- <-.
  vm_compute in Hdf. injection Hdf as <-.
  by destruct Hpeak.
Qed.

(** Claim C10, as the code runs it.  A call that returns its metrics has
    written into the table of the caller: the table at [l] has gained
    [previous_peak], the running maximum of [total_value], and
    [drawdown], the distance of [total_value] to that peak relative to
    it; its other columns and the other tables of the store are as
    before. *)
Theorem metrics_call_adds_two_columns float_pow (l : loc) trades_df
    (h h' : gmap loc DataFrame) df m :
  h !! l = Some df ->
  Call.calculate_performance_metrics float_pow l trades_df h = (h', Ok m) ->
  exists tv df',
    total_value df = Some tv /\
    h' !! l = Some df' /\
    previous_peak df' = Some (Series.cummax tv) /\
    drawdown df' =
      Some (zip_with div (zip_with sub tv (Series.cummax tv))
              (Series.cummax tv)) /\
    index df' = index df /\
    Close df' = Close df /\
    signal_line df' = signal_line df /\
    position df' = position df /\
    cash df' = cash df /\
    holdings df' = holdings df /\
    total_value df' = total_value df /\
    returns df' = returns df /\
    cumulative_returns df' = cumulative_returns df /\
    other_columns df' = other_columns df /\
    forall k, k <> l -> h' !! k = h !! k.
Proof.
  intros Hl. unfold Call.calculate_performance_metrics. rewrite Hl.
  destruct (BaseStrategy.calculate_performance_metrics _ _ _)
    as [df' r] eqn:Hcalc.
  intros [= <- ->].
  apply calculate_performance_metrics_Ok in Hcalc
    as (m0 & tv & _ & Htv & -> & _).
  exists tv. eexists. split; [done|]. split; [apply lookup_insert_eq|].
  simpl. split_and!; try done.
  intros k Hk. by apply lookup_insert_ne.
Qed.

(** The table of the three bars over a year gains its peak column. *)
Lemma metrics_call_witness :
  exists h m,
    Call.calculate_performance_metrics pow_exponent_one 1%positive
      winning_trades {[ 1%positive := one_year_table ]} = (h, Ok m) /\
    exists tv df',
      total_value one_year_table = Some tv /\
      h !! 1%positive = Some df' /\
      previous_peak df' = Some (Series.cummax tv).
Proof.
  eexists _, _. split; [vm_compute; reflexivity|].
  edestruct (metrics_call_adds_two_columns pow_exponent_one 1%positive
               winning_trades {[ 1%positive := one_year_table ]})
    with (df := one_year_table)
    as (tv & df' & Htv & Hdf' & Hpeak & _);
    [vm_compute; reflexivity | vm_compute; reflexivity |].
  exists tv, df'. split_and!; [exact Htv | exact Hdf' | exact Hpeak].
Defined.

(** * More about the engine *)

(** ** The order of floats *)

Section FloatOrder.

Lemma SFcompare_antisym (x y : spec_float) :
  SFcompare y x = CompOpp <$> SFcompare x y.
Proof.
  destruct x as [[]|[]| |[] mx ex], y as [[]|[]| |[] my ey]; try reflexivity.
  all: simpl; rewrite (Z.compare_antisym ey ex).
  all: destruct (ey ?= ex); simpl; try reflexivity.
  all: fold (Pos.compare mx my); fold (Pos.compare my mx).
  all: rewrite (Pos.compare_antisym my mx).
  all: by destruct (my ?= mx)%positive.
Qed.

Lemma ltb_leb_false (x y : float) :
  (x <? y)%float = true -> (y <=? x)%float = false.
Proof.
  rewrite ltb_spec, leb_spec. unfold SFltb, SFleb.
  rewrite (SFcompare_antisym (Prim2SF x) (Prim2SF y)).
  by destruct (SFcompare (Prim2SF x) (Prim2SF y)) as [[]|].
Qed.

Lemma ltb_asym (x y : float) :
  (x <? y)%float = true -> (y <? x)%float = false.
Proof.
  rewrite !ltb_spec. unfold SFltb.
  rewrite (SFcompare_antisym (Prim2SF x) (Prim2SF y)).
  by destruct (SFcompare (Prim2SF x) (Prim2SF y)) as [[]|].
Qed.

Lemma leb_nan_l (x : float) : (nan <=? x)%float = false.
Proof. rewrite leb_spec. reflexivity. Qed.

Lemma div_nan_r (x : float) : (x / nan)%float = nan.
Proof.
  apply Prim2SF_inj. rewrite div_spec.
  by destruct (Prim2SF x) as [| | |[]].
Qed.

End FloatOrder.

(** ** The locals of the loop, round by round *)

(** Turns the writes that returned into the tables they gave. *)
Ltac puts :=
  repeat match goal with
  | H : put_position _ _ _ = Ok _ |- _ =>
      apply put_position_Ok in H as (? & ? & ? & ->)
  | H : put_cash _ _ _ = Ok _ |- _ =>
      apply put_cash_Ok in H as (? & ? & ? & ->)
  | H : put_holdings _ _ _ = Ok _ |- _ =>
      apply put_holdings_Ok in H as (? & ? & ? & ->)
  | H : put_total_value _ _ _ = Ok _ |- _ =>
      apply put_total_value_Ok in H as (? & ? & ? & ->)
  | H : put_returns _ _ _ = Ok _ |- _ =>
      apply put_returns_Ok in H as (? & ? & ? & ->)
  end.

Section Bars.

Lemma put_cash_iloc i v df df' :
  put_cash i v df = Ok df' -> iloc (cash df') i = Ok v.
Proof.
  intros (l & Hl & Hi & ->)%put_cash_Ok. apply iloc_Ok; simpl.
  eexists; split; [done|]. by apply list_lookup_insert_eq.
Qed.

Lemma put_returns_iloc i v df df' :
  put_returns i v df = Ok df' -> iloc (returns df') i = Ok v.
Proof.
  intros (l & Hl & Hi & ->)%put_returns_Ok. apply iloc_Ok; simpl.
  eexists; split; [done|]. by apply list_lookup_insert_eq.
Qed.

(** A close on a signal leaves the state alone, on a bar that does not
    ask for it, or logs one trade and leaves the position flat. *)
Lemma close_on_signal_locals i date price signal s s' :
  close_on_signal i date price signal s = Ok s' ->
  (s' = s /\
   ~ (signal = 1 /\ current_position s < 0) /\
   ~ (signal = -1 /\ 0 < current_position s)) \/
  (current_position s' = 0 /\ (signal = 1 \/ signal = -1) /\
   current_position s <> 0 /\
   exists t, trades s' = trades s ++ [t]).
Proof.
  unfold close_on_signal.
  destruct (_ || _) eqn:Hcond.
  - intros H. right.
    assert ((signal = 1 \/ signal = -1) /\ current_position s <> 0)
      as [Hsig Hpos] by lia.
    destruct (current_position s >? 0); ok_steps; simpl; eauto.
  - intros [= <-]. left. split; [done|]. lia.
Qed.

(** An opening logs nothing; it takes a long position on a buy signal
    and a short one on a sell signal, or none. *)
Lemma open_on_signal_locals i date price signal s s' :
  open_on_signal i date price signal s = Ok s' ->
  trades s' = trades s /\
  (current_position s <> 0 -> s' = s) /\
  (current_position s = 0 ->
   (current_position s' = 0 /\ entry_price s' = entry_price s /\
    entry_date s' = entry_date s) \/
   (signal = 1 /\ 0 < current_position s') \/
   (signal = -1 /\ current_position s' < 0)).
Proof.
  unfold open_on_signal.
  destruct (current_position s =? 0) eqn:Hflat;
    [apply Z.eqb_eq in Hflat | apply Z.eqb_neq in Hflat]; cycle 1.
  { intros [= <-]. by split_and!. }
  intros H. ok_steps.
  destruct ((signal =? 1) && (x0 >? 0)) eqn:Hlong;
    [|destruct ((signal =? -1) && (x0 >? 0)) eqn:Hshort]; ok_steps; simpl.
  all: split; [done|]; split; [done|]; intros _.
  - right; left. lia.
  - right; right. lia.
  - left. by rewrite Hflat.
Qed.

(** An opening keeps the entry it knows or takes the bar as the entry. *)
Lemma open_on_signal_entry i date price signal s s' :
  open_on_signal i date price signal s = Ok s' ->
  (current_position s' = current_position s /\
   entry_price s' = entry_price s /\ entry_date s' = entry_date s) \/
  (entry_price s' = price /\ entry_date s' = Some date).
Proof.
  unfold open_on_signal.
  destruct (current_position s =? 0); [|intros [= <-]; by left].
  intros H. ok_steps.
  destruct (_ && _); [|destruct (_ && _)]; ok_steps; simpl; auto.
Qed.

Lemma loop_body_locals i s s' :
  loop_body i s = Ok s' ->
  exists signal,
    iloc (signal_line (st_df s)) i = Ok signal /\
    (trades s' = trades s \/ exists t, trades s' = trades s ++ [t]) /\
    (signal = 1 -> 0 <= current_position s') /\
    (signal = -1 -> current_position s' <= 0) /\
    (signal <> 1 -> signal <> -1 ->
     trades s' = trades s /\ current_position s' = current_position s /\
     entry_price s' = entry_price s /\ entry_date s' = entry_date s) /\
    (current_position s = 0 -> trades s' = trades s).
Proof.
  unfold loop_body. intros H. ok_steps.
  rename x1 into signal. exists signal. split; [done|].
  apply close_on_signal_locals in Hx6. simpl in Hx6.
  apply open_on_signal_locals in Hx7 as (Htr & Hkept & Hopened).
  simpl. rewrite Htr.
  destruct Hx6 as [(-> & Hnl & Hns)|(Hflat & Hsig & Hpos & t & Ht)];
    simpl in *.
  - split; [by left|].
    destruct (decide (current_position s = 0)) as [H0|H0].
    + destruct (Hopened H0) as [(? & ? & ?)|[[? ?]|[? ?]]];
        split_and!; intros; try lia; try done.
      all: split_and!; congruence.
    + rewrite (Hkept H0). simpl. split_and!; intros; try lia; done.
  - split; [right; eauto|].
    destruct (Hopened Hflat) as [(? & ? & ?)|[[? ?]|[? ?]]];
      split_and!; intros; lia.
Qed.

(** A round on a bar without a buy or a sell signal leaves in row [i] the
    cash of the row before. *)
Lemma loop_body_cash_carried i s s' signal :
  (1 <= i)%nat ->
  iloc (signal_line (st_df s)) i = Ok signal ->
  signal <> 1 -> signal <> -1 ->
  loop_body i s = Ok s' ->
  exists c, iloc (cash (st_df s)) (i - 1) = Ok c /\
            iloc (cash (st_df s')) (i - 1) = Ok c /\
            iloc (cash (st_df s')) i = Ok c.
Proof.
  intros Hi Hsig H1 H2. unfold loop_body. rewrite Hsig. simpl.
  unfold close_on_signal, open_on_signal.
  apply Z.eqb_neq in H1 as ->. apply Z.eqb_neq in H2 as ->. simpl.
  intros H. ok_steps. rename x1 into df1, x2 into c.
  assert (iloc (cash (st_df s)) (i - 1) = Ok c) as Hc.
  { rewrite <- Hx2.
    symmetry. apply (same_but_at_iloc i); [|lia].
    exact (tor_cash _ _ _ (put_position_frame _ _ _ _ Hx1)). }
  pose proof (put_cash_iloc _ _ _ _ Hx3) as Hci.
  exists c. split; [done|].
  assert (touches_only_row i (st_df s) (st_df x5) /\
          iloc (cash (st_df x5)) i = Ok c) as [Hfr5 Hc5].
  { destruct (current_position s =? 0); ok_steps; simpl;
      (split; [frame|]); puts; by simpl. }
  rewrite <- (same_but_at_iloc i (i - 1) _ _ (tor_cash _ _ _ Hfr5)) in Hc
    by lia.
  puts. by simpl.
Qed.

Lemma loop_body_position_follows_signal i t t' :
  loop_body i t = Ok t' -> position_follows_signal (st_df t') i.
Proof.
  intros H.
  pose proof H as (Hfr & _ & (price & _ & Hpos & _) & _)%loop_body_Ok.
  apply loop_body_locals in H as (signal & Hsig & _ & Hbuy & Hsell & _).
  exists (current_position t'), signal.
  by rewrite (tor_signal_line _ _ _ Hfr).
Qed.

Lemma loop_body_return_of_bar i t t' :
  loop_body i t = Ok t' -> return_of_bar (st_df t') i.
Proof.
  unfold loop_body. intros H. ok_steps. simpl.
  exists x11, x12.
  pose proof (put_returns_iloc _ _ _ _ Hx13) as Hr.
  apply put_returns_Ok in Hx13 as (? & ? & ? & ->). by simpl.
Qed.

End Bars.

(** ** Row by row through the loop *)

Section Rows.

(** The rounds over the rows [is_] leave the other rows and the other
    columns as they are. *)
Lemma for_each_loop_body_frame is_ s s' :
  for_each loop_body is_ s = Ok s' ->
  signal_line (st_df s') = signal_line (st_df s) /\
  cumulative_returns (st_df s') = cumulative_returns (st_df s) /\
  previous_peak (st_df s') = previous_peak (st_df s) /\
  drawdown (st_df s') = drawdown (st_df s) /\
  other_columns (st_df s') = other_columns (st_df s) /\
  forall j, j ∉ is_ ->
    iloc (position (st_df s')) j = iloc (position (st_df s)) j /\
    iloc (cash (st_df s')) j = iloc (cash (st_df s)) j /\
    iloc (holdings (st_df s')) j = iloc (holdings (st_df s)) j /\
    iloc (total_value (st_df s')) j = iloc (total_value (st_df s)) j /\
    iloc (returns (st_df s')) j = iloc (returns (st_df s)) j.
Proof.
  revert s. induction is_ as [|i is_ IH]; intros s; simpl.
  { intros [= <-]. by split_and!. }
  intros H. ok_steps.
  apply loop_body_Ok in Hx as (Hfr & _).
  apply IH in H as (-> & -> & -> & -> & -> & Hrows).
  destruct Hfr. split_and!; try done.
  intros j [Hne Hnin]%not_elem_of_cons.
  destruct (Hrows j Hnin) as (-> & -> & -> & -> & ->).
  split_and!; by apply (same_but_at_iloc i).
Qed.

(** What the writes to the rows [is_] keep, the loop over them keeps. *)
Lemma for_each_keeps (P : DataFrame -> Prop) is_ s s' :
  (forall j df df', j ∈ is_ -> touches_only_row j df df' -> P df -> P df') ->
  for_each loop_body is_ s = Ok s' -> P (st_df s) -> P (st_df s').
Proof.
  revert s. induction is_ as [|i is_ IH]; intros s Hkeep; simpl.
  { by intros [= <-]. }
  intros H HP. ok_steps.
  apply loop_body_Ok in Hx as (Hfr & _).
  apply (IH x); [|done|].
  - intros j df df' Hj. apply Hkeep. by right.
  - eapply Hkeep; [by left|done|done].
Qed.

(** A property of row [i] that a round leaves behind it, and that the
    writes to later rows keep, holds of every row the loop went through. *)
Lemma for_each_seq_rows (P : nat -> DataFrame -> Prop) a n s s' :
  (forall i t t', loop_body i t = Ok t' -> P i (st_df t')) ->
  (forall i j df df',
     (i < j)%nat -> touches_only_row j df df' -> P i df -> P i df') ->
  for_each loop_body (seq a n) s = Ok s' ->
  forall i, (a <= i < a + n)%nat -> P i (st_df s').
Proof.
  intros Hrow Hkeep. revert a s.
  induction n as [|n IH]; intros a s; simpl; [lia|].
  intros H i Hi. ok_steps.
  destruct (decide (i = a)) as [->|Hne].
  - eapply (for_each_keeps (P a)); [|done|by eapply Hrow].
    intros j df df' Hj%elem_of_seq. apply Hkeep. lia.
  - eapply IH; [done|lia].
Qed.

(** What every round hands to the next, the loop hands to what follows
    it. *)
Lemma for_each_seq_state (I : nat -> State -> Prop) a n s s' :
  (forall i t t', (a <= i < a + n)%nat ->
     I i t -> loop_body i t = Ok t' -> I (S i) t') ->
  I a s ->
  for_each loop_body (seq a n) s = Ok s' -> I (a + n)%nat s'.
Proof.
  revert a s. induction n as [|n IH]; intros a s Hstep Ha; simpl.
  { intros [= <-]. by rewrite Nat.add_0_r. }
  intros H. ok_steps.
  replace (a + S n)%nat with (S a + n)%nat by lia.
  apply (IH (S a) x); [|eapply Hstep; [lia|done..]|done].
  intros i t t' Hi. apply Hstep. lia.
Qed.

Lemma position_follows_signal_keeps i j df df' :
  (i < j)%nat -> touches_only_row j df df' ->
  position_follows_signal df i -> position_follows_signal df' i.
Proof.
  intros Hij Hfr (p & z & Hp & Hz & Hsign). exists p, z.
  rewrite (same_but_at_iloc j i _ _ (tor_position _ _ _ Hfr)) by lia.
  by rewrite (tor_signal_line _ _ _ Hfr).
Qed.

Lemma return_of_bar_keeps i j df df' :
  (i < j)%nat -> touches_only_row j df df' ->
  return_of_bar df i -> return_of_bar df' i.
Proof.
  intros Hij Hfr (tv & tvp & Htv & Htvp & Hr). exists tv, tvp.
  rewrite !(same_but_at_iloc j _ _ _ (tor_total_value _ _ _ Hfr)) by lia.
  by rewrite (same_but_at_iloc j _ _ _ (tor_returns _ _ _ Hfr)) by lia.
Qed.

Lemma carried_over_keeps i j df df' :
  (i < j)%nat -> touches_only_row j df df' ->
  carried_over df i -> carried_over df' i.
Proof.
  intros Hij Hfr (p & c & ? & ? & ? & ?). exists p, c.
  rewrite !(same_but_at_iloc j _ _ _ (tor_position _ _ _ Hfr)) by lia.
  by rewrite !(same_but_at_iloc j _ _ _ (tor_cash _ _ _ Hfr)) by lia.
Qed.

Lemma run_loop_position_follows_signal s s' :
  run_loop s = Ok s' ->
  forall i, (1 <= i < len (st_df s))%nat ->
    position_follows_signal (st_df s') i.
Proof.
  intros Hrun i Hi.
  eapply (for_each_seq_rows (fun i df => position_follows_signal df i));
    [apply loop_body_position_follows_signal
    |apply position_follows_signal_keeps | exact Hrun | lia].
Qed.

Lemma run_loop_return_of_bar s s' :
  run_loop s = Ok s' ->
  forall i, (1 <= i < len (st_df s))%nat -> return_of_bar (st_df s') i.
Proof.
  intros Hrun i Hi.
  eapply (for_each_seq_rows (fun i df => return_of_bar df i));
    [apply loop_body_return_of_bar
    |apply return_of_bar_keeps | exact Hrun | lia].
Qed.

(** The loop keeps the lengths of the columns it writes. *)
Lemma run_loop_lengths s s' n :
  run_loop s = Ok s' ->
  (exists tv r, total_value (st_df s) = Some tv /\ length tv = n /\
                returns (st_df s) = Some r /\ length r = n) ->
  exists tv r, total_value (st_df s') = Some tv /\ length tv = n /\
               returns (st_df s') = Some r /\ length r = n.
Proof.
  unfold run_loop. intros Hrun.
  apply (for_each_keeps
           (fun df => exists tv r, total_value df = Some tv /\
                        length tv = n /\
                        returns df = Some r /\ length r = n)
           _ _ _) with (2 := Hrun).
  intros j df df' _ Hfr (tv & r & Htv & Hltv & Hr & Hlr).
  pose proof (tor_total_value _ _ _ Hfr) as Htv'.
  pose proof (tor_returns _ _ _ Hfr) as Hr'.
  rewrite Htv in Htv'. rewrite Hr in Hr'.
  destruct (total_value df') as [tv'|]; [|done].
  destruct (returns df') as [r'|]; [|done].
  destruct Htv' as [? _], Hr' as [? _].
  exists tv', r'. split_and!; congruence.
Qed.

(** The log of the loop: what was there, and at most a trade a row. *)
Lemma for_each_loop_body_trades is_ s s' :
  for_each loop_body is_ s = Ok s' ->
  exists new, trades s' = trades s ++ new /\
              (length new <= length is_)%nat.
Proof.
  revert s. induction is_ as [|i is_ IH]; intros s; simpl.
  { intros [= <-]. exists []. by rewrite app_nil_r. }
  intros H. ok_steps.
  apply loop_body_locals in Hx as (signal & _ & Hlog & _).
  apply IH in H as (new & -> & Hlen).
  destruct Hlog as [->|[t ->]].
  - exists new. split; [done|]. lia.
  - exists (t :: new). rewrite <- app_assoc. split; [done|]. simpl. lia.
Qed.

(** Rows without a buy or a sell signal leave the locals of the loop as
    they are. *)
Lemma for_each_loop_body_hold is_ s s' sl :
  signal_line (st_df s) = Some sl ->
  (forall i z, i ∈ is_ -> sl !! i = Some z -> z <> 1 /\ z <> -1) ->
  for_each loop_body is_ s = Ok s' ->
  trades s' = trades s /\ current_position s' = current_position s /\
  entry_price s' = entry_price s /\ entry_date s' = entry_date s.
Proof.
  revert s. induction is_ as [|i is_ IH]; intros s Hsl Hhold; simpl.
  { by intros [= <-]. }
  intros H. ok_steps.
  pose proof Hx as (Hfr & _)%loop_body_Ok.
  apply loop_body_locals in Hx as (signal & Hsig & _ & _ & _ & Hkeep & _).
  apply iloc_Ok in Hsig as (sl' & Hsl' & Hz).
  assert (sl' = sl) as -> by congruence.
  destruct (Hhold i signal) as [H1 H2]; [by left|done|].
  destruct (Hkeep H1 H2) as (<- & <- & <- & <-).
  apply IH; [|intros j z Hj; apply Hhold; by right|done].
  by rewrite (tor_signal_line _ _ _ Hfr).
Qed.

(** On the rows without a buy or a sell signal the position and the cash
    are those of the row before. *)
Lemma for_each_seq_carried a n s s' :
  (1 <= a)%nat ->
  iloc (position (st_df s)) (a - 1) = Ok (current_position s) ->
  for_each loop_body (seq a n) s = Ok s' ->
  forall i z, (a <= i < a + n)%nat ->
    iloc (signal_line (st_df s')) i = Ok z -> z <> 1 -> z <> -1 ->
    carried_over (st_df s') i.
Proof.
  revert a s. induction n as [|n IH]; intros a s Ha Hlink; simpl; [lia|].
  intros H i z Hi Hz H1 H2. ok_steps.
  pose proof Hx as (Hfr & _ & (price & _ & Hpos & _) & _)%loop_body_Ok.
  destruct (decide (i = a)) as [->|Hne]; cycle 1.
  { eapply (IH (S a) x); [lia| |done|lia|done|done|done].
    by replace (S a - 1)%nat with a by lia. }
  pose proof H as (Hsig & _)%for_each_loop_body_frame.
  rewrite Hsig, (tor_signal_line _ _ _ Hfr) in Hz.
  eapply (for_each_keeps (fun df => carried_over df a)); [|done|].
  { intros j df df' Hj%elem_of_seq. apply carried_over_keeps. lia. }
  pose proof Hx as (signal & Hsig' & _ & _ & _ & Hkeep & _)%loop_body_locals.
  assert (signal = z) as -> by congruence.
  destruct (Hkeep H1 H2) as (_ & Hcur & _).
  destruct (loop_body_cash_carried a s x z) as (c & _ & Hc & Hc');
    [done..|].
  exists (current_position x), c. split_and!; try done.
  rewrite (same_but_at_iloc a (a - 1) _ _ (tor_position _ _ _ Hfr)) by lia.
  by rewrite Hcur.
Qed.

End Rows.

(** ** The table and the log of a run *)

Section Runs.

(** A run that returns went through the loop on two bars or more, logged
    a trade, and put the cumulative returns on the table of the loop. *)
Lemma simulate_Ok initial_capital df df' trades_df :
  simulate initial_capital df = Ok (df', trades_df) ->
  exists s r,
    (2 <= len df)%nat /\
    run_loop (init_portfolio initial_capital df) = Ok s /\
    close_remaining s = Ok trades_df /\ trades_df <> [] /\
    returns (st_df s) = Some r /\
    df' = set_cumulative_returns
            ((fun x => x - 1)%float <$>
             Series.cumprod ((fun x => 1 + x)%float <$> r)) (st_df s).
Proof.
  intros Hsim.
  destruct (decide (len df < 2)%nat) as [Hshort|Hlong].
  { by rewrite simulate_short_raises in Hsim. }
  unfold simulate in Hsim. ok_steps.
  apply add_cumulative_returns_Ok in Hx1 as (r & Hr & ->).
  assert (x0 = trades_df /\ trades_df <> []) as [-> Hne].
  { destruct x0; [discriminate Hx2|]. by injection Hx2 as <-. }
  exists x, r. split; [lia|]. by split_and!.
Qed.

(** What is still open at the end is closed at the last bar. *)
Lemma close_remaining_Ok s trades_df :
  close_remaining s = Ok trades_df ->
  (current_position s = 0 /\ trades_df = trades s) \/
  (current_position s <> 0 /\
   exists entry exit_date exit_price,
     entry_date s = Some entry /\
     at_last (index (st_df s)) = Ok exit_date /\
     at_last (Close (st_df s)) = Ok exit_price /\
     trades_df = trades s ++
       [closing_trade (current_position s) (entry_price s) entry
          exit_date exit_price]).
Proof.
  unfold close_remaining, closing_trade. rewrite Z.gtb_ltb.
  destruct (current_position s =? 0) eqn:Hflat; simpl;
    [apply Z.eqb_eq in Hflat | apply Z.eqb_neq in Hflat].
  - intros [= <-]. by left.
  - intros H. right. split; [done|].
    destruct (0 <? current_position s); ok_steps.
    all: apply duration_days_Ok in Hx1 as [-> ->].
    all: by eexists _, _, _.
Qed.

(** The run only adds to the table: the index, the closes, the signals
    and the columns it does not know are those of the input, and the
    first row of the portfolio columns is as the run set it up, flat with
    the initial capital in cash. *)
Theorem simulate_keeps_input initial_capital df df' trades_df :
  simulate initial_capital df = Ok (df', trades_df) ->
  index df' = index df /\ Close df' = Close df /\
  signal_line df' = signal_line df /\
  previous_peak df' = previous_peak df /\ drawdown df' = drawdown df /\
  other_columns df' = other_columns df /\
  iloc (position df') 0 = Ok 0 /\
  iloc (cash df') 0 = Ok initial_capital /\
  iloc (holdings df') 0 = Ok 0%float /\
  iloc (total_value df') 0 = Ok initial_capital /\
  iloc (returns df') 0 = Ok 0%float.
Proof.
  intros (s & r & Hlen & Hrun & _ & _ & _ & ->)%simulate_Ok.
  pose proof Hrun as (Hidx & Hcl & _)%run_loop_Ok.
  apply for_each_loop_body_frame in Hrun
    as (Hsig & _ & Hpeak & Hdd & Hother & Hrows).
  destruct (Hrows 0%nat) as (Hp & Hc & Hh & Htv & Hr);
    [rewrite elem_of_seq; lia|].
  simpl in *. split_and!; try done.
  - rewrite Hp. apply iloc_Ok. eexists. split; [done|].
    apply lookup_replicate_2. lia.
  - rewrite Hc. apply iloc_Ok. eexists. split; [done|].
    apply lookup_replicate_2. lia.
  - rewrite Hh. apply iloc_Ok. eexists. split; [done|].
    apply lookup_replicate_2. lia.
  - rewrite Htv. apply iloc_Ok. eexists. split; [done|].
    apply lookup_replicate_2. lia.
  - rewrite Hr. apply iloc_Ok. eexists. split; [done|].
    apply lookup_replicate_2. lia.
Qed.

(** After a buy signal the table never shows a short position, and after
    a sell signal never a long one. *)
Theorem simulate_position_follows_signal initial_capital df df' trades_df :
  simulate initial_capital df = Ok (df', trades_df) ->
  forall i, (1 <= i < len df')%nat -> position_follows_signal df' i.
Proof.
  intros (s & r & Hlen & Hrun & _ & _ & _ & ->)%simulate_Ok i Hi.
  pose proof Hrun as (Hidx & _)%run_loop_Ok.
  assert (position_follows_signal (st_df s) i) as (p & z & ?).
  { apply (run_loop_position_follows_signal _ _ Hrun).
    revert Hi. unfold len; simpl. by rewrite Hidx. }
  by exists p, z.
Qed.

(** A bar without a buy or a sell signal changes neither the position nor
    the cash. *)
Theorem simulate_carried_over initial_capital df df' trades_df :
  simulate initial_capital df = Ok (df', trades_df) ->
  forall i z, (1 <= i < len df')%nat ->
    iloc (signal_line df') i = Ok z -> z <> 1 -> z <> -1 ->
    carried_over df' i.
Proof.
  intros (s & r & Hlen & Hrun & _ & _ & _ & ->)%simulate_Ok i z Hi Hz H1 H2.
  pose proof Hrun as (Hidx & _)%run_loop_Ok.
  assert (carried_over (st_df s) i) as (p & c & ?); [|by exists p, c].
  unfold run_loop in Hrun.
  eapply (for_each_seq_carried 1); [done| |exact Hrun| |exact Hz|done|done].
  - apply iloc_Ok. eexists. split; [done|]. apply lookup_replicate_2.
    lia.
  - revert Hi. unfold len; simpl. rewrite Hidx. simpl. lia.
Qed.

(** From the second row on, the [returns] column holds the total value
    over that of the row before, minus 1. *)
Theorem simulate_return_of_bar initial_capital df df' trades_df :
  simulate initial_capital df = Ok (df', trades_df) ->
  forall i, (1 <= i < len df')%nat -> return_of_bar df' i.
Proof.
  intros (s & r & Hlen & Hrun & _ & _ & _ & ->)%simulate_Ok i Hi.
  pose proof Hrun as (Hidx & _)%run_loop_Ok.
  assert (return_of_bar (st_df s) i) as (tv & tvp & ?).
  { apply (run_loop_return_of_bar _ _ Hrun).
    revert Hi. unfold len; simpl. by rewrite Hidx. }
  by exists tv, tvp.
Qed.

(** A run that returns has logged a trade, and fewer trades than the
    table has bars. *)
Theorem simulate_log_size initial_capital df df' trades_df :
  simulate initial_capital df = Ok (df', trades_df) ->
  (1 <= length trades_df <= len df - 1)%nat.
Proof.
  intros (s & r & Hlen & Hrun & Hclose & Hne & _)%simulate_Ok.
  split; [destruct trades_df; [done|simpl; lia]|].
  unfold run_loop in Hrun.
  replace (len (st_df (init_portfolio initial_capital df)))
    with (S (S (len df - 2))) in Hrun by (unfold len in *; simpl; lia).
  simpl in Hrun. ok_steps.
  apply loop_body_locals in Hx as (_ & _ & _ & _ & _ & _ & Hflat).
  apply for_each_loop_body_trades in Hrun as (new & Hnew & Hlen').
  rewrite length_seq in Hlen'.
  rewrite Hflat in Hnew by done. simpl in Hnew.
  apply close_remaining_Ok in Hclose
    as [[_ ->]|[_ (? & ? & ? & _ & _ & _ & ->)]];
    rewrite Hnew, ?length_app; simpl; lia.
Qed.

(** When no bar after the first has a buy or a sell signal, the loop ends
    flat with an empty log, and the run raises [ValueError] where it
    names the columns of the trade table. *)
Theorem simulate_without_signal initial_capital df sl s :
  signal_line df = Some sl ->
  (forall i z, (1 <= i)%nat -> sl !! i = Some z -> z <> 1 /\ z <> -1) ->
  run_loop (init_portfolio initial_capital df) = Ok s ->
  trades s = [] /\ current_position s = 0 /\
  simulate initial_capital df = Raise ValueError.
Proof.
  intros Hsl Hhold Hrun.
  pose proof Hrun as (_ & _ & _ & _ & _ & Hret & _)%run_loop_Ok.
  destruct Hret as [r Hr]; [by eexists|].
  unfold run_loop in Hrun.
  pose proof Hrun as (Htr & Hpos & _)%(for_each_loop_body_hold _ _ _ sl);
    [|done|intros i z [Hi _]%elem_of_seq; by apply Hhold].
  simpl in Htr, Hpos. split; [done|]. split; [done|].
  unfold simulate, run_loop. rewrite Hrun. simpl.
  unfold close_remaining. rewrite Hpos, Htr. simpl.
  unfold add_cumulative_returns. by rewrite Hr.
Qed.

(** What a close on a signal does to the locals: nothing, on a bar that
    does not ask for it; or it logs the closing trade of the position,
    which was on the other side of the signal, and leaves the run flat. *)
Lemma close_on_signal_side i date price signal s s' :
  close_on_signal i date price signal s = Ok s' ->
  (s' = s /\
   ~ (signal = 1 /\ current_position s < 0) /\
   ~ (signal = -1 /\ 0 < current_position s)) \/
  (current_position s' = 0 /\
   (signal = 1 /\ current_position s < 0 \/
    signal = -1 /\ 0 < current_position s) /\
   exists entry, entry_date s = Some entry /\
     trades s' = trades s ++
       [closing_trade (current_position s) (entry_price s) entry date
          price]).
Proof.
  intros H.
  pose proof H as Hlog%close_on_signal_trades.
  revert H. unfold close_on_signal.
  destruct (_ || _) eqn:Hcond.
  - intros H. right.
    assert (signal = 1 /\ current_position s < 0 \/
            signal = -1 /\ 0 < current_position s) as Hside by lia.
    assert (current_position s' = 0 /\ trades s' <> trades s) as [H0 Hne].
    { destruct (current_position s >? 0); ok_steps; simpl; split; try done.
      all: intros Heq; apply (f_equal length) in Heq;
        rewrite length_app in Heq; simpl in Heq; lia. }
    split; [done|]. split; [done|].
    by destruct Hlog as [?|?].
  - intros [= <-]. left. split; [done|]. lia.
Qed.

(** What the round of bar [i] does to the locals of the loop. *)
Lemma loop_body_round i s s' :
  loop_body i s = Ok s' ->
  exists date price,
    index (st_df s) !! i = Some date /\ Close (st_df s) !! i = Some price /\
    let opened :=
      current_position s' <> 0 /\ entry_price s' = price /\
      entry_date s' = Some date in
    (* the bar changes nothing *)
    (trades s' = trades s /\ current_position s' = current_position s /\
     entry_price s' = entry_price s /\ entry_date s' = entry_date s) \/
    (* the run was flat and the bar opens a position *)
    (trades s' = trades s /\ current_position s = 0 /\ opened) \/
    (* the bar closes the position, and may open one on the other side *)
    (current_position s <> 0 /\
     (0 < current_position s -> current_position s' <= 0) /\
     (current_position s < 0 -> 0 <= current_position s') /\
     (current_position s' = 0 \/ opened) /\
     exists entry, entry_date s = Some entry /\
       trades s' = trades s ++
         [closing_trade (current_position s) (entry_price s) entry date
            price]).
Proof.
  unfold loop_body. intros H. ok_steps.
  rename x into date, x0 into price, x1 into signal.
  apply at_index_Ok in Hx, Hx0. exists date, price.
  split; [done|]. split; [done|]. simpl.
  pose proof Hx6 as Hclose%close_on_signal_side.
  pose proof Hx7 as Hopen%open_on_signal_entry.
  pose proof Hx7 as (Htr & Hkept & Hopened)%open_on_signal_locals.
  simpl in *. rewrite Htr.
  destruct Hclose as [(-> & _ & _)|(Hflat & Hside & entry & Hent & ->)];
    simpl in *.
  - destruct (decide (current_position s = 0)) as [H0|H0].
    + destruct (Hopened H0) as [(? & ? & ?)|Hnew].
      * left. split_and!; congruence.
      * right; left. split; [done|]. split; [done|].
        destruct Hopen as [(Hp & _)|[? ?]]; [lia|].
        split_and!; [lia|done|done].
    + left. rewrite (Hkept H0). by simpl.
  - right; right.
    split; [lia|].
    destruct (Hopened Hflat) as [(H0 & _)|Hnew].
    + split_and!; try lia. eauto.
    + split_and!; try lia; [|eauto].
      right. destruct Hopen as [(Hp & _)|[? ?]]; [lia|].
      split_and!; [lia|done|done].
Qed.

Lemma off_side_keeps i j pos df df' :
  j <> i -> touches_only_row i df df' ->
  off_side df j pos -> off_side df' j pos.
Proof.
  intros Hne Hfr (p & Hp & Hside). exists p.
  by rewrite (same_but_at_iloc i j _ _ (tor_position _ _ _ Hfr)).
Qed.

Lemma held_from_keeps i a b pos df df' :
  (1 <= a <= i)%nat -> (b <= i)%nat -> touches_only_row i df df' ->
  held_from df a b pos -> held_from df' a b pos.
Proof.
  intros Ha Hb Hfr [Hoff Hrows]. split.
  - eapply off_side_keeps; [|done..]. lia.
  - intros k Hk.
    rewrite (same_but_at_iloc i k _ _ (tor_position _ _ _ Hfr)) by lia.
    by apply Hrows.
Qed.

Lemma closed_before_keeps i k t df df' :
  (k <= i)%nat -> touches_only_row i df df' ->
  closed_before df k t -> closed_before df' (S k) t.
Proof.
  intros Hk Hfr
    (a & b & pos & ed & ep & xd & xp & Hab & Hbk & Hpos & Hed & Hep & Hxd &
     Hxp & Hheld & Hoff & ->).
  exists a, b, pos, ed, ep, xd, xp.
  rewrite (tor_index _ _ _ Hfr), (tor_Close _ _ _ Hfr).
  split_and!; try done; try lia.
  - eapply held_from_keeps; [| |done..]; lia.
  - eapply off_side_keeps; [|done..]. lia.
Qed.

(** One round keeps what the loop knows of its entry and of its log. *)
Lemma loop_body_trades_between i s s' :
  (1 <= i)%nat ->
  iloc (position (st_df s)) (i - 1) = Ok (current_position s) ->
  entry_at_bar (st_df s) i s ->
  Forall (closed_before (st_df s) i) (trades s) ->
  loop_body i s = Ok s' ->
  iloc (position (st_df s')) i = Ok (current_position s') /\
  entry_at_bar (st_df s') (S i) s' /\
  Forall (closed_before (st_df s') (S i)) (trades s').
Proof.
  intros Hi Hprev Hentry Hlog Hbody.
  pose proof Hbody as (Hfr & _ & (price' & _ & Hrow & _) & _)%loop_body_Ok.
  split; [done|].
  assert (iloc (position (st_df s')) (i - 1) = Ok (current_position s))
    as Hprev'.
  { by rewrite (same_but_at_iloc i (i - 1) _ _ (tor_position _ _ _ Hfr))
      by lia. }
  assert (Forall (closed_before (st_df s') (S i)) (trades s)) as Hlog'.
  { eapply Forall_impl; [exact Hlog|].
    intros t. by apply (closed_before_keeps i). }
  assert (forall date price,
            index (st_df s) !! i = Some date ->
            Close (st_df s) !! i = Some price ->
            current_position s' <> 0 -> entry_price s' = price ->
            entry_date s' = Some date ->
            (0 < current_position s' -> current_position s <= 0) ->
            (current_position s' < 0 -> 0 <= current_position s) ->
            entry_at_bar (st_df s') (S i) s') as Hnew.
  { intros date price Hd Hp _ Hep Hed Hlong Hshort _.
    exists i, date.
    rewrite (tor_index _ _ _ Hfr), (tor_Close _ _ _ Hfr), Hep.
    split_and!; try done; try lia.
    split; [by exists (current_position s)|].
    intros k Hk. by replace k with i by lia. }
  assert (current_position s' = current_position s ->
          entry_price s' = entry_price s -> entry_date s' = entry_date s ->
          entry_at_bar (st_df s') (S i) s') as Hsame.
  { intros Hp Hep Hed Hpos. rewrite Hp in Hpos.
    destruct (Hentry Hpos) as (a & date & Ha & Hdate & Hidx & Hcl & Hheld).
    exists a, date.
    rewrite (tor_index _ _ _ Hfr), (tor_Close _ _ _ Hfr), Hep, Hed, Hp.
    split_and!; try done; try lia.
    apply (held_from_keeps i _ _ _ _ (st_df s')) in Hheld;
      [|lia|lia|done].
    destruct Hheld as [Hoff Hrows]. split; [done|].
    intros k Hk. destruct (decide (k = i)) as [->|Hne].
    - by rewrite Hrow, Hp.
    - apply Hrows. lia. }
  apply loop_body_round in Hbody
    as (date & price & Hd & Hp &
        [(-> & Hcp & Hep & Hed)
        |[(-> & H0 & Hpos & Hep & Hed)
         |(Hpos & Hlong & Hshort & Hthen & entry & Hent & ->)]]).
  - split; [by apply Hsame|done].
  - split; [|done]. eapply Hnew; try done; lia.
  - split.
    + destruct Hthen as [H0|(Hpos' & Hep & Hed)]; [by intros ?|].
      eapply Hnew; try done; lia.
    + apply Forall_app. split; [done|]. apply Forall_singleton.
      destruct (Hentry Hpos) as (a & date0 & Ha & Hdate & Hidx & Hcl & Hheld).
      assert (date0 = entry) as -> by congruence.
      exists a, i, (current_position s), entry, (entry_price s), date, price.
      rewrite (tor_index _ _ _ Hfr), (tor_Close _ _ _ Hfr).
      split_and!; try done; try lia.
      * eapply held_from_keeps; [| |done..]; lia.
      * by exists (current_position s').
Qed.

(** Every trade of the log is the round trip of a position the table
    shows: taken at the close of a bar after the first, which is the first
    row to show it, held through the rows that follow, and given up at the
    close of a later bar, whose row no longer shows it, or of the last
    bar, whose row still does; its type and its profit are those the two
    closes and that position give. *)
Theorem simulate_trades_between_bars initial_capital df df' trades_df :
  length (Close df) = len df ->
  simulate initial_capital df = Ok (df', trades_df) ->
  Forall (trade_between_bars df') trades_df.
Proof.
  intros Hlens (s & r & Hlen & Hrun & Hclose & _ & _ & ->)%simulate_Ok.
  pose proof Hrun as (Hidx & Hcl & _)%run_loop_Ok. simpl in Hidx, Hcl.
  unfold run_loop in Hrun.
  apply (for_each_seq_state
           (fun k s => iloc (position (st_df s)) (k - 1)
                       = Ok (current_position s) /\
                       entry_at_bar (st_df s) k s /\
                       Forall (closed_before (st_df s) k) (trades s)))
    in Hrun as (Hrow & Hentry & Hlog).
  - assert (len (st_df (init_portfolio initial_capital df)) = len df)
      as Hlen0 by done.
    rewrite Hlen0 in Hrow, Hentry, Hlog.
    replace (1 + (len df - 1))%nat with (len df) in * by lia.
    assert (Forall (trade_between_bars
                      (set_cumulative_returns
                         ((fun x => x - 1)%float <$>
                          Series.cumprod ((fun x => 1 + x)%float <$> r))
                         (st_df s))) (trades s)) as Hlog'.
    { eapply Forall_impl; [exact Hlog|].
      intros t (a & b & pos & ed & ep & xd & xp & Hab & Hbk & Hpos & Hed &
                Hep & Hxd & Hxp & Hheld & Hoff & ->).
      exists a, b, pos, ed, ep, xd, xp. split_and!; try done; try lia.
      left. split; [lia|exact Hoff]. }
    apply close_remaining_Ok in Hclose
      as [[_ ->]|(Hpos & entry & exit_date & exit_price &
                  Hdate & Hld & Hlp & ->)]; [done|].
    apply Forall_app. split; [done|]. apply Forall_singleton.
    destruct (Hentry Hpos) as (i & date & Hi & Hdate' & Hidx' & Hcl' & Hheld).
    assert (date = entry) as -> by congruence.
    unfold at_last in Hld, Hlp.
    rewrite last_lookup in Hld. rewrite last_lookup in Hlp.
    rewrite Hcl, Hlens in Hlp. rewrite Hidx in Hld. fold (len df) in Hld.
    exists i, (pred (len df)), (current_position s), entry, (entry_price s),
      exit_date, exit_price.
    destruct (index df !! pred (len df)) eqn:Hld'; [|discriminate Hld].
    destruct (Close df !! pred (len df)) eqn:Hlp'; [|discriminate Hlp].
    injection Hld as ->. injection Hlp as ->.
    simpl. rewrite Hidx, Hcl. rewrite Hidx in Hidx'. rewrite Hcl in Hcl'.
    split_and!; try done; try lia.
    + destruct Hheld as [Hoff Hrows]. split; [done|].
      intros k Hk. apply Hrows. lia.
    + right. unfold len; simpl. rewrite Hidx. fold (len df).
      split; [lia|]. by replace (pred (len df)) with (len df - 1)%nat by lia.
  - intros i t t' Hi (? & ? & ?) Hbody.
    replace (S i - 1)%nat with i by lia.
    eapply loop_body_trades_between; [lia|done..].
  - simpl. split_and!; [|by intros ?|constructor].
    apply iloc_Ok. eexists. split; [done|]. apply lookup_replicate_2. lia.
Qed.

End Runs.

(** ** The runs of the example tables *)

Lemma simulate_keeps_input_witness :
  exists df' trades_df,
    simulate 1000 Examples.scenario = Ok (df', trades_df) /\
    index df' = index Examples.scenario /\
    iloc (cash df') 0 = Ok 1000%float.
Proof.
  eexists _, _. split; [vm_compute; reflexivity|].
  edestruct (simulate_keeps_input 1000 Examples.scenario)
    as (Hidx & _ & _ & _ & _ & _ & _ & Hcash & _);
    [vm_compute; reflexivity|].
  split; [exact Hidx | exact Hcash].
Defined.

Lemma simulate_position_follows_signal_witness :
  exists df' trades_df,
    simulate 1000 Examples.scenario = Ok (df', trades_df) /\
    position_follows_signal df' 2.
Proof.
  eexists _, _. split; [vm_compute; reflexivity|].
  eapply (simulate_position_follows_signal 1000 Examples.scenario).
  - vm_compute; reflexivity.
  - vm_compute. lia.
Defined.

Lemma simulate_carried_over_witness :
  exists df' trades_df,
    simulate 1000 Tables.buy_wait_sell = Ok (df', trades_df) /\
    carried_over df' 2.
Proof.
  eexists _, _. split; [vm_compute; reflexivity|].
  eapply (simulate_carried_over 1000 Tables.buy_wait_sell) with (z := 0).
  - vm_compute; reflexivity.
  - vm_compute. lia.
  - vm_compute; reflexivity.
  - lia.
  - lia.
Defined.

Lemma simulate_return_of_bar_witness :
  exists df' trades_df,
    simulate 1000 Examples.scenario = Ok (df', trades_df) /\
    return_of_bar df' 2.
Proof.
  eexists _, _. split; [vm_compute; reflexivity|].
  eapply (simulate_return_of_bar 1000 Examples.scenario).
  - vm_compute; reflexivity.
  - vm_compute. lia.
Defined.

Lemma simulate_log_size_witness :
  exists df' trades_df,
    simulate 1000 Examples.scenario = Ok (df', trades_df) /\
    (1 <= length trades_df <= len Examples.scenario - 1)%nat.
Proof.
  eexists _, _. split; [vm_compute; reflexivity|].
  eapply (simulate_log_size 1000 Examples.scenario).
  vm_compute; reflexivity.
Defined.

Lemma simulate_without_signal_witness :
  exists s,
    run_loop (init_portfolio 1000 Tables.quiet) = Ok s /\
    trades s = [] /\ current_position s = 0 /\
    simulate 1000 Tables.quiet = Raise ValueError.
Proof.
  eexists. split; [vm_compute; reflexivity|].
  eapply (simulate_without_signal 1000 Tables.quiet [0; 0; 0]).
  - reflexivity.
  - intros [|[|[|i]]] z Hi; simpl; intros [= <-]; lia.
  - vm_compute; reflexivity.
Defined.

Lemma simulate_trades_between_bars_witness :
  exists df' trades_df,
    simulate 1000 Examples.scenario = Ok (df', trades_df) /\
    Forall (trade_between_bars df') trades_df.
Proof.
  eexists _, _. split; [vm_compute; reflexivity|].
  eapply (simulate_trades_between_bars 1000 Examples.scenario).
  - reflexivity.
  - vm_compute; reflexivity.
Defined.

(** On the scenario a short of 7 shares from bar 1 to bar 3 is no trade of
    the table: the table shows a long of 9 from bar 1 on. *)
Lemma scenario_no_other_trade :
  ~ trade_between_bars
      (Examples.table_of (simulate 1000 Examples.scenario))
      (closing_trade (-7) 105 (Examples.day 1) (Examples.day 3) 110).
Proof.
  intros (i & j & pos & ed & ep & xd & xp & Hij & Hpos & Hed & Hep & Hxd &
          Hxp & [_ Hrows] & Hend & Ht).
  assert (pos < 0) as Hshort.
  { apply (f_equal trade_position_type) in Ht. unfold closing_trade in Ht.
    destruct (Z.ltb_spec 0 pos); [discriminate Ht|lia]. }
  assert (ed = Examples.day 1) as ->.
  { apply (f_equal trade_entry_date) in Ht. unfold closing_trade in Ht.
    by destruct (0 <? pos). }
  assert (i = 1%nat) as ->.
  { destruct i as [|[|[|[|i]]]]; vm_compute in Hed; congruence. }
  assert (1 < j)%nat as Hlt.
  { destruct Hend as [[Hlt _]|[Hlast _]]; [done|].
    vm_compute in Hlast. lia. }
  specialize (Hrows 1%nat). vm_compute in Hrows.
  assert (Ok 9 = Ok pos) as [= <-] by (apply Hrows; lia). lia.
Qed.

(** * The strategies *)

(** ** Buy and hold *)

Section BuyHold.

Import BuyHoldStrategy.

Lemma insert_last_replicate {A} n (x v : A) :
  <[n := v]> (replicate (S n) x) = replicate n x ++ [v].
Proof. induction n as [|n IH]; simpl; [done|]. by rewrite <- IH. Qed.

(** The signals of buy and hold, on two bars and on more. *)
Lemma buy_and_hold_signal_line df :
  (2 <= len df)%nat ->
  generate_signals df =
    Ok (set_signal_line
          (if decide (len df = 2)%nat then [0; -1]
           else 0 :: 1 :: replicate (len df - 3) 0 ++ [-1]) df).
Proof.
  intros Hlen. simpl. unfold iloc_set, iloc_set_last. simpl.
  rewrite length_replicate. rewrite decide_True by lia. simpl.
  rewrite length_insert, length_replicate.
  destruct (len df) as [|[|[|n]]] eqn:Hn; try lia; simpl.
  - reflexivity.
  - rewrite Nat.sub_0_r. unfold set_signal_line; simpl.
    change (0 :: replicate n 0) with (replicate (S n) 0).
    by rewrite (insert_last_replicate n 0 (-1)).
Qed.

(** On two bars or more, buy and hold sells on the last bar, buys on the
    second when that is not the last, and signals nothing on the others:
    on exactly two bars the sell signal takes the place of the buy
    signal. *)
Theorem buy_and_hold_signals df :
  (2 <= len df)%nat ->
  exists sl,
    generate_signals df = Ok (set_signal_line sl df) /\
    length sl = len df /\
    sl !! 0%nat = Some 0 /\
    sl !! (len df - 1)%nat = Some (-1) /\
    ((3 <= len df)%nat -> sl !! 1%nat = Some 1) /\
    (forall i, (2 <= i < len df - 1)%nat -> sl !! i = Some 0).
Proof.
  intros Hlen. rewrite buy_and_hold_signal_line by done.
  eexists. split; [done|]. case_decide as Hn.
  - rewrite Hn. split_and!; try done; intros; lia.
  - assert (len df = S (S (S (len df - 3)))) as Hn' by lia.
    set (n := (len df - 3)%nat) in *. clearbody n. rewrite Hn'.
    split_and!.
    + simpl. rewrite length_app, length_replicate. simpl. lia.
    + done.
    + simpl. rewrite lookup_app_r by by rewrite length_replicate.
      by rewrite length_replicate, Nat.sub_diag.
    + done.
    + intros i Hi. destruct i as [|[|i]]; [lia|lia|]. simpl.
      rewrite lookup_app_l by (rewrite length_replicate; lia).
      apply lookup_replicate_2. lia.
Qed.

(** A run of buy and hold that returns went through the loop on the
    signals of the strategy. *)
Lemma buy_and_hold_backtest_Ok initial_capital df df' trades_df :
  backtest (H := strategy) initial_capital df = Ok (df', trades_df) ->
  exists sl,
    (2 <= len df)%nat /\
    sl = (if decide (len df = 2)%nat then [0; -1]
          else 0 :: 1 :: replicate (len df - 3) 0 ++ [-1]) /\
    simulate initial_capital (set_signal_line sl df) = Ok (df', trades_df).
Proof.
  intros H.
  destruct (decide (len df < 2)%nat) as [Hshort|Hlong].
  { exfalso. revert H. unfold backtest; simpl. unfold iloc_set; simpl.
    rewrite length_replicate. by rewrite decide_False by lia. }
  unfold backtest in H. ok_steps. injection Hx as <-.
  rewrite buy_and_hold_signal_line in Hx0 by lia. injection Hx0 as <-.
  eexists. split; [lia|]. by split.
Qed.

(** Buy and hold never ends a run holding the stock: the last row of the
    table shows it flat or short. *)
Theorem buy_and_hold_ends_not_long initial_capital df df' trades_df :
  backtest (H := strategy) initial_capital df = Ok (df', trades_df) ->
  exists p, iloc (position df') (len df - 1) = Ok p /\ p <= 0.
Proof.
  intros (sl & Hlen & Hsl & Hsim)%buy_and_hold_backtest_Ok.
  apply simulate_Ok in Hsim as (s & r & _ & Hrun & _ & _ & _ & ->).
  pose proof Hrun as (Hsig & _)%for_each_loop_body_frame.
  destruct (run_loop_position_follows_signal _ _ Hrun (len df - 1))
    as (p & z & Hp & Hz & _ & Hsell).
  { unfold len in *. simpl. lia. }
  exists p. split; [done|]. apply Hsell.
  rewrite Hsig in Hz. simpl in Hz. apply iloc_Ok in Hz as (? & [= <-] & Hz).
  rewrite Hsl in Hz. case_decide as Hn.
  - rewrite Hn in Hz. by injection Hz as <-.
  - replace (len df - 1)%nat with (S (S (len df - 3))) in Hz by lia.
    simpl in Hz. rewrite lookup_app_r in Hz by by rewrite length_replicate.
    rewrite length_replicate, Nat.sub_diag in Hz. by injection Hz as <-.
Qed.

(** Between its second bar and its last, buy and hold changes neither
    its position nor its cash. *)
Theorem buy_and_hold_holds initial_capital df df' trades_df :
  backtest (H := strategy) initial_capital df = Ok (df', trades_df) ->
  forall i, (2 <= i < len df - 1)%nat -> carried_over df' i.
Proof.
  intros (sl & Hlen & Hsl & Hsim)%buy_and_hold_backtest_Ok i Hi.
  apply simulate_Ok in Hsim as (s & r & _ & Hrun & _ & _ & _ & ->).
  pose proof Hrun as (Hsig & _)%for_each_loop_body_frame.
  assert (carried_over (st_df s) i) as (p & c & ?); [|by exists p, c].
  unfold run_loop in Hrun.
  eapply (for_each_seq_carried 1) with (z := 0);
    [done | | exact Hrun | | | done | done].
  - apply iloc_Ok. eexists. split; [done|]. apply lookup_replicate_2.
    unfold len in *; simpl; lia.
  - unfold len in *. simpl. lia.
  - rewrite Hsig. simpl. apply iloc_Ok. eexists. split; [done|].
    rewrite Hsl, decide_False by lia.
    destruct i as [|[|i]]; [lia|lia|]. simpl.
    rewrite lookup_app_l by (rewrite length_replicate; lia).
    apply lookup_replicate_2. lia.
Qed.

End BuyHold.

Lemma buy_and_hold_signals_witness :
  exists sl,
    generate_signals (Strategy := BuyHoldStrategy.strategy) Tables.prices
    = Ok (set_signal_line sl Tables.prices) /\
    length sl = len Tables.prices /\
    sl !! 0%nat = Some 0 /\
    sl !! (len Tables.prices - 1)%nat = Some (-1).
Proof.
  destruct (buy_and_hold_signals Tables.prices)
    as (sl & H1 & H2 & H3 & H4 & _); [vm_compute; lia|].
  exists sl. split_and!; [exact H1 | exact H2 | exact H3 | exact H4].
Defined.

Lemma buy_and_hold_short_series_witness :
  backtest (H := BuyHoldStrategy.strategy) 1000 Examples.one_bar
  = Raise IndexError.
Proof.
  apply (buy_and_hold_short_series 1000 Examples.one_bar). vm_compute. lia.
Defined.

Lemma buy_and_hold_ends_not_long_witness :
  exists df' trades_df p,
    backtest (H := BuyHoldStrategy.strategy) 1000 Tables.prices
    = Ok (df', trades_df) /\
    iloc (position df') (len Tables.prices - 1) = Ok p /\ p <= 0.
Proof.
  eexists _, _.
  edestruct (buy_and_hold_ends_not_long 1000 Tables.prices)
    as (p & Hp & Hle); [vm_compute; reflexivity|].
  exists p. split; [vm_compute; reflexivity|]. split; [exact Hp | exact Hle].
Defined.

Lemma buy_and_hold_holds_witness :
  exists df' trades_df,
    backtest (H := BuyHoldStrategy.strategy) 1000 Tables.prices
    = Ok (df', trades_df) /\
    carried_over df' 2.
Proof.
  eexists _, _. split; [vm_compute; reflexivity|].
  eapply (buy_and_hold_holds 1000 Tables.prices).
  - vm_compute; reflexivity.
  - vm_compute. lia.
Defined.

(** ** MACD *)

Section PandasFacts.

Import Pandas.

Lemma length_shift1 s : length (shift1 s) = length s.
Proof. unfold shift1. rewrite length_take. simpl. lia. Qed.

Lemma lookup_shift1_0 s : s <> [] -> shift1 s !! 0%nat = Some nan.
Proof. by destruct s. Qed.

Lemma lookup_shift1_S s i :
  (S i < length s)%nat -> shift1 s !! S i = s !! i.
Proof. intros Hi. unfold shift1. by rewrite lookup_take_lt by done. Qed.

Lemma length_loc_set {A} mask (v : A) col :
  length (loc_set mask v col) = length col.
Proof.
  revert mask. induction col as [|x col IH]; intros [|m mask]; simpl; auto.
Qed.

Lemma lookup_loc_set {A} mask (v : A) col i :
  loc_set mask v col !! i =
  (fun x => if default false (mask !! i) then v else x) <$> col !! i.
Proof.
  revert mask i. induction col as [|x col IH]; intros [|m mask] i; simpl.
  - done.
  - done.
  - by destruct (_ !! i).
  - destruct i as [|i]; simpl; [done|]. apply IH.
Qed.

Lemma ffill_from_no_nan above s :
  Forall (fun x => is_nan x = false) s -> ffill_from above s = s.
Proof.
  intros Hs. revert above.
  induction Hs as [|x s Hx Hs IH]; intros above; simpl; [done|].
  by rewrite Hx, IH.
Qed.

Lemma length_pct_change s : length (pct_change s) = length s.
Proof.
  unfold pct_change, ffill. rewrite length_zip_with, length_shift1.
  assert (forall above, length (ffill_from above s) = length s) as ->.
  { induction s as [|x s IH]; intros above; simpl; [done|]. by rewrite IH. }
  lia.
Qed.

Lemma pct_change_0 s x :
  s !! 0%nat = Some x -> pct_change s !! 0%nat = Some nan.
Proof.
  unfold pct_change, ffill. destruct s as [|x' s]; [done|].
  intros [= ->]. simpl. by rewrite div_nan_r.
Qed.

Lemma pct_change_no_nan s i x y :
  Forall (fun x => is_nan x = false) s ->
  s !! S i = Some x -> s !! i = Some y ->
  pct_change s !! S i = Some (x / y - 1)%float.
Proof.
  intros Hs Hx Hy. unfold pct_change, ffill.
  rewrite ffill_from_no_nan by done.
  rewrite lookup_zip_with, Hx. simpl.
  rewrite lookup_shift1_S by by eapply lookup_lt_Some.
  by rewrite Hy.
Qed.

End PandasFacts.

Section MACD.

Import Pandas.

(** What the two masks hold at row [i]. *)
Lemma buy_mask_true macd signal i :
  length signal = length macd ->
  default false
    (zip_with andb (gt macd signal) (le (shift1 macd) (shift1 signal)) !! i)
  = true <-> crosses_above macd signal i.
Proof.
  intros Hlen. unfold gt, le, crosses_above.
  rewrite !lookup_zip_with. split.
  - destruct (macd !! i) as [m|] eqn:Hm; simpl; [|done].
    destruct (signal !! i) as [s|] eqn:Hs; simpl; [|done].
    destruct i as [|i].
    { rewrite !lookup_shift1_0 by by intros ->. simpl.
      rewrite ?leb_nan_l, ?andb_false_r. done. }
    apply lookup_lt_Some in Hm as Hi.
    rewrite !lookup_shift1_S by lia.
    replace (S i - 1)%nat with i by lia.
    destruct (macd !! i) as [m'|]; simpl; [|done].
    destruct (signal !! i) as [s'|]; simpl; [|done].
    intros [? ?]%andb_true_iff. exists m, s, m', s'.
    split_and!; try done. lia.
  - intros (m & s & m' & s' & Hm & Hs & Hm' & Hs' & Hi & Hgt & Hle).
    rewrite Hm, Hs. simpl. destruct i as [|i]; [lia|].
    apply lookup_lt_Some in Hm as Hlt.
    rewrite !lookup_shift1_S by lia.
    replace (S i - 1)%nat with i in * by lia.
    rewrite Hm', Hs'. simpl. by rewrite Hgt, Hle.
Qed.

Lemma sell_mask_true macd signal i :
  length signal = length macd ->
  default false
    (zip_with andb (lt macd signal) (ge (shift1 macd) (shift1 signal)) !! i)
  = true <-> crosses_below macd signal i.
Proof.
  intros Hlen. unfold lt, ge, crosses_below.
  rewrite !lookup_zip_with. split.
  - destruct (macd !! i) as [m|] eqn:Hm; simpl; [|done].
    destruct (signal !! i) as [s|] eqn:Hs; simpl; [|done].
    destruct i as [|i].
    { rewrite !lookup_shift1_0 by by intros ->. simpl.
      rewrite ?leb_nan_l, ?andb_false_r. done. }
    apply lookup_lt_Some in Hm as Hi.
    rewrite !lookup_shift1_S by lia.
    replace (S i - 1)%nat with i by lia.
    destruct (macd !! i) as [m'|]; simpl; [|done].
    destruct (signal !! i) as [s'|]; simpl; [|done].
    intros [? ?]%andb_true_iff. exists m, s, m', s'.
    split_and!; try done. lia.
  - intros (m & s & m' & s' & Hm & Hs & Hm' & Hs' & Hi & Hgt & Hle).
    rewrite Hm, Hs. simpl. destruct i as [|i]; [lia|].
    apply lookup_lt_Some in Hm as Hlt.
    rewrite !lookup_shift1_S by lia.
    replace (S i - 1)%nat with i in * by lia.
    rewrite Hm', Hs'. simpl. by rewrite Hgt, Hle.
Qed.

Lemma crosses_above_not_below macd signal i :
  crosses_above macd signal i -> ~ crosses_below macd signal i.
Proof.
  intros (m & s & _ & _ & Hm & Hs & _ & _ & _ & Hgt & _)
         (m0 & s0 & _ & _ & Hm0 & Hs0 & _ & _ & _ & Hlt & _).
  assert (m0 = m) as -> by congruence.
  assert (s0 = s) as -> by congruence.
  apply ltb_asym in Hgt. congruence.
Qed.

Lemma crosses_above_not_next macd signal i :
  crosses_above macd signal i -> ~ crosses_above macd signal (S i).
Proof.
  intros (m & s & _ & _ & Hm & Hs & _ & _ & _ & Hgt & _)
         (_ & _ & m' & s' & _ & _ & Hm' & Hs' & _ & _ & Hle).
  replace (S i - 1)%nat with i in * by lia.
  assert (m' = m) as -> by congruence.
  assert (s' = s) as -> by congruence.
  apply ltb_leb_false in Hgt. congruence.
Qed.

Lemma crosses_below_not_next macd signal i :
  crosses_below macd signal i -> ~ crosses_below macd signal (S i).
Proof.
  intros (m & s & _ & _ & Hm & Hs & _ & _ & _ & Hlt & _)
         (_ & _ & m' & s' & _ & _ & Hm' & Hs' & _ & _ & Hle).
  replace (S i - 1)%nat with i in * by lia.
  assert (m' = m) as -> by congruence.
  assert (s' = s) as -> by congruence.
  apply ltb_leb_false in Hlt. congruence.
Qed.

(** The signals in the order the method writes them: the sells over the
    buys over the zeros. *)
Lemma macd_generate_signals_Ok df df' :
  MACDStrategy.generate_signals df = Ok df' ->
  exists macd signal,
    get_column df "macd" = Ok macd /\ get_column df "signal" = Ok signal /\
    df' = set_signal_line
            (loc_set
               (zip_with andb (lt macd signal)
                  (ge (shift1 macd) (shift1 signal))) (-1)
               (loc_set
                  (zip_with andb (gt macd signal)
                     (le (shift1 macd) (shift1 signal))) 1
                  (replicate (len df) 0))) df.
Proof.
  unfold MACDStrategy.generate_signals, get_column. simpl.
  destruct (other_columns df !! "macd") as [macd|]; [|discriminate].
  destruct (other_columns df !! "signal") as [signal|]; [|discriminate].
  simpl. intros [= <-]. by exists macd, signal.
Qed.

Lemma macd_generate_signals_row df df' macd signal sl i z :
  get_column df "macd" = Ok macd ->
  get_column df "signal" = Ok signal ->
  length macd = len df -> length signal = len df ->
  MACDStrategy.generate_signals df = Ok df' ->
  signal_line df' = Some sl -> sl !! i = Some z ->
  (i < len df)%nat /\
  ((crosses_below macd signal i /\ z = -1) \/
   (~ crosses_below macd signal i /\ crosses_above macd signal i /\ z = 1) \/
   (~ crosses_below macd signal i /\ ~ crosses_above macd signal i /\
    z = 0)).
Proof.
  intros Hmacd Hsignal Hlm Hls
         (macd' & signal' & Hmacd' & Hsignal' & ->)%macd_generate_signals_Ok.
  assert (macd' = macd) as -> by congruence.
  assert (signal' = signal) as -> by congruence.
  intros [= <-] Hz.
  assert (i < len df)%nat as Hi.
  { apply lookup_lt_Some in Hz.
    by rewrite !length_loc_set, length_replicate in Hz. }
  split; [done|].
  rewrite !lookup_loc_set, lookup_replicate_2 in Hz by done. simpl in Hz.
  pose proof (buy_mask_true macd signal i) as Hbuy.
  pose proof (sell_mask_true macd signal i) as Hsell.
  destruct (default false (_ !! i)) eqn:Hs in Hz.
  { injection Hz as <-. left. split; [|done].
    apply Hsell; [lia|done]. }
  assert (~ crosses_below macd signal i).
  { intros ?%Hsell; [congruence|lia]. }
  destruct (default false (_ !! i)) eqn:Hb in Hz; injection Hz as <-.
  - right; left. split_and!; [done| |done]. apply Hbuy; [lia|done].
  - right; right. split_and!; [done| |done].
    intros ?%Hbuy; [congruence|lia].
Qed.

(** The signal of a row is a buy exactly where [macd] crosses above
    [signal], that is where [macd > signal] holds in the row and
    [macd <= signal] holds in the row before, and a sell exactly where it
    crosses below, with [<] and [>=].  No comparison with NaN holds, so a
    row after a NaN is neither; and no row is both, so that the sells,
    written last, take the place of no buy. *)
Theorem macd_signal_of_row df df' macd signal :
  get_column df "macd" = Ok macd ->
  get_column df "signal" = Ok signal ->
  length macd = len df -> length signal = len df ->
  MACDStrategy.generate_signals df = Ok df' ->
  exists sl,
    signal_line df' = Some sl /\ length sl = len df /\
    forall i z, sl !! i = Some z ->
      (z = 1 \/ z = 0 \/ z = -1) /\
      (z = 1 <-> crosses_above macd signal i) /\
      (z = -1 <-> crosses_below macd signal i).
Proof.
  intros Hmacd Hsignal Hlm Hls Hgen.
  pose proof Hgen as (? & ? & _ & _ & Hdf')%macd_generate_signals_Ok.
  assert (exists sl, signal_line df' = Some sl /\ length sl = len df)
    as (sl & Hsl & Hlen).
  { rewrite Hdf'. eexists. split; [done|].
    by rewrite !length_loc_set, length_replicate. }
  exists sl. split; [done|]. split; [done|]. intros i z Hz.
  destruct (macd_generate_signals_row df df' macd signal sl i z)
    as (_ & [[Hbelow ->]|[(Hnb & Habove & ->)|(Hnb & Hna & ->)]]);
    try done.
  - split_and!; [auto|split; [done|]|done].
    intros Habove. by apply crosses_above_not_below in Habove.
  - split_and!; [auto|done|split; [done|by intros ?]].
  - split_and!; [auto|split; [done|by intros ?]
                |split; [done|by intros ?]].
Qed.

(** The first row never signals, and no two rows in a row buy, or
    sell. *)
Theorem macd_signals_do_not_repeat df df' macd signal sl :
  get_column df "macd" = Ok macd ->
  get_column df "signal" = Ok signal ->
  length macd = len df -> length signal = len df ->
  MACDStrategy.generate_signals df = Ok df' ->
  signal_line df' = Some sl ->
  (forall z, sl !! 0%nat = Some z -> z = 0) /\
  (forall i, sl !! i = Some 1 -> sl !! S i <> Some 1) /\
  (forall i, sl !! i = Some (-1) -> sl !! S i <> Some (-1)).
Proof.
  intros Hmacd Hsignal Hlm Hls Hgen Hsl.
  pose proof (fun i z =>
                macd_generate_signals_row df df' macd signal sl i z
                  Hmacd Hsignal Hlm Hls Hgen Hsl) as Hrow.
  split_and!.
  - intros z (_ & [[(? & ? & ? & ? & ? & ? & ? & ? & ? & _) _]
                  |[(_ & (? & ? & ? & ? & ? & ? & ? & ? & ? & _) & _)
                   |(_ & _ & ?)]])%Hrow; [lia|lia|done].
  - intros i (_ & [[_ ?]|[(_ & Hi & _)|(_ & _ & ?)]])%Hrow
             (_ & [[_ ?]|[(_ & HS & _)|(_ & _ & ?)]])%Hrow; try done.
    by apply crosses_above_not_next in Hi.
  - intros i (_ & [[Hi _]|[(_ & _ & ?)|(_ & _ & ?)]])%Hrow
             (_ & [[HS _]|[(_ & _ & ?)|(_ & _ & ?)]])%Hrow; try done.
    by apply crosses_below_not_next in Hi.
Qed.

Section Periods.

Variable ewm_mean : Z -> list float -> list float.
Variables fast_period slow_period signal_period : Z.

(** With periods of 1 or more the indicators do not raise, and leave the
    index as it is. *)
Lemma macd_calculate_indicators_Ok df :
  1 <= fast_period -> 1 <= slow_period -> 1 <= signal_period ->
  exists df',
    MACDStrategy.calculate_indicators ewm_mean fast_period slow_period
      signal_period df = Ok df' /\
    index df' = index df /\
    is_Some (other_columns df' !! "macd") /\
    is_Some (other_columns df' !! "signal").
Proof.
  intros Hfast Hslow Hsignal.
  unfold MACDStrategy.calculate_indicators, MACDStrategy.ewm.
  rewrite !(proj2 (Z.ltb_ge _ 1)) by done.
  unfold get_column, set_column. simpl.
  repeat first [rewrite lookup_insert_eq
               |rewrite lookup_insert_ne by discriminate]; simpl.
  rewrite ?(proj2 (Z.ltb_ge _ 1)) by done. simpl.
  repeat first [rewrite lookup_insert_eq
               |rewrite lookup_insert_ne by discriminate]; simpl.
  repeat first [rewrite lookup_insert_eq
               |rewrite lookup_insert_ne by discriminate]; simpl.
  eexists. split; [done|]. simpl.
  repeat first [rewrite lookup_insert_eq
               |rewrite lookup_insert_ne by discriminate].
  split_and!; eauto.
Qed.

(** With a period below 1 the indicators raise: pandas refuses the
    span. *)
Lemma macd_calculate_indicators_raises df :
  fast_period < 1 \/ slow_period < 1 \/ signal_period < 1 ->
  MACDStrategy.calculate_indicators ewm_mean fast_period slow_period
    signal_period df = Raise ValueError.
Proof.
  intros Hbad.
  unfold MACDStrategy.calculate_indicators, MACDStrategy.ewm.
  destruct (Z.ltb_spec fast_period 1); [done|]. simpl.
  destruct (Z.ltb_spec slow_period 1); [done|]. simpl.
  unfold get_column, set_column. simpl.
  do 2 (repeat first [rewrite lookup_insert_eq
                     |rewrite lookup_insert_ne by discriminate]; simpl).
  destruct (Z.ltb_spec signal_period 1); [done|]. lia.
Qed.

(** The run of the MACD strategy stops in its indicators when one of its
    periods is below 1.  With periods of 1 or more, on fewer than two bars
    it gets through its indicators, its signals and the loop, and raises
    [ValueError] where it names the columns of the empty trade table. *)
Theorem macd_short_series initial_capital df :
  (fast_period < 1 \/ slow_period < 1 \/ signal_period < 1 ->
   backtest_outcome
     (H := MACDStrategy.strategy ewm_mean fast_period slow_period
             signal_period)
     initial_capital df = RaisedAt Indicators ValueError) /\
  (1 <= fast_period /\ 1 <= slow_period /\ 1 <= signal_period ->
   (len df < 2)%nat ->
   backtest_outcome
     (H := MACDStrategy.strategy ewm_mean fast_period slow_period
             signal_period)
     initial_capital df = RaisedAt ColumnNames ValueError).
Proof.
  unfold backtest_outcome.
  unfold calculate_indicators, generate_signals, MACDStrategy.strategy.
  split.
  - intros Hbad. by rewrite macd_calculate_indicators_raises.
  - intros (Hfast & Hslow & Hsignal) Hlen.
    destruct (macd_calculate_indicators_Ok df)
      as (df1 & Hind & Hidx & [macd Hmacd] & [signal Hsig]); [done..|].
    rewrite Hind. cbn [at_place].
    unfold MACDStrategy.generate_signals, get_column.
    cbn [other_columns set_signal_line].
    rewrite Hmacd, Hsig. cbn [mbind result_bind column signal_line at_place].
    apply simulate_outcome_short. unfold len in *. simpl. by rewrite Hidx.
Qed.

End Periods.

End MACD.

Lemma macd_signal_of_row_witness :
  exists df' sl,
    MACDStrategy.generate_signals Tables.crossing = Ok df' /\
    signal_line df' = Some sl /\ length sl = len Tables.crossing.
Proof.
  eexists.
  edestruct (macd_signal_of_row Tables.crossing)
    with (macd := [0; 2; 3; 0]%float) (signal := [1; 1; 1; 1]%float)
    as (sl & Hsl & Hlen & _);
    [vm_compute; reflexivity | vm_compute; reflexivity
    | reflexivity | reflexivity | vm_compute; reflexivity |].
  exists sl. split; [vm_compute; reflexivity|]. split; [exact Hsl|exact Hlen].
Defined.

Lemma macd_signals_do_not_repeat_witness :
  exists df',
    MACDStrategy.generate_signals Tables.crossing = Ok df' /\
    signal_line df' = Some [0; 1; 0; -1] /\
    [0; 1; 0; -1] !! 2%nat <> Some 1.
Proof.
  eexists. split; [vm_compute; reflexivity|]. split; [reflexivity|].
  edestruct (macd_signals_do_not_repeat Tables.crossing)
    with (macd := [0; 2; 3; 0]%float) (signal := [1; 1; 1; 1]%float)
         (sl := [0; 1; 0; -1])
    as (_ & Hbuy & _);
    [vm_compute; reflexivity | vm_compute; reflexivity
    | reflexivity | reflexivity | vm_compute; reflexivity
    | reflexivity |].
  apply (Hbuy 1%nat). reflexivity.
Defined.

Lemma macd_short_series_witness :
  backtest_outcome (H := MACDStrategy.strategy Tables.last_cell_only 12 26 9)
    1000 Examples.one_bar = RaisedAt ColumnNames ValueError /\
  backtest_outcome (H := MACDStrategy.strategy Tables.last_cell_only 0 26 9)
    1000 Examples.one_bar = RaisedAt Indicators ValueError.
Proof.
  split.
  - apply (macd_short_series Tables.last_cell_only 12 26 9 1000
             Examples.one_bar); [lia | vm_compute; lia].
  - apply (macd_short_series Tables.last_cell_only 0 26 9 1000
             Examples.one_bar). lia.
Defined.

(** * The display and the page *)

Section Cards.

Import Visualizations.

(** The trade metrics always hold the three counts and a duration that
    is a number. *)
Lemma trade_metrics_counts trades_df m0 m :
  trade_metrics trades_df m0 = Ok m ->
  is_Some (Dict.get m "total_trades") /\
  is_Some (Dict.get m "winning_trades") /\
  is_Some (Dict.get m "losing_trades") /\
  ((exists f, Dict.get m "avg_trade_duration" = Some (PyFloat f)) \/
   Dict.get m "avg_trade_duration" = Some (PyInt 0)).
Proof.
  unfold trade_metrics.
  destruct (0 <? length trades_df)%nat; cycle 1.
  { intros [= <-]. split_and!; [dict_get; eauto..|right; by dict_get]. }
  cbv beta iota zeta.
  set (w := Z.of_nat (length (List.filter _ trades_df))).
  set (n := Z.of_nat (length trades_df) - w).
  destruct (w >? 0), (n >? 0);
    cbv beta iota zeta delta [add_arrow PyVal.ne0 andb];
    intros Hm; ok_steps.
  all: split_and!; [dict_get; eauto..|left; eexists; by dict_get].
Qed.

Lemma get_foldl_format_count_in metrics keys fm key :
  key ∈ keys ->
  Dict.get (foldl (format_count metrics) fm keys) key =
  match Dict.get metrics key with
  | Some v => Some v
  | None => Dict.get fm key
  end.
Proof.
  revert fm. induction keys as [|k keys IH]; intros fm Hin; cbn [foldl].
  { by apply elem_of_nil in Hin. }
  destruct (decide (key ∈ keys)) as [Hin'|Hnin].
  - rewrite IH by done.
    destruct (Dict.get metrics key) as [v|] eqn:Hv; [done|].
    unfold format_count.
    destruct (Dict.get metrics k) as [v'|] eqn:Hk; [|done].
    apply dict_get_set_ne. congruence.
  - apply elem_of_cons in Hin as [->|?]; [|done].
    rewrite get_foldl_format_count by done.
    unfold format_count. destruct (Dict.get metrics k); [|done].
    apply dict_get_set_eq.
Qed.

(** The duration is written last and under its own key only. *)
Lemma get_formatted metrics formatted key :
  format_metrics_for_display metrics = Ok formatted ->
  key <> "avg_trade_duration" ->
  Dict.get formatted key =
  Dict.get (foldl (format_count metrics)
              (foldl (format_numeric metrics) [] numeric_metrics)
              count_metrics) key.
Proof.
  unfold format_metrics_for_display.
  generalize (foldl (format_count metrics)
                (foldl (format_numeric metrics) [] numeric_metrics)
                count_metrics).
  intros fm Hfmt Hkey.
  destruct (Dict.get metrics "avg_trade_duration") as [d|];
    [|by injection Hfmt as <-].
  destruct (format_duration d) as [s|]; [|discriminate Hfmt].
  injection Hfmt as <-. by rewrite dict_get_set_ne.
Qed.

Lemma count_is_not_numeric key :
  key ∈ count_metrics ->
  key <> "avg_trade_duration" /\ key ∉ numeric_metrics.
Proof.
  intros Hkey. unfold count_metrics in Hkey. unfold numeric_metrics.
  rewrite !not_elem_of_cons.
  repeat (apply elem_of_cons in Hkey as [->|Hkey];
          [split_and!; try discriminate; apply not_elem_of_nil|]).
  by apply elem_of_nil in Hkey.
Qed.

Lemma numeric_is_not_count key :
  key ∈ numeric_metrics ->
  key <> "avg_trade_duration" /\ key ∉ count_metrics.
Proof.
  intros Hkey. unfold numeric_metrics in Hkey. unfold count_metrics.
  rewrite !not_elem_of_cons.
  repeat (apply elem_of_cons in Hkey as [->|Hkey];
          [split_and!; try discriminate; apply not_elem_of_nil|]).
  by apply elem_of_nil in Hkey.
Qed.

Lemma get_counts metrics key :
  key ∈ count_metrics ->
  Dict.get (foldl (format_count metrics)
              (foldl (format_numeric metrics) [] numeric_metrics)
              count_metrics) key
  = Dict.get metrics key.
Proof.
  intros Hkey. destruct (count_is_not_numeric key Hkey) as [_ Hnum].
  rewrite get_foldl_format_count_in by done.
  destruct (Dict.get metrics key); [done|].
  rewrite get_foldl_format_numeric. by rewrite decide_False.
Qed.

(** The display passes the three counts through as they are, and shows
    none that the metrics do not have. *)
Theorem display_of_count metrics formatted key :
  key ∈ count_metrics ->
  format_metrics_for_display metrics = Ok formatted ->
  Dict.get formatted key = Dict.get metrics key.
Proof.
  intros Hkey Hfmt. destruct (count_is_not_numeric key Hkey) as [Hdur _].
  rewrite (get_formatted metrics) by done. by apply get_counts.
Qed.

(** A gain that rounds to [0.00] has an up arrow in the metrics and a down
    arrow in the display, which reads the sign off the rounded number. *)
Theorem display_turns_small_gain_down metrics formatted key f :
  key ∈ numeric_metrics ->
  Dict.get metrics key = Some (BaseStrategy.add_arrow (PyFloat f)) ->
  PyFloat.gt0 f = true ->
  PyFloat.format_fixed 2 f = "0.00" ->
  format_metrics_for_display metrics = Ok formatted ->
  Dict.get metrics key = Some (PyStr "0.00 ↑") /\
  Dict.get formatted key = Some (PyStr "0.00 ↓").
Proof.
  intros Hkey Hget Hpos Hzero Hfmt.
  assert (BaseStrategy.add_arrow (PyFloat f) = PyStr "0.00 ↑") as Harrow.
  { unfold BaseStrategy.add_arrow, PyVal.with_arrow.
    by rewrite Hzero, Hpos. }
  rewrite Harrow in Hget. split; [done|].
  destruct (numeric_is_not_count key Hkey) as [Hdur Hcount].
  rewrite (get_formatted metrics) by done.
  rewrite get_foldl_format_count, get_foldl_format_numeric by done.
  rewrite decide_True by done.
  unfold numeric_entry. rewrite Hget. f_equal.
Qed.

Lemma mapM_getitem d keys :
  (forall key, key ∈ keys -> is_Some (Dict.get d key)) ->
  exists cards, mapM (App.getitem d) keys = Ok cards /\
                length cards = length keys.
Proof.
  induction keys as [|k keys IH]; intros Hkeys.
  { by exists []. }
  destruct (Hkeys k) as [v Hv]; [by left|].
  destruct IH as (cards & Hcards & Hlen).
  { intros key ?. apply Hkeys. by right. }
  exists (v :: cards). cbn [mapM]. rewrite Hcards.
  unfold App.getitem. rewrite Hv. simpl. by rewrite Hlen.
Qed.

Section Computed.

Variable float_pow : float -> float -> float.

(** Whatever metrics a call computes, the display of them does not raise
    and has all twelve entries the cards of the page read. *)
Theorem cards_of_computed_metrics df trades_df df' m :
  calculate_performance_metrics float_pow df trades_df = (df', Ok m) ->
  exists formatted cards,
    format_metrics_for_display m = Ok formatted /\
    App.read_cards formatted = Ok cards /\ length cards = 12%nat.
Proof.
  intros (m0 & tv & _ & _ & _ & Hm)%calculate_performance_metrics_Ok.
  apply trade_metrics_counts in Hm as (Htotal & Hwin & Hlose & Hdur).
  assert (exists formatted, format_metrics_for_display m = Ok formatted)
    as [formatted Hfmt].
  { unfold format_metrics_for_display.
    destruct Hdur as [[f ->]| ->]; simpl; eauto. }
  exists formatted.
  destruct (mapM_getitem formatted App.metric_cards) as (cards & ? & ?);
    [|by exists cards].
  intros key Hkey.
  destruct (decide (key = "avg_trade_duration")) as [->|Hne].
  { revert Hfmt. unfold format_metrics_for_display.
    destruct Hdur as [[f ->]| ->]; simpl; intros [= <-];
      rewrite dict_get_set_eq; eauto. }
  rewrite (get_formatted m) by done.
  destruct (decide (key ∈ count_metrics)) as [Hcount|Hncount].
  { rewrite get_counts by done.
    unfold count_metrics in Hcount.
    repeat (apply elem_of_cons in Hcount as [->|Hcount]; [done|]).
    by apply elem_of_nil in Hcount. }
  rewrite get_foldl_format_count by done.
  rewrite get_foldl_format_numeric. rewrite decide_True; [eauto|].
  unfold App.metric_cards in Hkey. unfold numeric_metrics.
  unfold count_metrics in Hncount.
  repeat (apply elem_of_cons in Hkey as [->|Hkey];
          [first [by rewrite !elem_of_cons; auto 20
                 |exfalso; apply Hncount; rewrite !elem_of_cons; auto
                 |done]|]).
  by apply elem_of_nil in Hkey.
Qed.

End Computed.

End Cards.

Lemma display_of_count_witness :
  exists formatted,
    Visualizations.format_metrics_for_display Examples.year_metrics
    = Ok formatted /\
    Dict.get formatted "total_trades"
    = Dict.get Examples.year_metrics "total_trades".
Proof.
  eexists. split; [vm_compute; reflexivity|].
  eapply (display_of_count Examples.year_metrics).
  - repeat constructor.
  - vm_compute; reflexivity.
Defined.


Lemma display_turns_small_gain_down_witness :
  exists formatted,
    Visualizations.format_metrics_for_display Tables.small_gain
    = Ok formatted /\
    Dict.get Tables.small_gain "total_return" = Some (PyStr "0.00 ↑") /\
    Dict.get formatted "total_return" = Some (PyStr "0.00 ↓").
Proof.
  eexists. split; [vm_compute; reflexivity|].
  eapply (display_turns_small_gain_down Tables.small_gain _ "total_return"
            0x1.0624dd2f1a9fcp-10%float).
  - repeat constructor.
  - reflexivity.
  - reflexivity.
  - vm_compute; reflexivity.
  - vm_compute; reflexivity.
Defined.

Lemma cards_of_computed_metrics_witness :
  exists df' m formatted cards,
    calculate_performance_metrics Examples.pow_exponent_one
      Examples.one_year_table Examples.winning_trades = (df', Ok m) /\
    Visualizations.format_metrics_for_display m = Ok formatted /\
    App.read_cards formatted = Ok cards /\ length cards = 12%nat.
Proof.
  eexists _, _.
  edestruct (cards_of_computed_metrics Examples.pow_exponent_one
               Examples.one_year_table Examples.winning_trades)
    as (formatted & cards & Hfmt & Hcards & Hlen);
    [vm_compute; reflexivity|].
  exists formatted, cards.
  split; [vm_compute; reflexivity|].
  split_and!; [exact Hfmt | exact Hcards | exact Hlen].
Defined.

(** * The portfolio plot *)

Section Plot.

Import Pandas PortfolioPlot.

(** The cumulative product of a series that starts with NaN and of the
    same series started with 1 differ in the first cell only. *)
Lemma cumprod_nan_head l :
  Series.cumprod (nan :: l) = nan :: tail (Series.cumprod (1%float :: l)).
Proof. reflexivity. Qed.

(** The plot of the table of a run writes the running product of the
    returns over the cumulative returns of the engine: without the 1 the
    engine takes off it, and with NaN in the first row.  It also adds the
    [daily_returns] column, which is [returns] with NaN in the first
    row. *)
Theorem portfolio_plot_overwrites_cumulative_returns
    initial_capital df df' trades_df tv :
  simulate initial_capital df = Ok (df', trades_df) ->
  total_value df' = Some tv ->
  Forall (fun x => is_nan x = false) tv ->
  exists r df'' heights colors,
    returns df' = Some r /\
    cumulative_returns df' =
      Some ((fun x => x - 1)%float <$>
            Series.cumprod ((fun x => 1 + x)%float <$> r)) /\
    create_portfolio_plot df' = Ok (df'', heights, colors) /\
    cumulative_returns df'' =
      Some (nan :: tail (Series.cumprod ((fun x => 1 + x)%float <$> r))) /\
    other_columns df'' !! "daily_returns" = Some (nan :: tail r) /\
    total_value df'' = total_value df' /\ returns df'' = returns df'.
Proof.
  intros Hsim Htv Hnan.
  apply simulate_Ok in Hsim as (s & r & Hlen & Hrun & _ & _ & Hr & Heq).
  pose proof Hrun as (Hidx & _)%run_loop_Ok.
  pose proof (run_loop_return_of_bar _ _ Hrun) as Hrows.
  pose proof Hrun as (_ & _ & _ & _ & _ & Hrow0)%for_each_loop_body_frame.
  destruct (Hrow0 0%nat) as (_ & _ & _ & _ & Hr0);
    [rewrite elem_of_seq; lia|].
  destruct (run_loop_lengths _ _ (len df) Hrun)
    as (tv' & r' & Htv' & Hltv & Hr' & Hlr).
  { simpl. eexists _, _. by rewrite !length_replicate. }
  assert (returns df' = Some r) as Hret by by rewrite Heq.
  assert (cumulative_returns df' =
            Some ((fun x => x - 1)%float <$>
                  Series.cumprod ((fun x => 1 + x)%float <$> r))) as Hcum
    by by rewrite Heq.
  assert (tv' = tv) as ->.
  { rewrite Heq in Htv. simpl in Htv. congruence. }
  assert (r' = r) as -> by congruence.
  assert (r !! 0%nat = Some 0%float) as Hhead.
  { rewrite Hr in Hr0. simpl in Hr0. unfold iloc, at_index in Hr0.
    simpl in Hr0. rewrite lookup_replicate_2 in Hr0 by lia.
    by destruct (r !! 0%nat); [injection Hr0 as ->|]. }
  assert (pct_change tv = nan :: tail r) as Hpct.
  { apply list_eq. intros [|i].
    - destruct tv as [|x tv]; [simpl in Hltv; lia|].
      by rewrite (pct_change_0 _ x).
    - destruct (decide (S i < len df)%nat) as [Hi|Hi]; cycle 1.
      { rewrite !(lookup_ge_None_2 _ (S i)); [done|..].
        - destruct r; simpl in *; lia.
        - rewrite length_pct_change. lia. }
      destruct (Hrows (S i)) as (x & y & Hx & Hy & Hri).
      { unfold len in *. simpl in *. lia. }
      replace (S i - 1)%nat with i in Hy by lia.
      apply iloc_Ok in Hx as (? & ? & Hx), Hy as (? & ? & Hy),
                        Hri as (? & ? & Hri).
      simplify_eq. rewrite (pct_change_no_nan _ _ x y) by done.
      destruct r; [done|]. by simpl in *. }
  clear Heq Hrun Htv' Hr' Hr Hrows Hrow0 Hr0 Hidx s.
  exists r. unfold create_portfolio_plot. rewrite Htv.
  cbn [mbind result_bind column]. unfold get_column.
  cbn [other_columns set_column]. rewrite lookup_insert_eq.
  cbn [mbind result_bind column total_value set_cumulative_returns
       set_column].
  rewrite Htv. cbn [mbind result_bind column].
  eexists _, _, _. split; [done|]. split; [done|]. split; [done|].
  unfold set_cumulative_returns, set_column.
  cbn [cumulative_returns other_columns total_value returns].
  rewrite lookup_insert_eq, Hpct. split_and!; try done.
  destruct r as [|x r]; [done|]. injection Hhead as ->.
  cbn [fmap list_fmap tail].
  rewrite cumprod_nan_head. do 3 f_equal.
Qed.

End Plot.

Lemma portfolio_plot_witness :
  exists df' trades_df r df'' heights colors,
    simulate 1000 Examples.scenario = Ok (df', trades_df) /\
    returns df' = Some r /\
    PortfolioPlot.create_portfolio_plot df' = Ok (df'', heights, colors) /\
    cumulative_returns df'' =
      Some (nan :: tail (Series.cumprod ((fun x => 1 + x)%float <$> r))).
Proof.
  eexists _, _.
  edestruct (portfolio_plot_overwrites_cumulative_returns 1000
               Examples.scenario)
    as (r & df'' & heights & colors & Hr & _ & Hplot & Hcum & _);
    [vm_compute; reflexivity | vm_compute; reflexivity
    | repeat constructor |].
  exists r, df'', heights, colors.
  split; [vm_compute; reflexivity|].
  split_and!; [exact Hr | exact Hplot | exact Hcum].
Defined.
